(** * Market Survey Analysis Tool: the workbook generator and its formulas

    A shallow embedding of [generate_msat.py].  The generator builds an
    in-memory workbook (three worksheets of cells, one list-validation and
    one conditional-format rule) whose derived cells hold formula strings.
    The strings are kept exactly as the generator builds them; they are
    read back by a small parser and evaluated by a model of the fragment
    of the spreadsheet formula language that the generator emits.

    Fonts, fills, borders, alignments, number formats, column widths,
    merged cells and freeze panes only change presentation and are left
    out of the model. *)

From Stdlib Require Import ZArith QArith Qcanon Qround Qabs Lqa.
From Stdlib Require Import String Ascii List Bool Lia DecimalString.
From stdpp Require Import base option gmap strings list.

Local Open Scope string_scope.
Local Open Scope list_scope.

(** ** Values *)

(** Error values of the formula language. *)
Inductive xl_error := DIV0 | VALUE | REF | NAME.

(** What a cell holds or a formula returns.  Numbers are exact rationals
    ([0.45] is [45/100]); a text that starts with [=] and is longer than
    one character is a formula (the rule openpyxl and the spreadsheet
    both apply to an entered string). *)
Inductive value :=
| VBlank
| VNum (x : Qc)
| VText (s : string)
| VBool (b : bool)
| VErr (e : xl_error).

#[global] Instance xl_error_eq_dec : EqDecision xl_error.
Proof. solve_decision. Defined.

#[global] Instance value_eq_dec : EqDecision value.
Proof. solve_decision. Defined.

Definition num (z : Z) : Qc := Q2Qc (inject_Z z).
Definition pct (hundredths : Z) : Qc := Q2Qc (hundredths # 100).

(** ** Strings *)

(** The double-quote character, which the formulas use for their text
    literals. *)
Definition dq : string := String "034"%char EmptyString.

(** The newline character. *)
Definition nl : string := String "010"%char EmptyString.

(** [lit s] is the formula text of the string literal [s] (for a literal
    without inner quotes). *)
Definition lit (s : string) : string := dq +:+ s +:+ dq.

(** Python's [str(n)] for a non-negative integer. *)
Definition str (n : nat) : string := NilZero.string_of_uint (Nat.to_uint n).

Definition is_digit (c : ascii) : bool :=
  let n := nat_of_ascii c in (48 <=? n)%nat && (n <=? 57)%nat.
Definition is_upper (c : ascii) : bool :=
  let n := nat_of_ascii c in (65 <=? n)%nat && (n <=? 90)%nat.
Definition is_lower (c : ascii) : bool :=
  let n := nat_of_ascii c in (97 <=? n)%nat && (n <=? 122)%nat.
Definition is_alpha (c : ascii) : bool := is_upper c || is_lower c.

Definition upcase (c : ascii) : ascii :=
  if is_lower c then ascii_of_nat (nat_of_ascii c - 32) else c.

Fixpoint upcase_string (s : string) : string :=
  match s with
  | EmptyString => EmptyString
  | String c r => String (upcase c) (upcase_string r)
  end.

(** Text comparison of the formula language ([=], [<>]): letter case is
    ignored. *)
Definition text_eqb (s t : string) : bool :=
  String.eqb (upcase_string s) (upcase_string t).

Fixpoint digits_value (acc : nat) (cs : list ascii) : nat :=
  match cs with
  | [] => acc
  | c :: r => digits_value (10 * acc + (nat_of_ascii c - 48)) r
  end.

Fixpoint letters_value (acc : nat) (cs : list ascii) : nat :=
  match cs with
  | [] => acc
  | c :: r => letters_value (26 * acc + (nat_of_ascii (upcase c) - 64)) r
  end.

Fixpoint span (p : ascii -> bool) (cs : list ascii) : list ascii * list ascii :=
  match cs with
  | [] => ([], [])
  | c :: r => if p c then let '(a, b) := span p r in (c :: a, b) else ([], cs)
  end.

(** A cell address as it appears in a formula or a coordinate string:
    column and row, each absolute ([$]) or relative. *)
Record cellref := CellRef {
  col_abs : bool;
  ref_col : nat;
  row_abs : bool;
  ref_row : nat
}.

#[global] Instance cellref_eq_dec : EqDecision cellref.
Proof. solve_decision. Defined.

Definition strip_dollar (cs : list ascii) : bool * list ascii :=
  match cs with
  | "$"%char :: r => (true, r)
  | _ => (false, cs)
  end.

(** Reads an address such as [B7], [$F7] or [$C$12]; the whole input must
    be consumed. *)
Definition parse_cellref (cs : list ascii) : option cellref :=
  let '(ca, cs1) := strip_dollar cs in
  let '(letters, cs2) := span is_alpha cs1 in
  let '(ra, cs3) := strip_dollar cs2 in
  let '(digits, cs4) := span is_digit cs3 in
  match letters, digits, cs4 with
  | _ :: _, _ :: _, [] =>
      Some (CellRef ca (letters_value 0 letters) ra (digits_value 0 digits))
  | _, _, _ => None
  end.

Definition chars (s : string) : list ascii := list_ascii_of_string s.

(** [coordinate_to_tuple]: the (row, column) key of a coordinate. *)
Definition coordinate_to_tuple (coord : string) : option (nat * nat) :=
  match parse_cellref (chars coord) with
  | Some r => Some (ref_row r, ref_col r)
  | None => None
  end.

(** ** Worksheets and workbooks *)

(** A list validation as the generator configures it.  The three
    optional fields are arguments of the constructor that the generator
    may pass or leave out; for one left out ([None]) the constructor's
    default applies, which belongs to the library and not to the
    generator. *)
Record DataValidation := {
  dv_type : string;
  dv_formula1 : string;
  dv_allow_blank : bool;
  dv_showErrorMessage : option bool;
  dv_showInputMessage : option bool;
  dv_errorStyle : option string;
  dv_error : string;
  dv_errorTitle : string;
  dv_prompt : string;
  dv_promptTitle : string;
  dv_sqref : list (nat * nat)
}.

(** A formula-based conditional-format rule: the range it is attached to
    and its formula, written for the range's top-left cell. *)
Record FormulaRule := {
  rule_range : string;
  rule_formula : string;
  rule_fill : string
}.

Record Worksheet := {
  title : string;
  cells : gmap (nat * nat) value;
  data_validations : list DataValidation;
  conditional_formatting : list FormulaRule
}.

Record Workbook := {
  sheets : list Worksheet;
  active : option string
}.

Definition new_sheet (name : string) : Worksheet :=
  {| title := name; cells := ∅; data_validations := []; conditional_formatting := [] |}.

(** [ws.cell(row=r, column=c, value=v)] *)
Definition ws_cell (r c : nat) (v : value) (ws : Worksheet) : Worksheet :=
  {| title := title ws;
     cells := <[(r, c) := v]> (cells ws);
     data_validations := data_validations ws;
     conditional_formatting := conditional_formatting ws |}.

(** [ws[coord] = v] *)
Definition ws_setitem (coord : string) (v : value) (ws : Worksheet) : Worksheet :=
  match coordinate_to_tuple coord with
  | Some (r, c) => ws_cell r c v ws
  | None => ws
  end.

Definition set_title (name : string) (ws : Worksheet) : Worksheet :=
  {| title := name;
     cells := cells ws;
     data_validations := data_validations ws;
     conditional_formatting := conditional_formatting ws |}.

(** Python's [enumerate(xs, start)] *)
Fixpoint enumerate {A} (xs : list A) (start : nat) : list (nat * A) :=
  match xs with
  | [] => []
  | x :: r => (start, x) :: enumerate r (S start)
  end.

(** A [for] loop over a list that updates the worksheet. *)
Definition for_each {A} (xs : list A) (body : A -> Worksheet -> Worksheet)
    (ws : Worksheet) : Worksheet :=
  fold_left (fun w x => body x w) xs ws.

(** ** The generator *)

(** *** [setup_market_averages_sheet] *)

Definition bedroom_types : list (string * Qc) :=
  [ ("Studio", pct 45);
    ("1 BR", pct 50);
    ("2 BR", pct 55);
    ("3 BR", pct 60);
    ("4 BR", pct 55);
    ("5 BR", pct 50) ].

Definition market_averages_headers : list string := ["Bedroom Type"; "Prelease %"].

Definition market_avg_refs : gmap string string :=
  <["Studio" := "$C$7"]> (
  <["1 BR" := "$C$8"]> (
  <["2 BR" := "$C$9"]> (
  <["3 BR" := "$C$10"]> (
  <["4 BR" := "$C$11"]> (
  <["5 BR" := "$C$12"]> ∅))))).

Definition setup_market_averages_sheet (ws : Worksheet) : Worksheet * gmap string string :=
  let ws := set_title "Market Averages" ws in
  let ws := ws_setitem "B2" (VText "Market Average Prelease Percentages") ws in
  let ws := ws_setitem "B4"
    (VText "Enter the market average prelease % for each bedroom type below.") ws in
  let ws := for_each (enumerate market_averages_headers 2)
    (fun '(col, header) => ws_cell 6 col (VText header)) ws in
  let ws := for_each (enumerate bedroom_types 7)
    (fun '(i, (bed_type, default_pct)) w =>
       let w := ws_cell i 2 (VText bed_type) w in
       ws_cell i 3 (VNum default_pct) w) ws in
  (ws, market_avg_refs).

(** *** [setup_property_data_sheet] *)

Definition property_data_headers : list (string * nat) :=
  [ ("Property Name", 25); ("Floorplan Name", 20); ("Bedrooms", 12); ("Units", 10);
    ("Prelease %", 12); ("Effective %", 12); ("Total Beds", 12); ("Leased Beds", 12) ].

Definition bedroom_options : string := lit "Studio,1 BR,2 BR,3 BR,4 BR,5 BR".

(** [DataValidation(type="list", formula1=bedroom_options,
    allow_blank=True)] with its four texts assigned: neither the call nor
    a later assignment gives [showErrorMessage], [showInputMessage] or
    [errorStyle]. *)
Definition bedroom_dv : DataValidation :=
  {| dv_type := "list";
     dv_formula1 := bedroom_options;
     dv_allow_blank := true;
     dv_showErrorMessage := None;
     dv_showInputMessage := None;
     dv_errorStyle := None;
     dv_error := "Please select a valid bedroom type";
     dv_errorTitle := "Invalid Entry";
     dv_prompt := "Select bedroom type";
     dv_promptTitle := "Bedrooms";
     dv_sqref := [] |}.

(** [ws.add_data_validation(dv)]: the worksheet keeps the validation
    object itself. *)
Definition add_data_validation (dv : DataValidation) (ws : Worksheet) : Worksheet :=
  {| title := title ws;
     cells := cells ws;
     data_validations := data_validations ws ++ [dv];
     conditional_formatting := conditional_formatting ws |}.

Definition dv_add_cell (rc : nat * nat) (dv : DataValidation) : DataValidation :=
  {| dv_type := dv_type dv;
     dv_formula1 := dv_formula1 dv;
     dv_allow_blank := dv_allow_blank dv;
     dv_showErrorMessage := dv_showErrorMessage dv;
     dv_showInputMessage := dv_showInputMessage dv;
     dv_errorStyle := dv_errorStyle dv;
     dv_error := dv_error dv;
     dv_errorTitle := dv_errorTitle dv;
     dv_prompt := dv_prompt dv;
     dv_promptTitle := dv_promptTitle dv;
     dv_sqref := dv_sqref dv ++ [rc] |}.

(** [dv.add(cell)] after the object was registered with the worksheet:
    the worksheet sees the change, since it holds the same object.  [i]
    is the position at which the object was registered. *)
Definition dv_add (i : nat) (rc : nat * nat) (ws : Worksheet) : Worksheet :=
  {| title := title ws;
     cells := cells ws;
     data_validations := alter (dv_add_cell rc) i (data_validations ws);
     conditional_formatting := conditional_formatting ws |}.

Definition add_conditional_formatting (range : string) (formula fill : string)
    (ws : Worksheet) : Worksheet :=
  {| title := title ws;
     cells := cells ws;
     data_validations := data_validations ws;
     conditional_formatting :=
       conditional_formatting ws ++
       [ {| rule_range := range; rule_formula := formula; rule_fill := fill |} ] |}.

(** Effective % (column G). *)
Definition effective_formula (row : nat) : string :=
  "=IF(F" +:+ str row +:+ "<>" +:+ lit EmptyString +:+ ",F" +:+ str row +:+ "," +:+
  "IF(D" +:+ str row +:+ "=" +:+ lit "Studio" +:+ ",'Market Averages'!$C$7," +:+
  "IF(D" +:+ str row +:+ "=" +:+ lit "1 BR" +:+ ",'Market Averages'!$C$8," +:+
  "IF(D" +:+ str row +:+ "=" +:+ lit "2 BR" +:+ ",'Market Averages'!$C$9," +:+
  "IF(D" +:+ str row +:+ "=" +:+ lit "3 BR" +:+ ",'Market Averages'!$C$10," +:+
  "IF(D" +:+ str row +:+ "=" +:+ lit "4 BR" +:+ ",'Market Averages'!$C$11," +:+
  "IF(D" +:+ str row +:+ "=" +:+ lit "5 BR" +:+ ",'Market Averages'!$C$12," +:+
  lit EmptyString +:+ ")))))))".

(** Total Beds (column H). *)
Definition beds_formula (row : nat) : string :=
  "=IF(OR(D" +:+ str row +:+ "=" +:+ lit EmptyString +:+ ",E" +:+ str row +:+ "=" +:+
    lit EmptyString +:+ ")," +:+ lit EmptyString +:+ "," +:+
  "IF(D" +:+ str row +:+ "=" +:+ lit "Studio" +:+ ",1," +:+
  "IF(D" +:+ str row +:+ "=" +:+ lit "1 BR" +:+ ",1," +:+
  "IF(D" +:+ str row +:+ "=" +:+ lit "2 BR" +:+ ",2," +:+
  "IF(D" +:+ str row +:+ "=" +:+ lit "3 BR" +:+ ",3," +:+
  "IF(D" +:+ str row +:+ "=" +:+ lit "4 BR" +:+ ",4," +:+
  "IF(D" +:+ str row +:+ "=" +:+ lit "5 BR" +:+ ",5,0))))))*E" +:+ str row +:+ ")".

(** Leased Beds (column I). *)
Definition leased_formula (row : nat) : string :=
  "=IF(OR(H" +:+ str row +:+ "=" +:+ lit EmptyString +:+ ",G" +:+ str row +:+ "=" +:+
    lit EmptyString +:+ ")," +:+ lit EmptyString +:+ ",ROUND(H" +:+ str row +:+
    "*G" +:+ str row +:+ ",0))".

Definition market_avg_rule_formula : string :=
  "AND($F7=" +:+ lit EmptyString +:+ ",$D7<>" +:+ lit EmptyString +:+ ")".

Definition property_data_row (row : nat) (ws : Worksheet) : Worksheet :=
  let ws := ws_cell row 2 (VText EmptyString) ws in
  let ws := ws_cell row 3 (VText EmptyString) ws in
  let ws := ws_cell row 4 (VText EmptyString) ws in
  let ws := dv_add 0 (row, 4) ws in
  let ws := ws_cell row 5 (VText EmptyString) ws in
  let ws := ws_cell row 6 (VText EmptyString) ws in
  let ws := ws_cell row 7 (VText (effective_formula row)) ws in
  let ws := ws_cell row 8 (VText (beds_formula row)) ws in
  ws_cell row 9 (VText (leased_formula row)) ws.

(** The third argument, the coordinates returned by the Market Averages
    builder, is not used by the body: the formulas spell the coordinates
    out. *)
Definition setup_property_data_sheet (ws : Worksheet)
    (market_avg_refs : gmap string string) : Worksheet :=
  let ws := set_title "Property Data" ws in
  let ws := ws_setitem "B2" (VText "Property & Floorplan Data Entry") ws in
  let ws := ws_setitem "B4"
    (VText "Enter property data below. Leave 'Prelease %' blank to use market averages.") ws in
  let ws := for_each (enumerate property_data_headers 2)
    (fun '(col, (header, width)) => ws_cell 6 col (VText header)) ws in
  let ws := add_data_validation bedroom_dv ws in
  let ws := for_each (seq 7 100) property_data_row ws in
  add_conditional_formatting "B7:I106" market_avg_rule_formula "FFF2CC" ws.

(** *** [setup_report_sheet] *)

Definition report_headers : list (string * nat) :=
  [ ("Property Name", 25); ("Floorplan", 18); ("Beds/Unit", 12); ("Total Beds", 12);
    ("Prelease %", 12); ("Leased Beds", 12) ].

(** The pass-through formula of the report for column [c] of the entry
    sheet. *)
Definition mirror_formula (c : string) (data_row : nat) : string :=
  "=IF('Property Data'!" +:+ c +:+ str data_row +:+ "=" +:+ lit EmptyString +:+ "," +:+
  lit EmptyString +:+ ",'Property Data'!" +:+ c +:+ str data_row +:+ ")".

(** Beds/Unit (column D of the report). *)
Definition report_beds_formula (data_row : nat) : string :=
  "=IF('Property Data'!D" +:+ str data_row +:+ "=" +:+ lit EmptyString +:+ "," +:+
    lit EmptyString +:+ "," +:+
  "IF('Property Data'!D" +:+ str data_row +:+ "=" +:+ lit "Studio" +:+ ",1," +:+
  "IF('Property Data'!D" +:+ str data_row +:+ "=" +:+ lit "1 BR" +:+ ",1," +:+
  "IF('Property Data'!D" +:+ str data_row +:+ "=" +:+ lit "2 BR" +:+ ",2," +:+
  "IF('Property Data'!D" +:+ str data_row +:+ "=" +:+ lit "3 BR" +:+ ",3," +:+
  "IF('Property Data'!D" +:+ str data_row +:+ "=" +:+ lit "4 BR" +:+ ",4," +:+
  "IF('Property Data'!D" +:+ str data_row +:+ "=" +:+ lit "5 BR" +:+ ",5," +:+
  lit EmptyString +:+ ")))))))".

Definition report_row (row : nat) (ws : Worksheet) : Worksheet :=
  let data_row := row - 1 in
  let ws := ws_cell row 2 (VText (mirror_formula "B" data_row)) ws in
  let ws := ws_cell row 3 (VText (mirror_formula "C" data_row)) ws in
  let ws := ws_cell row 4 (VText (report_beds_formula data_row)) ws in
  let ws := ws_cell row 5 (VText (mirror_formula "H" data_row)) ws in
  let ws := ws_cell row 6 (VText (mirror_formula "G" data_row)) ws in
  ws_cell row 7 (VText (mirror_formula "I" data_row)) ws.

Definition summary_row : nat := 110.

(** The criterion text of both sums is the formula literal written
    [<>] followed by a doubled quote, that is the three characters
    less-than, greater-than, quote. *)
Definition sum_total_beds_formula : string :=
  "=SUMIF(E8:E107," +:+ dq +:+ "<>" +:+ dq +:+ dq +:+ dq +:+ ")".
Definition sum_leased_beds_formula : string :=
  "=SUMIF(G8:G107," +:+ dq +:+ "<>" +:+ dq +:+ dq +:+ dq +:+ ")".
Definition overall_formula : string :=
  "=IF(E110=0," +:+ lit EmptyString +:+ ",G110/E110)".

Definition setup_report_sheet (ws : Worksheet) : Worksheet :=
  let ws := set_title "Leased Beds Report" ws in
  let ws := ws_setitem "B2" (VText "Leased Beds Summary Report") ws in
  let ws := ws_setitem "B3" (VText "=TODAY()") ws in
  let ws := ws_setitem "B5"
    (VText "This report auto-updates from Property Data. Copy this table for your reports.") ws in
  let ws := for_each (enumerate report_headers 2)
    (fun '(col, (header, width)) => ws_cell 7 col (VText header)) ws in
  let ws := for_each (seq 8 100) report_row ws in
  let ws := ws_cell summary_row 2 (VText "TOTALS") ws in
  let ws := ws_cell summary_row 5 (VText sum_total_beds_formula) ws in
  let ws := ws_cell summary_row 7 (VText sum_leased_beds_formula) ws in
  let ws := ws_cell (summary_row + 2) 2 (VText "Overall Prelease:") ws in
  ws_cell (summary_row + 2) 3 (VText overall_formula) ws.

(** *** [add_sample_data] *)

Definition sample_data : list (string * string * string * Z * value) :=
  [ ("The Heights", "Studio Deluxe", "Studio", 24%Z, VNum (pct 52));
    ("The Heights", "A1", "1 BR", 36%Z, VNum (pct 52));
    ("The Heights", "B1", "2 BR", 48%Z, VNum (pct 52));
    ("The Heights", "B2 Premium", "2 BR", 24%Z, VNum (pct 52));
    ("The Heights", "C1", "3 BR", 32%Z, VNum (pct 52));
    ("University Village", "Efficiency", "Studio", 20%Z, VText EmptyString);
    ("University Village", "One Bed", "1 BR", 40%Z, VText EmptyString);
    ("University Village", "Two Bed A", "2 BR", 60%Z, VText EmptyString);
    ("University Village", "Two Bed B", "2 BR", 30%Z, VText EmptyString);
    ("University Village", "Three Bed", "3 BR", 48%Z, VText EmptyString);
    ("University Village", "Four Bed", "4 BR", 24%Z, VText EmptyString);
    ("Campus Edge", "Studio", "Studio", 16%Z, VNum (pct 48));
    ("Campus Edge", "1BR Classic", "1 BR", 32%Z, VNum (pct 48));
    ("Campus Edge", "2BR Standard", "2 BR", 40%Z, VNum (pct 48));
    ("Campus Edge", "3BR Townhome", "3 BR", 20%Z, VNum (pct 48)) ].

Definition add_sample_data (ws : Worksheet) : Worksheet :=
  for_each (enumerate sample_data 7)
    (fun '(i, (prop, floorplan, beds, units, prelease)) w =>
       let w := ws_cell i 2 (VText prop) w in
       let w := ws_cell i 3 (VText floorplan) w in
       let w := ws_cell i 4 (VText beds) w in
       let w := ws_cell i 5 (VNum (num units)) w in
       if decide (prelease = VText EmptyString) then w
       else ws_cell i 6 prelease w) ws.

(** *** [generate_workbook] *)

(** [Workbook()]: a new workbook with its default sheet. *)
Definition new_workbook : Workbook :=
  {| sheets := [new_sheet "Sheet"]; active := Some "Sheet" |}.

Fixpoint insert_at {A} (i : nat) (x : A) (l : list A) : list A :=
  match i, l with
  | 0, _ => x :: l
  | S j, y :: r => y :: insert_at j x r
  | S _, [] => [x]
  end.

Definition create_sheet (name : string) (index : nat) (wb : Workbook) : Workbook :=
  {| sheets := insert_at index (new_sheet name) (sheets wb); active := active wb |}.

Definition remove_sheet (name : string) (wb : Workbook) : Workbook :=
  {| sheets := filter (fun ws => title ws ≠ name) (sheets wb); active := active wb |}.

(** A worksheet object is addressed by its position in the workbook. *)
Definition on_sheet (i : nat) (f : Worksheet -> Worksheet) (wb : Workbook) : Workbook :=
  {| sheets := alter f i (sheets wb); active := active wb |}.

Definition set_active (i : nat) (wb : Workbook) : Workbook :=
  {| sheets := sheets wb; active := title <$> (sheets wb !! i) |}.

(** What a run leaves behind: the workbook saved at the output path and
    the lines printed. *)
Record Run := {
  saved_path : string;
  saved : Workbook;
  stdout : list string
}.

Definition generate_workbook (output_path : string) (include_sample_data : bool) : Run :=
  let out := ["Creating Market Survey Analysis Tool..."] in
  let wb := new_workbook in
  let default_sheet := "Sheet" in
  let wb := create_sheet "Market Averages" 0 wb in
  let wb := create_sheet "Property Data" 1 wb in
  let wb := create_sheet "Leased Beds Report" 2 wb in
  let wb := remove_sheet default_sheet wb in
  let out := out ++ ["  Setting up Market Averages sheet..."] in
  let market_refs :=
    default ∅ ((fun ws => snd (setup_market_averages_sheet ws)) <$> (sheets wb !! 0)) in
  let wb := on_sheet 0 (fun ws => fst (setup_market_averages_sheet ws)) wb in
  let out := out ++ ["  Setting up Property Data sheet..."] in
  let wb := on_sheet 1 (fun ws => setup_property_data_sheet ws market_refs) wb in
  let out := out ++ ["  Setting up Leased Beds Report sheet..."] in
  let wb := on_sheet 2 setup_report_sheet wb in
  let '(wb, out) :=
    if include_sample_data
    then (on_sheet 1 add_sample_data wb, out ++ ["  Adding sample data..."])
    else (wb, out) in
  let wb := set_active 1 wb in
  let out := out ++ ["  Saving to " +:+ output_path +:+ "..."] in
  let out := out ++
    [ nl +:+ "Success! Created " +:+ output_path;
      nl +:+ "How to use:";
      "  1. Open 'Market Averages' sheet to set your market default prelease %";
      "  2. Enter property/floorplan data in 'Property Data' sheet";
      "  3. View calculated results in 'Leased Beds Report' sheet";
      nl +:+ "Tip: Rows highlighted in yellow are using market averages " +:+
        "(no property-specific % entered)" ] in
  {| saved_path := output_path; saved := wb; stdout := out |}.

(** ** The formula language: syntax *)

(** The fragment of the spreadsheet formula language that the generator
    emits: number and text literals, cell and range references (with an
    optional sheet name), the comparisons [=] and [<>], the products [*]
    and [/], and the functions IF, AND, OR, ROUND, SUMIF and TODAY. *)

Inductive cmpop := OpEq | OpNe.
Inductive binop := OpMul | OpDiv.

Inductive expr :=
| ENum (n : nat)
| EStr (s : string)
| ERef (sheet : option string) (r : cellref)
| ERange (sheet : option string) (r1 r2 : cellref)
| ECmp (op : cmpop) (a b : expr)
| EBin (op : binop) (a b : expr)
| EIf (c a b : expr)
| EAnd (a b : expr)
| EOr (a b : expr)
| ERound (a digits : expr)
| ESumif (range criteria : expr)
| EToday.

#[global] Instance cmpop_eq_dec : EqDecision cmpop.
Proof. solve_decision. Defined.
#[global] Instance binop_eq_dec : EqDecision binop.
Proof. solve_decision. Defined.
#[global] Instance expr_eq_dec : EqDecision expr.
Proof. solve_decision. Defined.

Inductive token :=
| TNum (n : nat)
| TStr (s : string)
| TWord (w : list ascii)
| TQuoted (s : string)
| TBang | TLParen | TRParen | TComma | TColon
| TEq | TNe | TMul | TDiv.

Definition ascii_eqb (a b : ascii) : bool := Ascii.eqb a b.

(** Reads the rest of a literal delimited by [d], after its opening
    delimiter; a doubled delimiter stands for the delimiter itself. *)
Fixpoint lex_delimited (d : ascii) (cs : list ascii) (acc : list ascii)
    : option (string * list ascii) :=
  match cs with
  | [] => None
  | c :: r =>
      if ascii_eqb c d then
        match r with
        | c' :: r' =>
            if ascii_eqb c' d then lex_delimited d r' (c :: acc)
            else Some (string_of_list_ascii (rev acc), r)
        | [] => Some (string_of_list_ascii (rev acc), r)
        end
      else lex_delimited d r (c :: acc)
  end.

Definition is_word_char (c : ascii) : bool :=
  is_alpha c || is_digit c || ascii_eqb c "$".

Fixpoint tokenize (fuel : nat) (cs : list ascii) : option (list token) :=
  match fuel with
  | 0 => None
  | S fuel =>
      match cs with
      | [] => Some []
      | c :: r =>
          if ascii_eqb c " " then tokenize fuel r
          else if ascii_eqb c "(" then cons TLParen <$> tokenize fuel r
          else if ascii_eqb c ")" then cons TRParen <$> tokenize fuel r
          else if ascii_eqb c "," then cons TComma <$> tokenize fuel r
          else if ascii_eqb c ":" then cons TColon <$> tokenize fuel r
          else if ascii_eqb c "!" then cons TBang <$> tokenize fuel r
          else if ascii_eqb c "*" then cons TMul <$> tokenize fuel r
          else if ascii_eqb c "/" then cons TDiv <$> tokenize fuel r
          else if ascii_eqb c "=" then cons TEq <$> tokenize fuel r
          else if ascii_eqb c "<" then
            match r with
            | c' :: r' => if ascii_eqb c' ">" then cons TNe <$> tokenize fuel r' else None
            | [] => None
            end
          else if ascii_eqb c "034" then
            '(s, r') ← lex_delimited "034" r [];
            cons (TStr s) <$> tokenize fuel r'
          else if ascii_eqb c "'" then
            '(s, r') ← lex_delimited "'" r [];
            cons (TQuoted s) <$> tokenize fuel r'
          else if is_digit c then
            let '(ds, r') := span is_digit cs in
            cons (TNum (digits_value 0 ds)) <$> tokenize fuel r'
          else if is_word_char c then
            let '(w, r') := span is_word_char cs in
            cons (TWord w) <$> tokenize fuel r'
          else None
      end
  end.

(** A function call with the arities the fragment covers; function names
    ignore letter case. *)
Definition mk_call (f : list ascii) (args : list expr) : option expr :=
  let name := upcase_string (string_of_list_ascii f) in
  match args with
  | [] => if String.eqb name "TODAY" then Some EToday else None
  | [a; b] =>
      if String.eqb name "AND" then Some (EAnd a b)
      else if String.eqb name "OR" then Some (EOr a b)
      else if String.eqb name "ROUND" then Some (ERound a b)
      else if String.eqb name "SUMIF" then Some (ESumif a b)
      else None
  | [c; a; b] => if String.eqb name "IF" then Some (EIf c a b) else None
  | _ => None
  end.

Definition parse_ref (sheet : option string) (w : list ascii) (ts : list token)
    : option (expr * list token) :=
  r1 ← parse_cellref w;
  match ts with
  | TColon :: TWord w2 :: ts' => r2 ← parse_cellref w2; Some (ERange sheet r1 r2, ts')
  | _ => Some (ERef sheet r1, ts)
  end.

Fixpoint parse_expr (n : nat) (ts : list token) : option (expr * list token) :=
  match n with
  | 0 => None
  | S n =>
      '(a, ts1) ← parse_term n ts;
      match ts1 with
      | TEq :: ts2 => '(b, ts3) ← parse_term n ts2; Some (ECmp OpEq a b, ts3)
      | TNe :: ts2 => '(b, ts3) ← parse_term n ts2; Some (ECmp OpNe a b, ts3)
      | _ => Some (a, ts1)
      end
  end
with parse_term (n : nat) (ts : list token) : option (expr * list token) :=
  match n with
  | 0 => None
  | S n => '(a, ts1) ← parse_prim n ts; parse_term_rest n a ts1
  end
with parse_term_rest (n : nat) (a : expr) (ts : list token) : option (expr * list token) :=
  match n with
  | 0 => None
  | S n =>
      match ts with
      | TMul :: ts1 => '(b, ts2) ← parse_prim n ts1; parse_term_rest n (EBin OpMul a b) ts2
      | TDiv :: ts1 => '(b, ts2) ← parse_prim n ts1; parse_term_rest n (EBin OpDiv a b) ts2
      | _ => Some (a, ts)
      end
  end
with parse_prim (n : nat) (ts : list token) : option (expr * list token) :=
  match n with
  | 0 => None
  | S n =>
      match ts with
      | TNum k :: r => Some (ENum k, r)
      | TStr s :: r => Some (EStr s, r)
      | TLParen :: r =>
          '(e, r1) ← parse_expr n r;
          match r1 with
          | TRParen :: r2 => Some (e, r2)
          | _ => None
          end
      | TQuoted sh :: TBang :: TWord w :: r => parse_ref (Some sh) w r
      | TWord f :: TLParen :: TRParen :: r => e ← mk_call f []; Some (e, r)
      | TWord f :: TLParen :: r =>
          '(args, r1) ← parse_args n r;
          e ← mk_call f args;
          Some (e, r1)
      | TWord sh :: TBang :: TWord w :: r => parse_ref (Some (string_of_list_ascii sh)) w r
      | TWord w :: r => parse_ref None w r
      | _ => None
      end
  end
with parse_args (n : nat) (ts : list token) : option (list expr * list token) :=
  match n with
  | 0 => None
  | S n =>
      '(e, r) ← parse_expr n ts;
      match r with
      | TComma :: r1 => '(es, r2) ← parse_args n r1; Some (e :: es, r2)
      | TRParen :: r1 => Some ([e], r1)
      | _ => None
      end
  end.

(** A cell text is a formula when it starts with [=] and is longer than
    one character. *)
Definition is_formula (s : string) : bool :=
  match s with
  | String c (String _ _) => ascii_eqb c "="
  | _ => false
  end.

(** Reads a formula body (the text after [=]). *)
Definition parse_body (cs : list ascii) : option expr :=
  toks ← tokenize (S (length cs)) cs;
  '(e, rest) ← parse_expr (S (length cs)) toks;
  match rest with
  | [] => Some e
  | _ => None
  end.

Definition parse_formula (s : string) : option expr :=
  match chars s with
  | c :: cs => if ascii_eqb c "=" then parse_body cs else None
  | [] => None
  end.

(** ** The formula language: evaluation *)

(** The generator computes nothing itself: the spreadsheet application
    evaluates the formulas when the workbook is opened.  What follows is
    a model of that evaluation for the fragment above: values of four
    kinds and errors, the coercions of comparisons, arithmetic and
    conditions, error propagation, and the conditional sum. *)

(** The result of evaluating with the model: a value, or no answer
    because the recursion budget ran out, or because the input leaves the
    fragment of the formula language that is modelled. *)
Inductive outcome (A : Type) :=
| Ok (a : A)
| OutOfFuel
| Unmodelled.
Arguments Ok {A} a.
Arguments OutOfFuel {A}.
Arguments Unmodelled {A}.

#[global] Instance outcome_ret : MRet outcome := fun A a => Ok a.
#[global] Instance outcome_bind : MBind outcome := fun A B f m =>
  match m with
  | Ok a => f a
  | OutOfFuel => OutOfFuel
  | Unmodelled => Unmodelled
  end.

Definition Qc_eqb (x y : Qc) : bool := Qeq_bool x y.
Definition Qc_nonneg (x : Qc) : bool := Qle_bool 0 x.

(** Rounding to the nearest integer, halves away from zero. *)
Definition round_half_away (x : Qc) : Z :=
  if Qc_nonneg x then Qfloor (x + (1 # 2))
  else Z.opp (Qfloor (Qopp x + (1 # 2))).

Definition Qc_truncate (x : Qc) : Z :=
  if Qc_nonneg x then Qfloor x else Qceiling x.

Definition pow10 (d : Z) : Qc :=
  if (0 <=? d)%Z then Q2Qc (inject_Z (10 ^ d))
  else Q2Qc (1 # Z.to_pos (10 ^ (- d))).

(** ROUND(x, digits) *)
Definition xl_round (x : Qc) (digits : Z) : Qc :=
  (num (round_half_away (x * pow10 digits)) / pow10 digits)%Qc.

(** The number a value stands for in arithmetic, or the error value the
    operation returns.  A blank cell counts as 0, a text of digits as its
    number, a text without any digit is no number; other texts (signs,
    fractions, dates, percentages) are outside the model. *)
Definition to_number (v : value) : outcome (xl_error + Qc) :=
  match v with
  | VBlank => Ok (inr (num 0))
  | VNum x => Ok (inr x)
  | VBool b => Ok (inr (if b then num 1 else num 0))
  | VErr e => Ok (inl e)
  | VText s =>
      let cs := chars s in
      match cs with
      | [] => Ok (inl VALUE)
      | _ :: _ =>
          if forallb is_digit cs then Ok (inr (num (Z.of_nat (digits_value 0 cs))))
          else if existsb is_digit cs then Unmodelled
          else Ok (inl VALUE)
      end
  end.

(** The truth value of a condition. *)
Definition to_bool (v : value) : xl_error + bool :=
  match v with
  | VBlank => inr false
  | VNum x => inr (negb (Qc_eqb x (num 0)))
  | VBool b => inr b
  | VErr e => inl e
  | VText s =>
      if text_eqb s "TRUE" then inr true
      else if text_eqb s "FALSE" then inr false
      else inl VALUE
  end.

(** [a = b] in a formula.  An error operand is returned (the left one
    first); a blank cell equals the empty text, zero and FALSE; values
    of different kinds are different. *)
Definition xl_equal (a b : value) : xl_error + bool :=
  match a, b with
  | VErr e, _ => inl e
  | _, VErr e => inl e
  | VBlank, VBlank => inr true
  | VBlank, VNum x | VNum x, VBlank => inr (Qc_eqb x (num 0))
  | VBlank, VText s | VText s, VBlank => inr (String.eqb s EmptyString)
  | VBlank, VBool b | VBool b, VBlank => inr (negb b)
  | VNum x, VNum y => inr (Qc_eqb x y)
  | VText s, VText t => inr (text_eqb s t)
  | VBool x, VBool y => inr (Bool.eqb x y)
  | _, _ => inr false
  end.

Definition of_bool (r : xl_error + bool) : value :=
  match r with
  | inl e => VErr e
  | inr b => VBool b
  end.

Definition negate (r : xl_error + bool) : xl_error + bool :=
  match r with
  | inl e => inl e
  | inr b => inr (negb b)
  end.

Definition xl_compare (op : cmpop) (a b : value) : value :=
  match op with
  | OpEq => of_bool (xl_equal a b)
  | OpNe => of_bool (negate (xl_equal a b))
  end.

Definition xl_arith (op : binop) (a b : value) : outcome value :=
  na ← to_number a;
  nb ← to_number b;
  match na, nb with
  | inl e, _ => Ok (VErr e)
  | _, inl e => Ok (VErr e)
  | inr x, inr y =>
      match op with
      | OpMul => Ok (VNum (x * y)%Qc)
      | OpDiv => if Qc_eqb y (num 0) then Ok (VErr DIV0) else Ok (VNum (x / y)%Qc)
      end
  end.

(** AND and OR of two conditions: both are evaluated, and an error in
    either is returned. *)
Definition xl_logic (f : bool -> bool -> bool) (a b : value) : value :=
  match to_bool a, to_bool b with
  | inl e, _ => VErr e
  | _, inl e => VErr e
  | inr x, inr y => VBool (f x y)
  end.

(** A SUMIF criterion of the modelled kind: different from, or equal to,
    a text. *)
Inductive criterion :=
| CrNe (t : string)
| CrEq (t : string).

Definition is_wildcard (c : ascii) : bool :=
  ascii_eqb c "*" || ascii_eqb c "?" || ascii_eqb c "~".

Definition is_relop (c : ascii) : bool :=
  ascii_eqb c "<" || ascii_eqb c ">" || ascii_eqb c "=".

(** The operand must be a text that is not a number and has no wildcard;
    an ordering criterion or a numeric operand is outside the model. *)
Definition text_operand (cs : list ascii) : bool :=
  negb (existsb is_digit cs) && negb (existsb is_wildcard cs) &&
  negb (existsb is_relop cs).

Definition parse_criterion (v : value) : outcome criterion :=
  match v with
  | VText s =>
      match chars s with
      | "<"%char :: ">"%char :: r =>
          if text_operand r then Ok (CrNe (string_of_list_ascii r)) else Unmodelled
      | "="%char :: c :: r =>
          if text_operand (c :: r) then Ok (CrEq (string_of_list_ascii (c :: r)))
          else Unmodelled
      | c :: r =>
          if text_operand (c :: r) then Ok (CrEq s) else Unmodelled
      | [] => Unmodelled
      end
  | _ => Unmodelled
  end.

(** Does a cell meet the criterion?  [<>] alone selects the cells that
    are not blank; [<>t] selects every cell but the texts equal to [t];
    [=t] selects the texts equal to [t]. *)
Definition criterion_meets (cr : criterion) (v : value) : bool :=
  match cr with
  | CrNe EmptyString => match v with VBlank => false | _ => true end
  | CrNe t => match v with VText s => negb (text_eqb s t) | _ => true end
  | CrEq t => match v with VText s => text_eqb s t | _ => false end
  end.

(** One step of a conditional sum: a selected number is added, a
    selected error is returned, anything else is skipped. *)
Definition sum_step (cr : criterion) (acc : xl_error + Qc) (v : value) : xl_error + Qc :=
  match acc with
  | inl e => inl e
  | inr total =>
      if criterion_meets cr v then
        match v with
        | VNum x => inr (total + x)%Qc
        | VErr e => inl e
        | _ => inr total
        end
      else inr total
  end.

Definition sum_result (r : xl_error + Qc) : value :=
  match r with
  | inl e => VErr e
  | inr x => VNum x
  end.

(** The cells of a rectangular range, row by row. *)
Definition range_cells (r1 r2 : cellref) : list (nat * nat) :=
  r ← seq (ref_row r1) (S (ref_row r2) - ref_row r1);
  c ← seq (ref_col r1) (S (ref_col r2) - ref_col r1);
  [(r, c)].

Fixpoint eval_all (deref : nat * nat -> outcome value) (rcs : list (nat * nat))
    : outcome (list value) :=
  match rcs with
  | [] => Ok []
  | rc :: rest => v ← deref rc; vs ← eval_all deref rest; Ok (v :: vs)
  end.

Section Eval.
(** The day on which the workbook is evaluated, as a serial number. *)
Variable today : Z.
(** The value of a cell of a named sheet, at (row, column). *)
Variable deref : string -> nat * nat -> outcome value.

Fixpoint eval_expr (cur : string) (e : expr) : outcome value :=
  match e with
  | ENum n => Ok (VNum (num (Z.of_nat n)))
  | EStr s => Ok (VText s)
  | ERef sh r => deref (default cur sh) (ref_row r, ref_col r)
  | ERange _ _ _ => Unmodelled
  | ECmp op a b =>
      va ← eval_expr cur a; vb ← eval_expr cur b; Ok (xl_compare op va vb)
  | EBin op a b =>
      va ← eval_expr cur a; vb ← eval_expr cur b; xl_arith op va vb
  | EIf c a b =>
      vc ← eval_expr cur c;
      match to_bool vc with
      | inl e => Ok (VErr e)
      | inr true => eval_expr cur a
      | inr false => eval_expr cur b
      end
  | EAnd a b =>
      va ← eval_expr cur a; vb ← eval_expr cur b; Ok (xl_logic andb va vb)
  | EOr a b =>
      va ← eval_expr cur a; vb ← eval_expr cur b; Ok (xl_logic orb va vb)
  | ERound a d =>
      va ← eval_expr cur a; vd ← eval_expr cur d;
      na ← to_number va; nd ← to_number vd;
      match na, nd with
      | inl e, _ => Ok (VErr e)
      | _, inl e => Ok (VErr e)
      | inr x, inr digits => Ok (VNum (xl_round x (Qc_truncate digits)))
      end
  | ESumif range crit =>
      match range with
      | ERange sh r1 r2 =>
          vc ← eval_expr cur crit;
          match vc with
          | VErr e => Ok (VErr e)
          | _ =>
              cr ← parse_criterion vc;
              vs ← eval_all (deref (default cur sh)) (range_cells r1 r2);
              Ok (sum_result (fold_left (sum_step cr) vs (inr (num 0))))
          end
      | _ => Unmodelled
      end
  | EToday => Ok (VNum (num today))
  end.
End Eval.

Definition find_sheet (wb : Workbook) (name : string) : option Worksheet :=
  List.find (fun ws => text_eqb (title ws) name) (sheets wb).

(** What the spreadsheet finds in a cell: a missing cell and the empty
    string are both an empty cell (openpyxl writes no value for either). *)
Definition cell_content (ws : Worksheet) (rc : nat * nat) : value :=
  match cells ws !! rc with
  | None => VBlank
  | Some (VText EmptyString) => VBlank
  | Some v => v
  end.

(** A formula never displays a blank: a blank result shows as 0. *)
Definition formula_result (v : value) : value :=
  match v with
  | VBlank => VNum (num 0)
  | _ => v
  end.

(** The value of the cell at (row, column) [rc] of the sheet named
    [sheet].  [fuel] bounds the length of the chain of cells followed. *)
Fixpoint eval_cell (today : Z) (wb : Workbook) (fuel : nat) (sheet : string)
    (rc : nat * nat) : outcome value :=
  match fuel with
  | 0 => OutOfFuel
  | S fuel =>
      match find_sheet wb sheet with
      | None => Ok (VErr REF)
      | Some ws =>
          match cell_content ws rc with
          | VText s =>
              if is_formula s then
                match parse_formula s with
                | None => Unmodelled
                | Some e =>
                    v ← eval_expr today (eval_cell today wb fuel) (title ws) e;
                    Ok (formula_result v)
                end
              else Ok (VText s)
          | v => Ok v
          end
      end
  end.

(** ** Conditional formats and validations *)

Definition shift_ref (dr dc : nat) (r : cellref) : cellref :=
  {| col_abs := col_abs r;
     ref_col := if col_abs r then ref_col r else ref_col r + dc;
     row_abs := row_abs r;
     ref_row := if row_abs r then ref_row r else ref_row r + dr |}.

(** A rule's formula is written for the top-left cell of its range; for
    another cell of the range the relative parts of its references move
    along. *)
Fixpoint shift_expr (dr dc : nat) (e : expr) : expr :=
  match e with
  | ENum n => ENum n
  | EStr s => EStr s
  | ERef sh r => ERef sh (shift_ref dr dc r)
  | ERange sh r1 r2 => ERange sh (shift_ref dr dc r1) (shift_ref dr dc r2)
  | ECmp op a b => ECmp op (shift_expr dr dc a) (shift_expr dr dc b)
  | EBin op a b => EBin op (shift_expr dr dc a) (shift_expr dr dc b)
  | EIf c a b => EIf (shift_expr dr dc c) (shift_expr dr dc a) (shift_expr dr dc b)
  | EAnd a b => EAnd (shift_expr dr dc a) (shift_expr dr dc b)
  | EOr a b => EOr (shift_expr dr dc a) (shift_expr dr dc b)
  | ERound a d => ERound (shift_expr dr dc a) (shift_expr dr dc d)
  | ESumif a b => ESumif (shift_expr dr dc a) (shift_expr dr dc b)
  | EToday => EToday
  end.

Definition parse_range (s : string) : option (cellref * cellref) :=
  let '(a, rest) := span (fun c => negb (ascii_eqb c ":")) (chars s) in
  match rest with
  | _ :: b => r1 ← parse_cellref a; r2 ← parse_cellref b; Some (r1, r2)
  | [] => None
  end.

Definition in_range (r1 r2 : cellref) (rc : nat * nat) : bool :=
  Nat.leb (ref_row r1) rc.1 && Nat.leb rc.1 (ref_row r2) &&
  Nat.leb (ref_col r1) rc.2 && Nat.leb rc.2 (ref_col r2).

(** Does the rule format the cell at (row, column) [rc] of sheet [ws]?
    It does when the cell is in the rule's range and the formula, moved
    to the cell, is true. *)
Definition rule_applies (today : Z) (wb : Workbook) (fuel : nat) (ws : Worksheet)
    (rule : FormulaRule) (rc : nat * nat) : outcome bool :=
  match parse_range (rule_range rule), parse_body (chars (rule_formula rule)) with
  | Some (r1, r2), Some e =>
      if in_range r1 r2 rc then
        v ← eval_expr today (eval_cell today wb fuel) (title ws)
              (shift_expr (rc.1 - ref_row r1) (rc.2 - ref_col r1) e);
        Ok (match to_bool v with inr true => true | _ => false end)
      else Ok false
  | _, _ => Unmodelled
  end.

Fixpoint any_rule (check : FormulaRule -> outcome bool) (rules : list FormulaRule)
    : outcome bool :=
  match rules with
  | [] => Ok false
  | rule :: rest =>
      match check rule with
      | Ok true => Ok true
      | Ok false => any_rule check rest
      | OutOfFuel => OutOfFuel
      | Unmodelled => Unmodelled
      end
  end.

(** Is the cell highlighted by some conditional-format rule of its sheet? *)
Definition highlighted (today : Z) (wb : Workbook) (fuel : nat) (sheet : string)
    (rc : nat * nat) : outcome bool :=
  match find_sheet wb sheet with
  | None => Ok false
  | Some ws => any_rule (fun rule => rule_applies today wb fuel ws rule rc)
                 (conditional_formatting ws)
  end.

Fixpoint split_on (d : ascii) (cs cur : list ascii) : list string :=
  match cs with
  | [] => [string_of_list_ascii (rev cur)]
  | c :: r =>
      if ascii_eqb c d then string_of_list_ascii (rev cur) :: split_on d r []
      else split_on d r (c :: cur)
  end.

(** The items of a list validation whose source is a quoted,
    comma-separated literal. *)
Definition dv_items (dv : DataValidation) : option (list string) :=
  match chars (dv_formula1 dv) with
  | c :: r =>
      if ascii_eqb c "034" then
        match lex_delimited "034" r [] with
        | Some (s, []) => Some (split_on "," (chars s) [])
        | _ => None
        end
      else None
  | [] => None
  end.

Inductive verdict :=
| Accepted
| Rejected (alert_title alert_message : string).

(** Is the error alert of a validation on?  [show_error_default] is the
    library's constructor default of [showErrorMessage], which decides
    for a validation that was built without that argument. *)
Definition error_alert_on (show_error_default : bool) (dv : DataValidation) : bool :=
  default show_error_default (dv_showErrorMessage dv).

(** What the spreadsheet does with an entry typed into a validated cell:
    a list validation that allows blanks takes the empty entry and the
    entries that are items of the list.  Another entry is turned down
    with the error alert when the alert is on and of the stop style (the
    style of a validation that names none); with the alert off the
    spreadsheet takes the entry and shows nothing.  The warning and
    information styles, which let the user keep the entry, are not
    modelled. *)
Definition dv_check (show_error_default : bool) (dv : DataValidation) (entry : string)
    : outcome verdict :=
  if String.eqb (dv_type dv) "list" then
    match entry with
    | EmptyString => if dv_allow_blank dv then Ok Accepted else Unmodelled
    | _ =>
        match dv_items dv with
        | Some items =>
            if existsb (String.eqb entry) items then Ok Accepted
            else if error_alert_on show_error_default dv then
              match dv_errorStyle dv with
              | None => Ok (Rejected (dv_errorTitle dv) (dv_error dv))
              | Some style =>
                  if String.eqb style "stop"
                  then Ok (Rejected (dv_errorTitle dv) (dv_error dv))
                  else Unmodelled
              end
            else Ok Accepted
        | None => Unmodelled
        end
    end
  else Unmodelled.

(** The validations attached to a cell. *)
Definition validations_of (ws : Worksheet) (rc : nat * nat) : list DataValidation :=
  filter (fun dv => rc ∈ dv_sqref dv) (data_validations ws).

(** ** The workbook in the user's hands *)

(** The cells the user fills in: the five entry columns B..F of rows
    7..106 of Property Data, and the six percentages C7..C12 of Market
    Averages. *)
Definition entry_inputs (rc : nat * nat) : bool :=
  Nat.leb 7 rc.1 && Nat.leb rc.1 106 && Nat.leb 2 rc.2 && Nat.leb rc.2 6.
Definition market_inputs (rc : nat * nat) : bool :=
  Nat.leb 7 rc.1 && Nat.leb rc.1 12 && Nat.eqb rc.2 3.
Definition no_inputs (rc : nat * nat) : bool := false.

Definition is_constant (v : value) : bool :=
  match v with
  | VText s => negb (is_formula s)
  | _ => true
  end.

(** [ws] is the generated sheet [ws0] after the user has typed constants
    into some of its input cells. *)
Record edited (inputs : nat * nat -> bool) (ws0 ws : Worksheet) : Prop := {
  ed_title : title ws = title ws0;
  ed_validations : data_validations ws = data_validations ws0;
  ed_formats : conditional_formatting ws = conditional_formatting ws0;
  ed_cells : forall rc,
    if inputs rc then is_constant (cell_content ws rc) = true
    else cells ws !! rc = cells ws0 !! rc
}.

Definition market_template : Worksheet :=
  (setup_market_averages_sheet (new_sheet "Market Averages")).1.
Definition entry_template : Worksheet :=
  setup_property_data_sheet (new_sheet "Property Data") market_avg_refs.
Definition report_template : Worksheet :=
  setup_report_sheet (new_sheet "Leased Beds Report").

(** A workbook made by the generator and then filled in by the user. *)
Definition filled_in (wb : Workbook) : Prop :=
  exists ma pd rp,
    sheets wb = [ma; pd; rp] /\
    edited market_inputs market_template ma /\
    edited entry_inputs entry_template pd /\
    edited no_inputs report_template rp.

(** What the user left in the cell at (row, column) [rc] of a sheet. *)
Definition input (wb : Workbook) (sheet : string) (rc : nat * nat) : value :=
  match find_sheet wb sheet with
  | Some ws => cell_content ws rc
  | None => VBlank
  end.

Definition PD : string := "Property Data".
Definition MA : string := "Market Averages".
Definition LBR : string := "Leased Beds Report".

(** Empty, as the formulas test it (equal to the empty text): a blank cell or the empty
    text. *)
Definition is_empty (v : value) : Prop := v = VBlank \/ v = VText EmptyString.

Definition is_error (v : value) : Prop := exists e, v = VErr e.

#[global] Instance is_empty_dec v : Decision (is_empty v).
Proof. unfold is_empty. apply _. Defined.

(** The bedroom type in a cell matches an enum name under the formula
    language's text comparison. *)
Definition matches (d : value) (name : string) : bool :=
  match d with
  | VText s => text_eqb s name
  | _ => false
  end.

Definition bedroom_names : list string := bedroom_types.*1.

(** The fixed lookup of beds per unit, with its fallback 0. *)
Definition beds_table : list (string * nat) :=
  [ ("Studio", 1); ("1 BR", 1); ("2 BR", 2); ("3 BR", 3); ("4 BR", 4); ("5 BR", 5) ].

Definition bedsPerUnit (d : value) : nat :=
  match List.find (fun p => matches d p.1) beds_table with
  | Some p => p.2
  | None => 0
  end.

(** ** The formulas as syntax trees *)

(** The trees that the parser reads from the generator's strings, for
    every row at once; [formula_at] below checks them against the
    generated cells. *)

Definition here (c r : nat) : expr := ERef None (CellRef false c false r).
Definition entry_cell (c r : nat) : expr := ERef (Some PD) (CellRef false c false r).
Definition market_cell (r : nat) : expr := ERef (Some MA) (CellRef true 3 true r).

(** [IF(d=name1, e1, IF(d=name2, e2, ... fallback))] *)
Definition lookup_chain (d : expr) (table : list (string * expr)) (fallback : expr) : expr :=
  foldr (fun p rest => EIf (ECmp OpEq d (EStr p.1)) p.2 rest) fallback table.

Definition market_table : list (string * expr) :=
  [ ("Studio", market_cell 7); ("1 BR", market_cell 8); ("2 BR", market_cell 9);
    ("3 BR", market_cell 10); ("4 BR", market_cell 11); ("5 BR", market_cell 12) ].

Definition beds_exprs : list (string * expr) := (fun p => (p.1, ENum p.2)) <$> beds_table.

Definition effective_expr (r : nat) : expr :=
  EIf (ECmp OpNe (here 6 r) (EStr EmptyString)) (here 6 r)
      (lookup_chain (here 4 r) market_table (EStr EmptyString)).

(** The lookup embedded in the entry sheet's total-beds formula. *)
Definition entry_beds_lookup (d : expr) : expr := lookup_chain d beds_exprs (ENum 0).

Definition beds_expr (r : nat) : expr :=
  EIf (EOr (ECmp OpEq (here 4 r) (EStr EmptyString)) (ECmp OpEq (here 5 r) (EStr EmptyString)))
      (EStr EmptyString)
      (EBin OpMul (entry_beds_lookup (here 4 r)) (here 5 r)).

Definition leased_expr (r : nat) : expr :=
  EIf (EOr (ECmp OpEq (here 8 r) (EStr EmptyString)) (ECmp OpEq (here 7 r) (EStr EmptyString)))
      (EStr EmptyString)
      (ERound (EBin OpMul (here 8 r) (here 7 r)) (ENum 0)).

Definition mirror_expr (c data_row : nat) : expr :=
  EIf (ECmp OpEq (entry_cell c data_row) (EStr EmptyString)) (EStr EmptyString)
      (entry_cell c data_row).

(** The lookup that makes up the report's Beds/Unit formula. *)
Definition report_beds_lookup (d : expr) : expr :=
  EIf (ECmp OpEq d (EStr EmptyString)) (EStr EmptyString)
      (lookup_chain d beds_exprs (EStr EmptyString)).

Definition report_beds_expr (data_row : nat) : expr :=
  report_beds_lookup (entry_cell 4 data_row).

Definition sum_criterion : string := "<>" +:+ dq.

Definition sum_expr (c : nat) : expr :=
  ESumif (ERange None (CellRef false c false 8) (CellRef false c false 107))
         (EStr sum_criterion).

Definition overall_expr : expr :=
  EIf (ECmp OpEq (here 5 110) (ENum 0)) (EStr EmptyString)
      (EBin OpDiv (here 7 110) (here 5 110)).

Definition market_avg_rule_expr (r : nat) : expr :=
  EAnd (ECmp OpEq (ERef None (CellRef true 6 false r)) (EStr EmptyString))
       (ECmp OpNe (ERef None (CellRef true 4 false r)) (EStr EmptyString)).

(** The cell at [rc] of the generated sheet holds a formula that reads
    as [e]. *)
Definition formula_at (ws : Worksheet) (rc : nat * nat) (e : expr) : bool :=
  match cells ws !! rc with
  | Some (VText s) => is_formula s && bool_decide (parse_formula s = Some e)
  | _ => false
  end.

Definition entry_row_ok (r : nat) : bool :=
  formula_at entry_template (r, 7) (effective_expr r) &&
  formula_at entry_template (r, 8) (beds_expr r) &&
  formula_at entry_template (r, 9) (leased_expr r).

Definition report_row_ok (r : nat) : bool :=
  formula_at report_template (r, 2) (mirror_expr 2 (r - 1)) &&
  formula_at report_template (r, 3) (mirror_expr 3 (r - 1)) &&
  formula_at report_template (r, 4) (report_beds_expr (r - 1)) &&
  formula_at report_template (r, 5) (mirror_expr 8 (r - 1)) &&
  formula_at report_template (r, 6) (mirror_expr 7 (r - 1)) &&
  formula_at report_template (r, 7) (mirror_expr 9 (r - 1)).

(** ** Notions used by the statements *)

(** The outcome of the formula test [v = name] as a boolean, an error
    counting as no match. *)
Definition value_matches (v : value) (name : string) : bool :=
  match xl_equal v (VText name) with
  | inr true => true
  | _ => false
  end.

(** Evaluates a lookup in a table once its key is known. *)
Ltac compute_find :=
  match goal with
  | |- context [List.find ?f ?t] =>
      let v := eval vm_compute in (List.find f t) in
      change (List.find f t) with v
  end.

(** The entries of the dictionary that [setup_market_averages_sheet]
    returns, as a list. *)
Definition coordinates : list (string * string) :=
  [ ("Studio", "$C$7"); ("1 BR", "$C$8"); ("2 BR", "$C$9");
    ("3 BR", "$C$10"); ("4 BR", "$C$11"); ("5 BR", "$C$12") ].

(** The generator leaves no formula in the input cells of entry row
    [r]. *)
Definition entry_inputs_constant (r : nat) : bool :=
  forallb (fun c => is_constant (cell_content entry_template (r, c))) (seq 2 5).

(** The workbook as generated, without and with the sample rows. *)
Definition blank_workbook : Workbook := saved (generate_workbook "MarketSurvey.xlsx" false).
Definition sample_workbook : Workbook := saved (generate_workbook "MarketSurvey.xlsx" true).

(** The row of the Market Averages sheet that holds each bedroom type's
    percentage. *)
Definition market_rows : list (string * nat) :=
  [ ("Studio", 7); ("1 BR", 8); ("2 BR", 9); ("3 BR", 10); ("4 BR", 11); ("5 BR", 12) ].

(** The workbook of the worked example: a row with bedroom type 2 BR,
    48 units and no prelease percentage, and the generated market
    averages (2 BR at 0.55). *)
Definition example_workbook : Workbook :=
  on_sheet 1 (ws_cell 7 5 (VNum (num 48)))
    (on_sheet 1 (ws_cell 7 4 (VText "2 BR")) blank_workbook).

(** Kinds of input values. *)
Definition text_or_blank (v : value) : bool :=
  match v with VBlank | VText _ => true | _ => false end.
Definition number_or_blank (v : value) : bool :=
  match v with VBlank | VNum _ => true | _ => false end.
Definition is_number (v : value) : bool :=
  match v with VNum _ => true | _ => false end.

(** The data model of the entry sheet: the property name, the floorplan
    name and the bedroom type are texts or empty, the units and the
    prelease percentage are numbers or empty, and every market average is
    a number. *)
Definition well_typed_row (wb : Workbook) (r : nat) : bool :=
  text_or_blank (input wb PD (r, 2)) &&
  text_or_blank (input wb PD (r, 3)) &&
  text_or_blank (input wb PD (r, 4)) &&
  number_or_blank (input wb PD (r, 5)) &&
  number_or_blank (input wb PD (r, 6)).

Definition well_typed (wb : Workbook) : bool :=
  forallb (well_typed_row wb) (seq 7 100) &&
  forallb (fun r => is_number (input wb MA (r, 3))) (seq 7 6).

(** The derived values of a row, written after the data model of the
    specification (DerivedRow) and not after the formulas: the effective
    percentage is the prelease percentage if set, else the market average
    of the bedroom type, else empty; the total beds are bedsPerUnit times
    the units, empty if either is missing; the leased beds are the
    rounded product, empty if either factor is missing. *)
Definition effectivePercent (wb : Workbook) (r : nat) : value :=
  let F := input wb PD (r, 6) in
  let D := input wb PD (r, 4) in
  if decide (is_empty F) then
    match List.find (fun p => matches D p.1) market_rows with
    | Some p => formula_result (input wb MA (p.2, 3))
    | None => VText EmptyString
    end
  else F.

Definition totalBeds (wb : Workbook) (r : nat) : value :=
  let D := input wb PD (r, 4) in
  match input wb PD (r, 5) with
  | VNum u =>
      if decide (is_empty D) then VText EmptyString
      else VNum (num (Z.of_nat (bedsPerUnit D)) * u)%Qc
  | _ => VText EmptyString
  end.

Definition leasedBeds (wb : Workbook) (r : nat) : value :=
  match totalBeds wb r, effectivePercent wb r with
  | VNum x, VNum y => VNum (num (round_half_away (x * y)%Qc))
  | _, _ => VText EmptyString
  end.

(** A derived value is a number or the empty text. *)
Definition number_or_empty (v : value) : Prop :=
  v = VText EmptyString \/ exists x, v = VNum x.

(** The mirrored fields: the report column and the entry-sheet column it
    shows (property name, floorplan name, total beds, effective
    percentage, leased beds). *)
Definition mirrored_fields : list (nat * nat) := [(2, 2); (3, 3); (5, 8); (6, 7); (7, 9)].

(** What a mirror cell of the report shows for the source value [v]. *)
Definition mirror_of (v : value) : value :=
  if decide (is_empty v) then VText EmptyString else v.

(** The number in a value, 0 for anything else. *)
Definition number_of (v : value) : Qc :=
  match v with
  | VNum x => x
  | _ => 0%Qc
  end.

(** The sum of the values that are not empty. *)
Definition sum_non_empty (vs : list value) : Qc :=
  foldr Qcplus 0%Qc (number_of <$> filter (fun v => ~ is_empty v) vs).

(** A workbook whose first entry row has a bedroom type outside the six
    names. *)
Definition six_br_workbook : Workbook :=
  on_sheet 1 (ws_cell 7 4 (VText "6 BR")) blank_workbook.

(** The date cell of the report, B3, which holds [=TODAY()]. *)
Definition is_report_date (sheet : string) (rc : nat * nat) : bool :=
  String.eqb sheet LBR && Nat.eqb rc.1 3 && Nat.eqb rc.2 2.

(** Every formula cell of the sheet other than the report's date cell
    has a value, and the same value whether the workbook is evaluated on
    day [today1] or on day [today2] (six steps of cell references are
    enough for the deepest chain, the overall percentage). *)
Definition same_on_days (today1 today2 : Z) (wb : Workbook) (ws : Worksheet) : bool :=
  forallb (fun p : nat * nat * value =>
             match p.2 with
             | VText s =>
                 if is_formula s then
                   if is_report_date (title ws) p.1 then true
                   else
                     match eval_cell today1 wb 6 (title ws) p.1,
                           eval_cell today2 wb 6 (title ws) p.1 with
                     | Ok v1, Ok v2 => bool_decide (v1 = v2)
                     | _, _ => false
                     end
                 else true
             | _ => true
             end)
          (map_to_list (cells ws)).

(** The validation as the entry sheet holds it once every bedroom cell
    has been added to it. *)
Definition entry_dv : DataValidation :=
  {| dv_type := "list";
     dv_formula1 := bedroom_options;
     dv_allow_blank := true;
     dv_showErrorMessage := None;
     dv_showInputMessage := None;
     dv_errorStyle := None;
     dv_error := "Please select a valid bedroom type";
     dv_errorTitle := "Invalid Entry";
     dv_prompt := "Select bedroom type";
     dv_promptTitle := "Bedrooms";
     dv_sqref := (fun r => (r, 4)) <$> seq 7 100 |}.

(** ** The cells a formula reads *)

(** The cells that a formula of sheet [cur] refers to, each with the
    title of its sheet. *)
Fixpoint refs_of (cur : string) (e : expr) : list (string * (nat * nat)) :=
  match e with
  | ENum _ | EStr _ | EToday => []
  | ERef sh r => [(default cur sh, (ref_row r, ref_col r))]
  | ERange sh r1 r2 => (fun rc => (default cur sh, rc)) <$> range_cells r1 r2
  | ECmp _ a b | EBin _ a b | EAnd a b | EOr a b | ERound a b | ESumif a b =>
      refs_of cur a ++ refs_of cur b
  | EIf c a b => refs_of cur c ++ refs_of cur a ++ refs_of cur b
  end.

(** Typing the constant [v] into the cell at row [r], column [c] of the
    entry sheet, or of the Market Averages sheet. *)
Definition type_entry (r c : nat) (v : value) (wb : Workbook) : Workbook :=
  on_sheet 1 (ws_cell r c v) wb.
Definition type_market (r : nat) (v : value) (wb : Workbook) : Workbook :=
  on_sheet 0 (ws_cell r 3 v) wb.

(** What the spreadsheet finds in a cell after [v] was typed into it. *)
Definition typed (v : value) : value :=
  match v with
  | VText EmptyString => VBlank
  | _ => v
  end.

(** ** Chains of references *)

(** A bound on the number of cells on a chain of references that starts
    at the cell [rc] of the sheet titled [sheet]: 1 for a cell that holds
    a constant, and for a formula one more than for the cells it reads. *)
Definition depth (sheet : string) (rc : nat * nat) : nat :=
  if String.eqb sheet PD then
    match rc.2 with
    | 7 | 8 => 2
    | 9 => 3
    | _ => 1
    end
  else if String.eqb sheet LBR then
    if Nat.eqb rc.1 112 then 6
    else if Nat.eqb rc.1 110 then 5
    else match rc.2 with
         | 5 | 6 => 3
         | 7 => 4
         | _ => 2
         end
  else 1.

Definition known_sheet (sheet : string) : bool :=
  existsb (String.eqb sheet) [MA; PD; LBR].

(** Every formula of the sheet reads as an expression, and every cell it
    names lies on one of the three sheets and has a smaller [depth] than
    the formula's own cell. *)
Definition refs_shorter (ws : Worksheet) : bool :=
  forallb (fun p : nat * nat * value =>
             match p.2 with
             | VText s =>
                 if is_formula s then
                   match parse_formula s with
                   | Some e =>
                       forallb (fun ref : string * (nat * nat) =>
                                  known_sheet ref.1 &&
                                  Nat.ltb (depth ref.1 ref.2) (depth (title ws) p.1))
                               (refs_of (title ws) e)
                   | None => false
                   end
                 else true
             | _ => true
             end)
          (map_to_list (cells ws)).

(** ** Plausible entries *)

(** A share: a number between 0 and 1, or nothing. *)
Definition share_or_blank (v : value) : bool :=
  match v with
  | VBlank => true
  | VNum y => Qle_bool 0 y && Qle_bool y 1
  | _ => false
  end.

(** A count: a whole number that is not negative, or nothing. *)
Definition count_or_blank (v : value) : bool :=
  match v with
  | VBlank => true
  | VNum u => Pos.eqb (Qden u) 1 && Z.leb 0 (Qnum u)
  | _ => false
  end.

(** The units of every row are counts, and the prelease percentages and
    the market averages are shares. *)
Definition plausible (wb : Workbook) : bool :=
  forallb (fun r => count_or_blank (input wb PD (r, 5)) &&
                    share_or_blank (input wb PD (r, 6))) (seq 7 100) &&
  forallb (fun r => share_or_blank (input wb MA (r, 3))) (seq 7 6).

(** ** Further notions used by the statements *)

(** A text without any digit is no number. *)
Definition no_digit (s : string) : bool :=
  match chars s with
  | [] => false
  | cs => negb (existsb is_digit cs)
  end.

(** A workbook with the units [abc] in a Studio row. *)
Definition text_units_workbook : Workbook :=
  type_entry 7 5 (VText "abc") (type_entry 7 4 (VText "Studio") blank_workbook).

(** What [add_sample_data] may do to the worksheet [ws0]. *)
Record sample_frame (ws0 ws : Worksheet) : Prop := {
  sf_title : title ws = title ws0;
  sf_validations : data_validations ws = data_validations ws0;
  sf_formats : conditional_formatting ws = conditional_formatting ws0;
  sf_outside : forall rc,
    ~ (7 <= rc.1 <= 21 /\ 2 <= rc.2 <= 6) -> cells ws !! rc = cells ws0 !! rc;
  sf_no_percent : forall i,
    12 <= i <= 17 -> cells ws !! (i, 6) = cells ws0 !! (i, 6);
  sf_constants : forall rc v,
    cells ws !! rc = Some v -> cells ws0 !! rc = Some v \/ is_constant v = true
}.

(** ** Facts about the generated sheets *)

Lemma forallb_seq (p : nat -> bool) (a len r : nat) :
  forallb p (seq a len) = true -> a <= r < a + len -> p r = true.
Proof.
  intros Hall Hr. rewrite forallb_forall in Hall. apply Hall, in_seq. lia.
Qed.

Lemma entry_rows_checked : forallb entry_row_ok (seq 7 100) = true.
Proof. vm_compute. reflexivity. Qed.

Lemma report_rows_checked : forallb report_row_ok (seq 8 100) = true.
Proof. vm_compute. reflexivity. Qed.

Lemma entry_formulas (r : nat) :
  7 <= r <= 106 ->
  formula_at entry_template (r, 7) (effective_expr r) = true /\
  formula_at entry_template (r, 8) (beds_expr r) = true /\
  formula_at entry_template (r, 9) (leased_expr r) = true.
Proof.
  intros Hr.
  assert (H : entry_row_ok r = true)
    by (apply (forallb_seq _ 7 100); [apply entry_rows_checked | lia]).
  unfold entry_row_ok in H. rewrite !andb_true_iff in H. tauto.
Qed.

Lemma report_formulas (r : nat) :
  8 <= r <= 107 ->
  formula_at report_template (r, 2) (mirror_expr 2 (r - 1)) = true /\
  formula_at report_template (r, 3) (mirror_expr 3 (r - 1)) = true /\
  formula_at report_template (r, 4) (report_beds_expr (r - 1)) = true /\
  formula_at report_template (r, 5) (mirror_expr 8 (r - 1)) = true /\
  formula_at report_template (r, 6) (mirror_expr 7 (r - 1)) = true /\
  formula_at report_template (r, 7) (mirror_expr 9 (r - 1)) = true.
Proof.
  intros Hr.
  assert (H : report_row_ok r = true)
    by (apply (forallb_seq _ 8 100); [apply report_rows_checked | lia]).
  unfold report_row_ok in H. rewrite !andb_true_iff in H. tauto.
Qed.

Lemma totals_formulas :
  formula_at report_template (110, 5) (sum_expr 5) = true /\
  formula_at report_template (110, 7) (sum_expr 7) = true /\
  formula_at report_template (112, 3) overall_expr = true.
Proof. vm_compute. auto. Qed.

Lemma template_titles :
  title market_template = MA /\ title entry_template = PD /\ title report_template = LBR.
Proof. vm_compute. auto. Qed.

Lemma generated_sheets (path : string) :
  sheets (saved (generate_workbook path false)) =
  [market_template; entry_template; report_template].
Proof. reflexivity. Qed.

(** ** Reading the cells of a filled-in workbook *)

Lemma formula_at_inv (ws : Worksheet) (rc : nat * nat) (e : expr) :
  formula_at ws rc e = true ->
  exists s, cells ws !! rc = Some (VText s) /\ is_formula s = true /\
            parse_formula s = Some e.
Proof.
  unfold formula_at. destruct (cells ws !! rc) as [[| |s| |]|]; try discriminate.
  rewrite andb_true_iff, bool_decide_eq_true. intros [Hf Hp]. eauto.
Qed.

Lemma cell_content_formula (ws : Worksheet) (rc : nat * nat) (s : string) :
  cells ws !! rc = Some (VText s) -> is_formula s = true ->
  cell_content ws rc = VText s.
Proof.
  unfold cell_content. intros -> Hf. destruct s; [discriminate | reflexivity].
Qed.

Lemma cell_content_not_empty_text (ws : Worksheet) (rc : nat * nat) :
  cell_content ws rc <> VText EmptyString.
Proof.
  unfold cell_content. destruct (cells ws !! rc) as [[| |[|? ?]| |]|]; discriminate.
Qed.

Section Filled.
Variable today : Z.
Variable wb : Workbook.
Hypothesis Hwb : filled_in wb.

Lemma find_sheets :
  exists ma pd rp,
    find_sheet wb MA = Some ma /\ find_sheet wb PD = Some pd /\
    find_sheet wb LBR = Some rp /\
    edited market_inputs market_template ma /\
    edited entry_inputs entry_template pd /\
    edited no_inputs report_template rp.
Proof.
  destruct Hwb as (ma & pd & rp & Hs & Hma & Hpd & Hrp).
  destruct template_titles as (Tma & Tpd & Trp).
  exists ma, pd, rp. unfold find_sheet. rewrite Hs. cbn [List.find].
  rewrite (ed_title _ _ _ Hma), (ed_title _ _ _ Hpd), (ed_title _ _ _ Hrp).
  rewrite Tma, Tpd, Trp.
  repeat match goal with |- _ /\ _ => split end; auto.
Qed.

Lemma eval_constant (sheet : string) (ws : Worksheet) (n : nat) (rc : nat * nat) :
  find_sheet wb sheet = Some ws ->
  is_constant (cell_content ws rc) = true ->
  eval_cell today wb (S n) sheet rc = Ok (input wb sheet rc).
Proof.
  intros Hf Hc. unfold input. cbn [eval_cell]. rewrite Hf.
  destruct (cell_content ws rc) as [| |s| |]; try reflexivity.
  cbn in Hc. apply negb_true_iff in Hc. rewrite Hc. reflexivity.
Qed.

Lemma eval_entry_input (n : nat) (rc : nat * nat) :
  entry_inputs rc = true -> eval_cell today wb (S n) PD rc = Ok (input wb PD rc).
Proof.
  intros Hin. destruct find_sheets as (ma & pd & rp & _ & Hf & _ & _ & Hpd & _).
  apply (eval_constant PD pd); [exact Hf|].
  pose proof (ed_cells _ _ _ Hpd rc) as Hc. rewrite Hin in Hc. exact Hc.
Qed.

Lemma eval_market_input (n : nat) (rc : nat * nat) :
  market_inputs rc = true -> eval_cell today wb (S n) MA rc = Ok (input wb MA rc).
Proof.
  intros Hin. destruct find_sheets as (ma & pd & rp & Hf & _ & _ & Hma & _ & _).
  apply (eval_constant MA ma); [exact Hf|].
  pose proof (ed_cells _ _ _ Hma rc) as Hc. rewrite Hin in Hc. exact Hc.
Qed.

Lemma eval_formula (sheet : string) (inputs : nat * nat -> bool) (ws0 ws : Worksheet)
    (n : nat) (rc : nat * nat) (e : expr) :
  find_sheet wb sheet = Some ws ->
  edited inputs ws0 ws ->
  inputs rc = false ->
  formula_at ws0 rc e = true ->
  eval_cell today wb (S n) sheet rc =
    (v ← eval_expr today (eval_cell today wb n) (title ws0) e; Ok (formula_result v)).
Proof.
  intros Hf Hed Hin Hat.
  destruct (formula_at_inv _ _ _ Hat) as (s & Hs & Hfs & Hp).
  pose proof (ed_cells _ _ _ Hed rc) as Hc. rewrite Hin in Hc.
  cbn [eval_cell]. rewrite Hf.
  rewrite (cell_content_formula ws rc s) by (exact Hfs || (rewrite Hc; exact Hs)).
  rewrite Hfs, Hp, (ed_title _ _ _ Hed). reflexivity.
Qed.

Lemma eval_entry_formula (n : nat) (rc : nat * nat) (e : expr) :
  entry_inputs rc = false ->
  formula_at entry_template rc e = true ->
  eval_cell today wb (S n) PD rc =
    (v ← eval_expr today (eval_cell today wb n) PD e; Ok (formula_result v)).
Proof.
  intros Hin Hat. destruct find_sheets as (ma & pd & rp & _ & Hf & _ & _ & Hpd & _).
  apply (eval_formula PD entry_inputs entry_template pd); assumption.
Qed.

Lemma eval_report_formula (n : nat) (rc : nat * nat) (e : expr) :
  formula_at report_template rc e = true ->
  eval_cell today wb (S n) LBR rc =
    (v ← eval_expr today (eval_cell today wb n) LBR e; Ok (formula_result v)).
Proof.
  intros Hat. destruct find_sheets as (ma & pd & rp & _ & _ & Hf & _ & _ & Hrp).
  apply (eval_formula LBR no_inputs report_template rp); auto.
Qed.

Lemma input_not_empty_text (sheet : string) (rc : nat * nat) :
  input wb sheet rc <> VText EmptyString.
Proof.
  unfold input. destruct (find_sheet wb sheet); [|discriminate].
  apply cell_content_not_empty_text.
Qed.
End Filled.

(** ** Evaluating the building blocks *)

#[local] Arguments eval_cell : simpl never.

Lemma upcase_string_empty (s : string) :
  upcase_string s = EmptyString -> s = EmptyString.
Proof. destruct s; [reflexivity | discriminate]. Qed.

Lemma text_eqb_empty (s : string) :
  text_eqb s EmptyString = true <-> s = EmptyString.
Proof.
  unfold text_eqb. rewrite String.eqb_eq. split.
  - apply upcase_string_empty.
  - intros ->. reflexivity.
Qed.

(** The comparison ignores letter case, the validation list does not. *)
Example text_eqb_case :
  text_eqb "studio" "Studio" = true /\
  dv_check true bedroom_dv "studio" =
    Ok (Rejected "Invalid Entry" "Please select a valid bedroom type").
Proof. vm_compute. auto. Qed.

Lemma text_eqb_refl (s : string) : text_eqb s s = true.
Proof. unfold text_eqb. apply String.eqb_refl. Qed.

Lemma text_eqb_upcase (s t : string) :
  text_eqb s t = true -> upcase_string s = upcase_string t.
Proof. unfold text_eqb. apply String.eqb_eq. Qed.

(** The emptiness test of the formulas decides emptiness, for every value
    but an error. *)
Lemma xl_equal_empty (v : value) :
  ~ is_error v ->
  xl_equal v (VText EmptyString) = inr (bool_decide (is_empty v)).
Proof.
  intros Hne. destruct v as [|x|s|b|e]; cbn.
  - rewrite bool_decide_eq_true_2; [reflexivity | left; reflexivity].
  - rewrite bool_decide_eq_false_2; [reflexivity | intros [?|?]; discriminate].
  - f_equal. destruct (text_eqb s EmptyString) eqn:E.
    + apply text_eqb_empty in E. subst.
      rewrite bool_decide_eq_true_2; [reflexivity | right; reflexivity].
    + rewrite bool_decide_eq_false_2; [reflexivity|].
      intros [?|Hs]; [discriminate|]. injection Hs as ->.
      rewrite text_eqb_refl in E. discriminate.
  - rewrite bool_decide_eq_false_2; [reflexivity | intros [?|?]; discriminate].
  - exfalso. apply Hne. exists e. reflexivity.
Qed.

Lemma xl_equal_text_total (v : value) (t : string) :
  ~ is_error v -> xl_equal v (VText t) = inr (value_matches v t).
Proof.
  intros Hne. unfold value_matches.
  destruct v as [|x|s|b|e]; cbn; try reflexivity.
  - destruct (String.eqb t EmptyString); reflexivity.
  - destruct (text_eqb s t); reflexivity.
  - exfalso. apply Hne. exists e. reflexivity.
Qed.

Section Blocks.
Variable today : Z.
Variable deref : string -> nat * nat -> outcome value.
Variable cur : string.

Lemma eval_test_eq (d : expr) (vd : value) (t : string) :
  eval_expr today deref cur d = Ok vd ->
  eval_expr today deref cur (ECmp OpEq d (EStr t)) =
    Ok (of_bool (xl_equal vd (VText t))).
Proof. intros Hd. cbn. rewrite Hd. reflexivity. Qed.

Lemma eval_test_ne (d : expr) (vd : value) (t : string) :
  eval_expr today deref cur d = Ok vd ->
  eval_expr today deref cur (ECmp OpNe d (EStr t)) =
    Ok (of_bool (negate (xl_equal vd (VText t)))).
Proof. intros Hd. cbn. rewrite Hd. reflexivity. Qed.

(** A chain of nested IFs on [d] picks the branch of the first name
    that [d] matches, or the fallback. *)
Lemma eval_lookup_chain (d : expr) (vd : value) (table : list (string * expr))
    (fallback : expr) :
  eval_expr today deref cur d = Ok vd ->
  ~ is_error vd ->
  eval_expr today deref cur (lookup_chain d table fallback) =
    match List.find (fun p => value_matches vd p.1) table with
    | Some p => eval_expr today deref cur p.2
    | None => eval_expr today deref cur fallback
    end.
Proof.
  intros Hd Hne. induction table as [|[name e] table IH].
  - reflexivity.
  - cbn [lookup_chain foldr List.find fst snd].
    change (foldr _ fallback table) with (lookup_chain d table fallback).
    cbn [eval_expr]. rewrite Hd. cbn [mbind outcome_bind xl_compare].
    rewrite (xl_equal_text_total vd name Hne). cbn [of_bool to_bool].
    destruct (value_matches vd name); [reflexivity | exact IH].
Qed.

Lemma eval_lookup_chain_error (d : expr) (e : xl_error) (name : string) (x : expr)
    (table : list (string * expr)) (fallback : expr) :
  eval_expr today deref cur d = Ok (VErr e) ->
  eval_expr today deref cur (lookup_chain d ((name, x) :: table) fallback) = Ok (VErr e).
Proof. intros Hd. cbn. rewrite Hd. reflexivity. Qed.
End Blocks.

Lemma entry_inputs_in (r c : nat) :
  7 <= r <= 106 -> 2 <= c <= 6 -> entry_inputs (r, c) = true.
Proof.
  intros Hr Hc. unfold entry_inputs. cbn [fst snd].
  rewrite !andb_true_iff, !Nat.leb_le. lia.
Qed.

Lemma entry_inputs_out (r c : nat) : 7 <= c -> entry_inputs (r, c) = false.
Proof.
  intros Hc. unfold entry_inputs. cbn [fst snd].
  rewrite !andb_false_iff, !Nat.leb_gt. lia.
Qed.

Lemma market_inputs_in (r : nat) : 7 <= r <= 12 -> market_inputs (r, 3) = true.
Proof.
  intros Hr. unfold market_inputs. cbn [fst snd].
  rewrite !andb_true_iff, !Nat.leb_le, Nat.eqb_eq. lia.
Qed.

Lemma find_none_intro {A} (f : A -> bool) (l : list A) :
  (forall x, In x l -> f x = false) -> List.find f l = None.
Proof.
  induction l as [|a l IH]; intros H; [reflexivity|].
  cbn. rewrite (H a) by (left; reflexivity). apply IH.
  intros x Hx. apply H. right. exact Hx.
Qed.

(** ** The Market Averages sheet *)

Lemma market_avg_refs_lookup (name coord : string) :
  market_avg_refs !! name = Some coord <-> In (name, coord) coordinates.
Proof.
  unfold market_avg_refs, coordinates. rewrite !lookup_insert_Some, lookup_empty.
  cbn [In]. split.
  - intros H. repeat destruct H as [[<- <-]|[_ H]]; try discriminate; tauto.
  - intros H. repeat destruct H as [H|H]; try (injection H as <- <-); try contradiction.
    all: repeat (first [left; split; [reflexivity|reflexivity]
                       | right; split; [discriminate|]]).
Qed.

(** ** Workbooks to test with *)

Lemma edited_refl (inputs : nat * nat -> bool) (ws0 : Worksheet) :
  (forall rc, inputs rc = true -> is_constant (cell_content ws0 rc) = true) ->
  edited inputs ws0 ws0.
Proof.
  intros H. split; try reflexivity.
  intros rc. destruct (inputs rc) eqn:E; [apply H; exact E | reflexivity].
Qed.

Lemma cell_content_ws_cell (ws : Worksheet) (r c : nat) (v : value) (rc : nat * nat) :
  cell_content (ws_cell r c v ws) rc =
    if decide (rc = (r, c)) then
      match v with VText EmptyString => VBlank | _ => v end
    else cell_content ws rc.
Proof.
  unfold cell_content, ws_cell. cbn [cells].
  destruct (decide (rc = (r, c))) as [->|Hne].
  - rewrite lookup_insert_eq. destruct v as [| |[|? ?]| |]; reflexivity.
  - rewrite lookup_insert_ne by congruence. reflexivity.
Qed.

(** Typing a constant into an input cell. *)
Lemma edited_ws_cell (inputs : nat * nat -> bool) (ws0 ws : Worksheet) (r c : nat)
    (v : value) :
  inputs (r, c) = true -> is_constant v = true ->
  edited inputs ws0 ws -> edited inputs ws0 (ws_cell r c v ws).
Proof.
  intros Hin Hv [Ht Hd Hf Hc]. split; try assumption.
  intros rc. specialize (Hc rc). destruct (inputs rc) eqn:E.
  - rewrite cell_content_ws_cell. destruct (decide (rc = (r, c))); [|exact Hc].
    destruct v as [| |[|? ?]| |]; auto.
  - unfold ws_cell. cbn [cells]. rewrite lookup_insert_ne; [exact Hc|].
    intros <-. congruence.
Qed.

Lemma entry_template_inputs (rc : nat * nat) :
  entry_inputs rc = true -> is_constant (cell_content entry_template rc) = true.
Proof.
  destruct rc as [r c]. unfold entry_inputs. cbn [fst snd].
  rewrite !andb_true_iff, !Nat.leb_le. intros Hrc.
  assert (H : forallb entry_inputs_constant (seq 7 100) = true)
    by (vm_compute; reflexivity).
  apply (forallb_seq _ 7 100 r) in H; [|lia].
  apply (forallb_seq _ 2 5 c) in H; [exact H | lia].
Qed.

Lemma market_template_inputs (rc : nat * nat) :
  market_inputs rc = true -> is_constant (cell_content market_template rc) = true.
Proof.
  destruct rc as [r c]. unfold market_inputs. cbn [fst snd].
  rewrite !andb_true_iff, !Nat.leb_le, Nat.eqb_eq. intros [[H1 H2] ->].
  assert (H : forallb (fun r => is_constant (cell_content market_template (r, 3)))
                (seq 7 6) = true) by (vm_compute; reflexivity).
  apply (forallb_seq _ 7 6 r) in H; [exact H | lia].
Qed.

Lemma blank_filled_in : filled_in blank_workbook.
Proof.
  exists market_template, entry_template, report_template.
  split; [apply generated_sheets|]. split; [|split].
  - apply edited_refl, market_template_inputs.
  - apply edited_refl, entry_template_inputs.
  - apply edited_refl. discriminate.
Qed.

Lemma filled_in_entry (wb : Workbook) (r c : nat) (v : value) :
  entry_inputs (r, c) = true -> is_constant v = true ->
  filled_in wb -> filled_in (on_sheet 1 (ws_cell r c v) wb).
Proof.
  intros Hin Hv (ma & pd & rp & Hs & Hma & Hpd & Hrp).
  exists ma, (ws_cell r c v pd), rp. unfold on_sheet. cbn [sheets]. rewrite Hs.
  split; [reflexivity|]. split; [exact Hma|]. split; [|exact Hrp].
  apply edited_ws_cell; assumption.
Qed.

Lemma filled_in_market (wb : Workbook) (r c : nat) (v : value) :
  market_inputs (r, c) = true -> is_constant v = true ->
  filled_in wb -> filled_in (on_sheet 0 (ws_cell r c v) wb).
Proof.
  intros Hin Hv (ma & pd & rp & Hs & Hma & Hpd & Hrp).
  exists (ws_cell r c v ma), pd, rp. unfold on_sheet. cbn [sheets]. rewrite Hs.
  split; [reflexivity|]. split; [|split; [exact Hpd | exact Hrp]].
  apply edited_ws_cell; assumption.
Qed.

Lemma edited_for_each {A} (inputs : nat * nat -> bool) (ws0 : Worksheet) (xs : list A)
    (body : A -> Worksheet -> Worksheet) :
  Forall (fun x => forall ws, edited inputs ws0 ws -> edited inputs ws0 (body x ws)) xs ->
  forall ws, edited inputs ws0 ws -> edited inputs ws0 (for_each xs body ws).
Proof.
  unfold for_each. induction 1 as [|x xs Hx _ IH]; intros ws Hws; [exact Hws|].
  cbn [fold_left]. apply IH, Hx, Hws.
Qed.

Lemma sample_sheets :
  sheets sample_workbook = [market_template; add_sample_data entry_template; report_template].
Proof. reflexivity. Qed.

Lemma sample_filled_in : filled_in sample_workbook.
Proof.
  exists market_template, (add_sample_data entry_template), report_template.
  split; [apply sample_sheets|]. split; [|split].
  - apply edited_refl, market_template_inputs.
  - unfold add_sample_data. apply edited_for_each.
    + unfold sample_data. cbn [enumerate].
      repeat (apply Forall_cons; split;
              [intros ws Hws; cbn [decide];
               repeat (apply edited_ws_cell; [reflexivity | reflexivity |]); exact Hws|]).
      apply Forall_nil. exact I.
    + apply edited_refl, entry_template_inputs.
  - apply edited_refl. discriminate.
Qed.

(** ** The derived cells of an entry row *)

Lemma find_map_fst {A B} (f : string -> bool) (g : A -> B) (l : list (string * A)) :
  List.find (fun p => f p.1) ((fun p => (p.1, g p.2)) <$> l) =
  (fun p => (p.1, g p.2)) <$> List.find (fun p => f p.1) l.
Proof.
  induction l as [|[k a] l IH]; [reflexivity|].
  cbn. destruct (f k); [reflexivity | exact IH].
Qed.

Lemma find_ext_in {A} (f g : A -> bool) (l : list A) :
  (forall x, In x l -> f x = g x) -> List.find f l = List.find g l.
Proof.
  induction l as [|a l IH]; intros H; [reflexivity|].
  cbn. rewrite (H a) by (left; reflexivity).
  destruct (g a); [reflexivity|]. apply IH. intros x Hx. apply H. right. exact Hx.
Qed.

(** For a name that is not empty, the formula test [d = name] is the
    match of [d] against the name. *)
Lemma value_matches_name (d : value) (name : string) :
  name <> EmptyString -> value_matches d name = matches d name.
Proof.
  intros Hname. unfold value_matches.
  destruct d as [|x|s|b|e]; cbn; try reflexivity.
  - destruct (String.eqb_spec name EmptyString); [contradiction | reflexivity].
  - destruct (text_eqb s name); reflexivity.
Qed.

Lemma market_table_rows : market_table = (fun p => (p.1, market_cell p.2)) <$> market_rows.
Proof. reflexivity. Qed.

Lemma find_names {A} (d : value) (l : list (string * A)) :
  Forall (fun p => p.1 <> EmptyString) l ->
  List.find (fun p => value_matches d p.1) l = List.find (fun p => matches d p.1) l.
Proof.
  intros Hall. apply find_ext_in. intros p Hp.
  apply value_matches_name. rewrite Forall_forall in Hall. apply Hall.
  apply list_elem_of_In. exact Hp.
Qed.

Lemma market_rows_names : Forall (fun p : string * nat => p.1 <> EmptyString) market_rows.
Proof. repeat constructor; discriminate. Qed.

Lemma beds_table_names : Forall (fun p : string * nat => p.1 <> EmptyString) beds_table.
Proof. repeat constructor; discriminate. Qed.

Lemma market_rows_range (d : value) (p : string * nat) :
  List.find (fun p => matches d p.1) market_rows = Some p -> 7 <= p.2 <= 12.
Proof.
  intros H. apply find_some in H. destruct H as [H _]. cbn in H.
  repeat destruct H as [<-|H]; try contradiction; cbn; lia.
Qed.

(** The guard of the derived cells: one of two values is empty. *)
Lemma guard_value (vx vy : value) :
  ~ is_error vx -> ~ is_error vy ->
  xl_logic orb (of_bool (xl_equal vx (VText EmptyString)))
               (of_bool (xl_equal vy (VText EmptyString))) =
  VBool (bool_decide (is_empty vx) || bool_decide (is_empty vy)).
Proof.
  intros Hx Hy. rewrite (xl_equal_empty vx Hx), (xl_equal_empty vy Hy). reflexivity.
Qed.

Section BedsLookup.
Variable today : Z.
Variable deref : string -> nat * nat -> outcome value.
Variable cur : string.
Variable d : expr.
Variable vd : value.
Hypothesis Hd : eval_expr today deref cur d = Ok vd.
Hypothesis Hne : ~ is_error vd.

(** The lookup of the entry sheet: the number of beds of the first
    name matched, or 0. *)
Lemma eval_entry_beds_lookup :
  eval_expr today deref cur (entry_beds_lookup d) =
    Ok (VNum (num (Z.of_nat (bedsPerUnit vd)))).
Proof.
  unfold entry_beds_lookup, bedsPerUnit.
  rewrite (eval_lookup_chain today deref cur d vd) by assumption.
  unfold beds_exprs. rewrite find_map_fst, (find_names vd _ beds_table_names).
  destruct (List.find (fun p => matches vd p.1) beds_table); reflexivity.
Qed.

(** The lookup of the report sheet: empty for an empty bedroom type,
    else the number of beds of the first name matched, or empty. *)
Lemma eval_report_beds_lookup :
  eval_expr today deref cur (report_beds_lookup d) =
    Ok (if bool_decide (is_empty vd) then VText EmptyString
        else match List.find (fun p => matches vd p.1) beds_table with
             | Some p => VNum (num (Z.of_nat p.2))
             | None => VText EmptyString
             end).
Proof.
  unfold report_beds_lookup. cbn [eval_expr]. rewrite Hd.
  cbn [mbind outcome_bind xl_compare]. rewrite (xl_equal_empty vd Hne).
  cbn [of_bool to_bool]. destruct (bool_decide (is_empty vd)); [reflexivity|].
  rewrite (eval_lookup_chain today deref cur d vd) by assumption.
  unfold beds_exprs. rewrite find_map_fst, (find_names vd _ beds_table_names).
  destruct (List.find (fun p => matches vd p.1) beds_table); reflexivity.
Qed.
End BedsLookup.

Section EntryRow.
Variable today : Z.
Variable wb : Workbook.
Variable n r : nat.
Hypothesis Hwb : filled_in wb.
Hypothesis Hr : 7 <= r <= 106.

Let D := input wb PD (r, 4).
Let E := input wb PD (r, 5).
Let F := input wb PD (r, 6).
Let deref := eval_cell today wb (S n).

Lemma entry_input_value (c : nat) :
  2 <= c <= 6 -> deref PD (r, c) = Ok (input wb PD (r, c)).
Proof.
  intros Hc. apply eval_entry_input; [exact Hwb | apply entry_inputs_in; lia].
Qed.

Lemma entry_formula_value (c : nat) (e : expr) :
  7 <= c -> formula_at entry_template (r, c) e = true ->
  eval_cell today wb (2 + n) PD (r, c) =
    (v ← eval_expr today deref PD e; Ok (formula_result v)).
Proof.
  intros Hc Hat. apply (eval_entry_formula today wb Hwb); [|exact Hat].
  apply entry_inputs_out. exact Hc.
Qed.

(** *** Effective % *)

Lemma effective_explicit :
  ~ is_empty F -> eval_cell today wb (2 + n) PD (r, 7) = Ok F.
Proof.
  intros Hne. destruct (entry_formulas r Hr) as (HG & _ & _).
  rewrite (entry_formula_value 7 _ (le_n 7) HG).
  unfold effective_expr. cbn [eval_expr here default ref_row ref_col].
  rewrite (entry_input_value 6) by lia. fold F.
  destruct F as [|x|s|b|e] eqn:EF; cbn.
  - exfalso. apply Hne. left. reflexivity.
  - reflexivity.
  - destruct (text_eqb s EmptyString) eqn:Es; cbn.
    + apply text_eqb_empty in Es. subst s. exfalso. apply Hne. right. reflexivity.
    + reflexivity.
  - reflexivity.
  - reflexivity.
Qed.

Lemma effective_fallback :
  is_empty F -> ~ is_error D ->
  eval_cell today wb (2 + n) PD (r, 7) =
    Ok (match List.find (fun p => matches D p.1) market_rows with
        | Some p => formula_result (input wb MA (p.2, 3))
        | None => VText EmptyString
        end).
Proof.
  intros [HE|HE] HD; [|exfalso; exact (input_not_empty_text wb PD (r, 6) HE)].
  destruct (entry_formulas r Hr) as (HG & _ & _).
  rewrite (entry_formula_value 7 _ (le_n 7) HG).
  unfold effective_expr. cbn [eval_expr here default ref_row ref_col].
  rewrite (entry_input_value 6) by lia. fold F. rewrite HE.
  cbn [mbind outcome_bind xl_compare xl_equal String.eqb negate of_bool to_bool].
  change (ERef None (CellRef false 4 false r)) with (here 4 r).
  rewrite (eval_lookup_chain today deref PD (here 4 r) D)
    by (exact HD || (apply (entry_input_value 4); lia)).
  rewrite market_table_rows, find_map_fst, (find_names D _ market_rows_names).
  destruct (List.find (fun p => matches D p.1) market_rows) as [p|] eqn:Efind;
    cbn [fmap option_fmap option_map fst snd]; [|reflexivity].
  apply market_rows_range in Efind.
  cbn [eval_expr market_cell default ref_row ref_col]. unfold deref.
  rewrite eval_market_input by (exact Hwb || (apply market_inputs_in; lia)).
  reflexivity.
Qed.

(** *** Total Beds *)

Lemma total_beds_guard :
  ~ is_error D -> ~ is_error E ->
  eval_cell today wb (2 + n) PD (r, 8) =
    if bool_decide (is_empty D) || bool_decide (is_empty E) then Ok (VText EmptyString)
    else (v ← xl_arith OpMul (VNum (num (Z.of_nat (bedsPerUnit D)))) E;
          Ok (formula_result v)).
Proof.
  intros HD HE. destruct (entry_formulas r Hr) as (_ & HH & _).
  rewrite (entry_formula_value 8 _ (le_S _ _ (le_n 7)) HH).
  unfold beds_expr. cbn [eval_expr here default ref_row ref_col].
  rewrite (entry_input_value 4), (entry_input_value 5) by lia. fold D E.
  cbn [mbind outcome_bind xl_compare]. rewrite (guard_value D E HD HE).
  cbn [to_bool].
  destruct (bool_decide (is_empty D) || bool_decide (is_empty E)); [reflexivity|].
  change (ERef None (CellRef false 4 false r)) with (here 4 r).
  rewrite (eval_entry_beds_lookup today deref PD (here 4 r) D)
    by (exact HD || (apply (entry_input_value 4); lia)).
  reflexivity.
Qed.

Lemma total_beds_empty :
  ~ is_error D -> ~ is_error E -> is_empty D \/ is_empty E ->
  eval_cell today wb (2 + n) PD (r, 8) = Ok (VText EmptyString).
Proof.
  intros HD HE Hempty. rewrite (total_beds_guard HD HE).
  destruct Hempty as [H|H].
  - rewrite (bool_decide_eq_true_2 _ H). reflexivity.
  - rewrite (bool_decide_eq_true_2 _ H), orb_true_r. reflexivity.
Qed.

Lemma total_beds_product (u : Qc) :
  ~ is_error D -> ~ is_empty D -> E = VNum u ->
  eval_cell today wb (2 + n) PD (r, 8) =
    Ok (VNum (num (Z.of_nat (bedsPerUnit D)) * u)%Qc).
Proof.
  intros HD HDe HE.
  rewrite (total_beds_guard HD) by (rewrite HE; intros [? ?]; discriminate).
  rewrite (bool_decide_eq_false_2 _ HDe), HE.
  rewrite bool_decide_eq_false_2 by (intros [?|?]; discriminate).
  reflexivity.
Qed.
End EntryRow.

(** The first name that a value matches decides the lookup: a value
    matches at most one of the names. *)
Lemma matches_find {A} (d : value) (name : string) (a : A) (l : list (string * A)) :
  NoDup (upcase_string <$> l.*1) ->
  In (name, a) l -> matches d name = true ->
  List.find (fun p => matches d p.1) l = Some (name, a).
Proof.
  intros Hnd Hin Hm. destruct d as [|x|s|b|e]; try discriminate Hm.
  cbn [matches] in Hm. apply text_eqb_upcase in Hm.
  induction l as [|[k v] l IH]; [contradiction|].
  cbn [fmap list_fmap fst] in Hnd. apply NoDup_cons in Hnd. destruct Hnd as [Hk Hnd].
  cbn [List.find fst matches]. destruct Hin as [Heq|Hin].
  - injection Heq as -> ->. unfold text_eqb. rewrite Hm, String.eqb_refl. reflexivity.
  - destruct (text_eqb s k) eqn:Ek; [|apply IH; assumption].
    apply text_eqb_upcase in Ek. exfalso. apply Hk.
    rewrite <- Ek, Hm. apply list_elem_of_fmap. exists name. split; [reflexivity|].
    apply list_elem_of_fmap. exists (name, a). split; [reflexivity|].
    apply list_elem_of_In. exact Hin.
Qed.

Lemma market_rows_nodup : NoDup (upcase_string <$> market_rows.*1).
Proof. apply (bool_decide_unpack _). vm_compute. exact I. Qed.

Lemma beds_table_nodup : NoDup (upcase_string <$> beds_table.*1).
Proof. apply (bool_decide_unpack _). vm_compute. exact I. Qed.

Lemma no_match_find {A} (d : value) (l : list (string * A)) :
  (forall name, In name l.*1 -> matches d name = false) ->
  List.find (fun p => matches d p.1) l = None.
Proof.
  intros H. apply find_none_intro. intros [k a] Hin. apply H.
  apply list_elem_of_In, list_elem_of_fmap. exists (k, a). split; [reflexivity|].
  apply list_elem_of_In. exact Hin.
Qed.

(** Each coordinate returned by the Market Averages builder is column C
    of the row that the effective-% formula reads for that name. *)
Lemma coordinate_row (name coord : string) (rc : nat * nat) :
  market_avg_refs !! name = Some coord ->
  coordinate_to_tuple coord = Some rc ->
  exists row, In (name, row) market_rows /\ rc = (row, 3).
Proof.
  intros Hrefs Hcoord. apply market_avg_refs_lookup in Hrefs. cbn [In coordinates] in Hrefs.
  repeat destruct Hrefs as [Hrefs|Hrefs]; try contradiction;
    injection Hrefs as <- <-; vm_compute in Hcoord; injection Hcoord as <-;
    eexists; (split; [|reflexivity]); cbn; tauto.
Qed.

(** C1. In every entry row (7..106) of a filled-in workbook the
    effective-percent cell (column G) evaluates to the row's prelease
    percentage when that is not empty; when it is empty and the bedroom
    type matches one of the six names, to the value of the Market
    Averages cell whose coordinate the builder returned for that name (a
    formula shows a blank cell as 0); and when it is empty and the bedroom
    type matches none of the names (an empty bedroom type included), to
    the empty text. *)
Theorem effective_percent_cell (today : Z) (wb : Workbook) (n r : nat) :
  filled_in wb -> 7 <= r <= 106 ->
  let F := input wb PD (r, 6) in
  let D := input wb PD (r, 4) in
  let G := eval_cell today wb (2 + n) PD (r, 7) in
  (~ is_empty F -> G = Ok F) /\
  (is_empty F ->
     forall name coord rc,
       market_avg_refs !! name = Some coord ->
       coordinate_to_tuple coord = Some rc ->
       matches D name = true ->
       G = Ok (formula_result (input wb MA rc))) /\
  (is_empty F -> ~ is_error D ->
     (forall name, In name bedroom_names -> matches D name = false) ->
     G = Ok (VText EmptyString)).
Proof.
  intros Hwb Hr F D G. split; [|split].
  - apply effective_explicit; assumption.
  - intros HE name coord rc Hrefs Hcoord Hm.
    destruct (coordinate_row name coord rc Hrefs Hcoord) as (row & Hin & ->).
    unfold G. rewrite effective_fallback; try assumption.
    + fold D. rewrite (matches_find D name row market_rows market_rows_nodup Hin Hm).
      reflexivity.
    + intros [e He]. fold D in He. rewrite He in Hm. discriminate.
  - intros HE HD Hnone. unfold G. rewrite effective_fallback; try assumption.
    fold D. rewrite no_match_find; [reflexivity | exact Hnone].
Qed.

Lemma effective_percent_cell_witness :
  filled_in sample_workbook /\ 7 <= 12 <= 106 /\
  let F := input sample_workbook PD (12, 6) in
  let D := input sample_workbook PD (12, 4) in
  let G := eval_cell 0 sample_workbook (2 + 0) PD (12, 7) in
  (~ is_empty F -> G = Ok F) /\
  (is_empty F ->
     forall name coord rc,
       market_avg_refs !! name = Some coord ->
       coordinate_to_tuple coord = Some rc ->
       matches D name = true ->
       G = Ok (formula_result (input sample_workbook MA rc))) /\
  (is_empty F -> ~ is_error D ->
     (forall name, In name bedroom_names -> matches D name = false) ->
     G = Ok (VText EmptyString)).
Proof.
  split; [apply sample_filled_in|]. split; [lia|].
  apply (effective_percent_cell 0 sample_workbook 0 12); [apply sample_filled_in | lia].
Defined.

(** C3. In every entry row of a filled-in workbook whose bedroom type
    and units hold no error value, the total-beds cell (column H)
    evaluates to the empty text when the bedroom type or the units are
    empty; with a bedroom type that is not empty and a number of units
    it evaluates to bedsPerUnit times the units, where bedsPerUnit is the
    fixed lookup Studio 1, 1 BR 1, 2 BR 2, 3 BR 3, 4 BR 4, 5 BR 5 and is
    0 (so the cell is 0) for a bedroom type that matches none of the six
    names. *)
Theorem total_beds_cell (today : Z) (wb : Workbook) (n r : nat) :
  filled_in wb -> 7 <= r <= 106 ->
  let D := input wb PD (r, 4) in
  let E := input wb PD (r, 5) in
  let H := eval_cell today wb (2 + n) PD (r, 8) in
  ~ is_error D -> ~ is_error E ->
  (is_empty D \/ is_empty E -> H = Ok (VText EmptyString)) /\
  (forall u, ~ is_empty D -> E = VNum u ->
     H = Ok (VNum (num (Z.of_nat (bedsPerUnit D)) * u)%Qc)) /\
  (forall name beds,
     In (name, beds) [("Studio", 1); ("1 BR", 1); ("2 BR", 2); ("3 BR", 3);
                      ("4 BR", 4); ("5 BR", 5)] ->
     matches D name = true -> bedsPerUnit D = beds) /\
  ((forall name, In name bedroom_names -> matches D name = false) ->
     bedsPerUnit D = 0 /\
     forall u, ~ is_empty D -> E = VNum u -> H = Ok (VNum (num 0))).
Proof.
  intros Hwb Hr D E H HD HE. split; [|split; [|split]].
  - apply total_beds_empty; assumption.
  - intros u HDe HEu. apply total_beds_product; assumption.
  - intros name beds Hin Hm. unfold bedsPerUnit.
    rewrite (matches_find D name beds beds_table beds_table_nodup Hin Hm). reflexivity.
  - intros Hnone.
    assert (H0 : bedsPerUnit D = 0).
    { unfold bedsPerUnit. rewrite no_match_find; [reflexivity | exact Hnone]. }
    split; [exact H0|]. intros u HDe HEu.
    unfold H. rewrite (total_beds_product today wb n r Hwb Hr u HD HDe HEu).
    fold D. rewrite H0. change (num (Z.of_nat 0)) with 0%Qc.
    rewrite Qcmult_0_l. reflexivity.
Qed.

Lemma total_beds_cell_witness :
  filled_in sample_workbook /\ 7 <= 7 <= 106 /\
  let D := input sample_workbook PD (7, 4) in
  let E := input sample_workbook PD (7, 5) in
  let H := eval_cell 0 sample_workbook (2 + 0) PD (7, 8) in
  ~ is_error D /\ ~ is_error E /\
  (is_empty D \/ is_empty E -> H = Ok (VText EmptyString)) /\
  (forall u, ~ is_empty D -> E = VNum u ->
     H = Ok (VNum (num (Z.of_nat (bedsPerUnit D)) * u)%Qc)) /\
  (forall name beds,
     In (name, beds) [("Studio", 1); ("1 BR", 1); ("2 BR", 2); ("3 BR", 3);
                      ("4 BR", 4); ("5 BR", 5)] ->
     matches D name = true -> bedsPerUnit D = beds) /\
  ((forall name, In name bedroom_names -> matches D name = false) ->
     bedsPerUnit D = 0 /\
     forall u, ~ is_empty D -> E = VNum u -> H = Ok (VNum (num 0))).
Proof.
  split; [apply sample_filled_in|]. split; [lia|].
  assert (HD : ~ is_error (input sample_workbook PD (7, 4)))
    by (vm_compute; intros [e He]; discriminate He).
  assert (HE : ~ is_error (input sample_workbook PD (7, 5)))
    by (vm_compute; intros [e He]; discriminate He).
  split; [exact HD|]. split; [exact HE|].
  apply (total_beds_cell 0 sample_workbook 0 7 sample_filled_in); [lia | exact HD | exact HE].
Defined.

(** ** Leased Beds (column I of the entry sheet) *)

Lemma xl_round_0 (x : Qc) : xl_round x (Qc_truncate (num 0)) = num (round_half_away x).
Proof.
  change (Qc_truncate (num 0)) with 0%Z. unfold xl_round.
  change (pow10 0) with 1%Qc. rewrite Qcmult_1_r.
  unfold Qcdiv. change (/ 1)%Qc with 1%Qc. apply Qcmult_1_r.
Qed.

Lemma round_half_away_nearest (x : Qc) :
  let z := inject_Z (round_half_away x) in
  (Qabs (x - z) <= 1 # 2)%Q /\
  (Qabs (x - z) == 1 # 2 -> Qabs x < Qabs z)%Q.
Proof.
  cbv zeta. unfold round_half_away, Qc_nonneg.
  destruct (Qle_bool 0 x) eqn:E.
  - apply Qle_bool_iff in E.
    pose proof (Qfloor_le (x + (1 # 2))) as Hlo.
    pose proof (Qlt_floor (x + (1 # 2))) as Hhi.
    rewrite inject_Z_plus in Hhi.
    set (z := inject_Z (Qfloor (x + (1 # 2)))) in *.
    change (inject_Z 1) with 1%Q in Hhi.
    split.
    + apply Qabs_Qle_condition. split; lra.
    + intros Heq. 
      assert (Hz : (x < z)%Q).
      { destruct (Qlt_le_dec x z) as [?|Hle]; [assumption|].
        rewrite Qabs_pos in Heq by lra. lra. }
      rewrite (Qabs_pos x), (Qabs_pos z) by lra. exact Hz.
  - assert (Hneg : (x < 0)%Q).
    { apply Qnot_le_lt. intros H. apply Qle_bool_iff in H. congruence. }
    pose proof (Qfloor_le (- x + (1 # 2))) as Hlo.
    pose proof (Qlt_floor (- x + (1 # 2))) as Hhi.
    rewrite inject_Z_plus in Hhi. rewrite inject_Z_opp.
    set (z := inject_Z (Qfloor (- x + (1 # 2)))) in *.
    change (inject_Z 1) with 1%Q in Hhi.
    split.
    + apply Qabs_Qle_condition. split; lra.
    + intros Heq.
      assert (Hz : (- z < x)%Q).
      { destruct (Qlt_le_dec (- z) x) as [?|Hle]; [assumption|].
        rewrite Qabs_neg in Heq by lra. lra. }
      rewrite (Qabs_neg x), (Qabs_neg (- z)) by lra. lra.
Qed.

Lemma Qc_canon_eq (x y : Qc) : Qeq_bool x y = true -> x = y.
Proof. intros H. apply Qc_is_canon, Qeq_bool_iff, H. Qed.

Section Leased.
Variable today : Z.
Variable wb : Workbook.
Variable n r : nat.
Hypothesis Hwb : filled_in wb.
Hypothesis Hr : 7 <= r <= 106.
Variable h g : value.
Hypothesis HH : eval_cell today wb (2 + n) PD (r, 8) = Ok h.
Hypothesis HG : eval_cell today wb (2 + n) PD (r, 7) = Ok g.

Lemma leased_guard :
  ~ is_error h -> ~ is_error g ->
  eval_cell today wb (3 + n) PD (r, 9) =
    if bool_decide (is_empty h) || bool_decide (is_empty g) then Ok (VText EmptyString)
    else (v ← xl_arith OpMul h g;
          nv ← to_number v;
          match nv with
          | inl e => Ok (VErr e)
          | inr x => Ok (VNum (num (round_half_away x)))
          end).
Proof.
  intros Hh Hg. destruct (entry_formulas r Hr) as (_ & _ & HI).
  change (3 + n) with (S (2 + n)).
  rewrite (eval_entry_formula today wb Hwb (2 + n) (r, 9) (leased_expr r))
    by (exact HI || (apply entry_inputs_out; lia)).
  unfold leased_expr. cbn [eval_expr here default ref_row ref_col].
  rewrite HH, HG. cbn [mbind outcome_bind xl_compare].
  rewrite (guard_value h g Hh Hg). cbn [to_bool].
  destruct (bool_decide (is_empty h) || bool_decide (is_empty g)); [reflexivity|].
  destruct (xl_arith OpMul h g) as [v| |]; cbn [mbind outcome_bind]; try reflexivity.
  destruct (to_number v) as [[e|x]| |]; cbn [mbind outcome_bind to_number];
    rewrite ?xl_round_0; reflexivity.
Qed.

Lemma leased_empty :
  ~ is_error h -> ~ is_error g -> is_empty h \/ is_empty g ->
  eval_cell today wb (3 + n) PD (r, 9) = Ok (VText EmptyString).
Proof.
  intros Hh Hg Hempty. rewrite (leased_guard Hh Hg).
  destruct Hempty as [H|H].
  - rewrite (bool_decide_eq_true_2 _ H). reflexivity.
  - rewrite (bool_decide_eq_true_2 _ H), orb_true_r. reflexivity.
Qed.

Lemma leased_rounded (x y : Qc) :
  h = VNum x -> g = VNum y ->
  eval_cell today wb (3 + n) PD (r, 9) = Ok (VNum (num (round_half_away (x * y)%Qc))).
Proof.
  intros Eh Eg.
  rewrite leased_guard by (rewrite ?Eh, ?Eg; intros [? ?]; discriminate).
  rewrite Eh, Eg.
  rewrite !bool_decide_eq_false_2 by (intros [?|?]; discriminate).
  reflexivity.
Qed.
End Leased.

Lemma example_filled_in : filled_in example_workbook.
Proof.
  unfold example_workbook.
  repeat (apply filled_in_entry; [reflexivity | reflexivity |]).
  apply blank_filled_in.
Qed.

(** C2. In every entry row of a filled-in workbook the leased-beds cell
    (column I) evaluates to the empty text when the total-beds value or
    the effective percentage is empty, and for two numbers to their
    product rounded to the nearest integer, halves away from zero.  For a
    row with bedroom type 2 BR, 48 units, no prelease percentage and a
    2 BR market average of 0.55, the effective percentage is 0.55, the
    total beds are 96 and the leased beds are 53. *)
Theorem leased_beds_cell (today : Z) (wb : Workbook) (n r : nat) :
  filled_in wb -> 7 <= r <= 106 ->
  let G := eval_cell today wb (2 + n) PD (r, 7) in
  let H := eval_cell today wb (2 + n) PD (r, 8) in
  let I := eval_cell today wb (3 + n) PD (r, 9) in
  (forall h g, H = Ok h -> G = Ok g -> ~ is_error h -> ~ is_error g ->
     is_empty h \/ is_empty g -> I = Ok (VText EmptyString)) /\
  (forall x y, H = Ok (VNum x) -> G = Ok (VNum y) ->
     let z := round_half_away (x * y)%Qc in
     I = Ok (VNum (num z)) /\
     (Qabs ((x * y)%Qc - inject_Z z) <= 1 # 2)%Q /\
     (Qabs ((x * y)%Qc - inject_Z z) == 1 # 2 ->
        Qabs (x * y)%Qc < Qabs (inject_Z z))%Q) /\
  (input wb PD (r, 4) = VText "2 BR" -> input wb PD (r, 5) = VNum (num 48) ->
   is_empty (input wb PD (r, 6)) -> input wb MA (9, 3) = VNum (pct 55) ->
     G = Ok (VNum (pct 55)) /\ H = Ok (VNum (num 96)) /\ I = Ok (VNum (num 53))).
Proof.
  intros Hwb Hr G H I. split; [|split].
  - intros h g HH HG Hh Hg Hempty.
    apply (leased_empty today wb n r Hwb Hr h g HH HG Hh Hg Hempty).
  - intros x y HH HG z. split.
    + apply (leased_rounded today wb n r Hwb Hr (VNum x) (VNum y) HH HG); reflexivity.
    + apply round_half_away_nearest.
  - intros HD HE HF HM.
    assert (HG : G = Ok (VNum (pct 55))).
    { unfold G. rewrite effective_fallback; try assumption.
      - rewrite HD. compute_find. cbn [snd]. rewrite HM. reflexivity.
      - rewrite HD. intros [? ?]; discriminate. }
    assert (HH : H = Ok (VNum (num 96))).
    { unfold H. rewrite (total_beds_product today wb n r Hwb Hr (num 48)).
      - rewrite HD. do 2 f_equal; apply Qc_canon_eq; vm_compute; reflexivity.
      - rewrite HD. intros [? ?]; discriminate.
      - rewrite HD. intros [?|?]; discriminate.
      - exact HE. }
    split; [exact HG|]. split; [exact HH|].
    unfold I.
    rewrite (leased_rounded today wb n r Hwb Hr _ _ HH HG (num 96) (pct 55))
      by reflexivity.
    do 2 f_equal.
Qed.

Lemma leased_beds_cell_witness :
  filled_in example_workbook /\ 7 <= 7 <= 106 /\
  let G := eval_cell 0 example_workbook (2 + 0) PD (7, 7) in
  let H := eval_cell 0 example_workbook (2 + 0) PD (7, 8) in
  let I := eval_cell 0 example_workbook (3 + 0) PD (7, 9) in
  (forall h g, H = Ok h -> G = Ok g -> ~ is_error h -> ~ is_error g ->
     is_empty h \/ is_empty g -> I = Ok (VText EmptyString)) /\
  (forall x y, H = Ok (VNum x) -> G = Ok (VNum y) ->
     let z := round_half_away (x * y)%Qc in
     I = Ok (VNum (num z)) /\
     (Qabs ((x * y)%Qc - inject_Z z) <= 1 # 2)%Q /\
     (Qabs ((x * y)%Qc - inject_Z z) == 1 # 2 ->
        Qabs (x * y)%Qc < Qabs (inject_Z z))%Q) /\
  (input example_workbook PD (7, 4) = VText "2 BR" ->
   input example_workbook PD (7, 5) = VNum (num 48) ->
   is_empty (input example_workbook PD (7, 6)) ->
   input example_workbook MA (9, 3) = VNum (pct 55) ->
     G = Ok (VNum (pct 55)) /\ H = Ok (VNum (num 96)) /\ I = Ok (VNum (num 53))).
Proof.
  split; [apply example_filled_in|]. split; [lia|].
  apply (leased_beds_cell 0 example_workbook 0 7); [apply example_filled_in | lia].
Defined.

(** The worked example, evaluated. *)
Example leased_beds_example :
  eval_cell 0 example_workbook 2 PD (7, 7) = Ok (VNum (pct 55)) /\
  eval_cell 0 example_workbook 2 PD (7, 8) = Ok (VNum (num 96)) /\
  eval_cell 0 example_workbook 3 PD (7, 9) = Ok (VNum (num 53)).
Proof. vm_compute. auto. Qed.

(** ** Rows of the data model *)

Lemma number_or_empty_not_error (v : value) : number_or_empty v -> ~ is_error v.
Proof. intros [->|[x ->]] [e He]; discriminate. Qed.

Section TypedRow.
Variable today : Z.
Variable wb : Workbook.
Variable n r : nat.
Hypothesis Hwb : filled_in wb.
Hypothesis Hty : well_typed wb = true.
Hypothesis Hr : 7 <= r <= 106.

Lemma typed_inputs :
  text_or_blank (input wb PD (r, 4)) = true /\
  number_or_blank (input wb PD (r, 5)) = true /\
  number_or_blank (input wb PD (r, 6)) = true.
Proof.
  unfold well_typed in Hty. apply andb_true_iff in Hty. destruct Hty as [Hrows _].
  apply (forallb_seq _ 7 100 r) in Hrows; [|lia].
  unfold well_typed_row in Hrows. rewrite !andb_true_iff in Hrows. tauto.
Qed.

Lemma typed_names (c : nat) :
  c = 2 \/ c = 3 -> text_or_blank (input wb PD (r, c)) = true.
Proof.
  intros Hc. unfold well_typed in Hty. apply andb_true_iff in Hty.
  destruct Hty as [Hrows _]. apply (forallb_seq _ 7 100 r) in Hrows; [|lia].
  unfold well_typed_row in Hrows. rewrite !andb_true_iff in Hrows.
  destruct Hc as [->| ->]; tauto.
Qed.

Lemma typed_market (row : nat) :
  7 <= row <= 12 -> exists p, input wb MA (row, 3) = VNum p.
Proof.
  intros Hrow. unfold well_typed in Hty. apply andb_true_iff in Hty.
  destruct Hty as [_ Hma]. apply (forallb_seq _ 7 6 row) in Hma; [|lia].
  cbv beta in Hma. destruct (input wb MA (row, 3)); try discriminate Hma. eauto.
Qed.

Lemma effectivePercent_typed : number_or_empty (effectivePercent wb r).
Proof.
  destruct typed_inputs as (_ & _ & HF). unfold effectivePercent.
  destruct (decide (is_empty (input wb PD (r, 6)))) as [He|Hne].
  - destruct (List.find _ market_rows) as [p|] eqn:Efind; [|left; reflexivity].
    apply market_rows_range in Efind. destruct (typed_market p.2 Efind) as [x ->].
    right. exists x. reflexivity.
  - destruct (input wb PD (r, 6)) as [|x| | |]; try discriminate HF.
    + exfalso. apply Hne. left. reflexivity.
    + right. exists x. reflexivity.
Qed.

Lemma totalBeds_typed : number_or_empty (totalBeds wb r).
Proof.
  unfold totalBeds. destruct (input wb PD (r, 5)); try (left; reflexivity).
  destruct (decide _); [left; reflexivity | right; eexists; reflexivity].
Qed.

Lemma leasedBeds_typed : number_or_empty (leasedBeds wb r).
Proof.
  unfold leasedBeds.
  destruct (totalBeds wb r); try (left; reflexivity).
  destruct (effectivePercent wb r); try (left; reflexivity).
  right. eexists. reflexivity.
Qed.

Lemma effective_typed_value :
  eval_cell today wb (2 + n) PD (r, 7) = Ok (effectivePercent wb r).
Proof.
  destruct typed_inputs as (HD & _ & HF). unfold effectivePercent.
  destruct (decide (is_empty (input wb PD (r, 6)))) as [He|Hne].
  - apply effective_fallback; try assumption.
    intros [e Herr]. rewrite Herr in HD. discriminate.
  - apply effective_explicit; assumption.
Qed.

Lemma total_typed_value :
  eval_cell today wb (2 + n) PD (r, 8) = Ok (totalBeds wb r).
Proof.
  destruct typed_inputs as (HD & HE & _).
  assert (HDe : ~ is_error (input wb PD (r, 4)))
    by (intros [e Herr]; rewrite Herr in HD; discriminate).
  unfold totalBeds. destruct (input wb PD (r, 5)) as [|u| | |] eqn:EE;
    try discriminate HE.
  - apply total_beds_empty; try assumption.
    + rewrite EE. intros [? ?]; discriminate.
    + right. rewrite EE. left. reflexivity.
  - destruct (decide (is_empty (input wb PD (r, 4)))) as [He|Hne].
    + apply total_beds_empty; try assumption.
      * rewrite EE. intros [? ?]; discriminate.
      * left. exact He.
    + apply total_beds_product; assumption.
Qed.

Lemma leased_typed_value :
  eval_cell today wb (3 + n) PD (r, 9) = Ok (leasedBeds wb r).
Proof.
  pose proof total_typed_value as HH. pose proof effective_typed_value as HG.
  pose proof totalBeds_typed as Th. pose proof effectivePercent_typed as Tg.
  unfold leasedBeds.
  destruct Th as [Eh|[x Eh]].
  - rewrite Eh in *.
    apply (leased_empty today wb n r Hwb Hr _ _ HH HG).
    + intros [? ?]; discriminate.
    + apply number_or_empty_not_error, Tg.
    + left. right. reflexivity.
  - rewrite Eh in *. destruct Tg as [Eg|[y Eg]]; rewrite Eg in *.
    + apply (leased_empty today wb n r Hwb Hr _ _ HH HG).
      * intros [? ?]; discriminate.
      * intros [? ?]; discriminate.
      * right. right. reflexivity.
    + apply (leased_rounded today wb n r Hwb Hr _ _ HH HG); reflexivity.
Qed.
End TypedRow.

(** ** The report sheet *)

Lemma mirror_of_number_or_empty (v : value) : number_or_empty v -> mirror_of v = v.
Proof.
  unfold mirror_of. intros [->|[x ->]].
  - rewrite decide_True; [reflexivity | right; reflexivity].
  - rewrite decide_False; [reflexivity | intros [?|?]; discriminate].
Qed.

Lemma mirror_of_not_error (v : value) : ~ is_error v -> ~ is_error (mirror_of v).
Proof.
  unfold mirror_of. destruct (decide (is_empty v)); [|tauto].
  intros _ [? ?]; discriminate.
Qed.

Lemma mirrored_formula (r c src : nat) :
  8 <= r <= 107 -> In (c, src) mirrored_fields ->
  formula_at report_template (r, c) (mirror_expr src (r - 1)) = true.
Proof.
  intros Hr Hin. destruct (report_formulas r Hr) as (H2 & H3 & _ & H5 & H6 & H7).
  cbn in Hin. repeat destruct Hin as [Hin|Hin]; try contradiction;
    injection Hin as <- <-; assumption.
Qed.

Section Report.
Variable today : Z.
Variable wb : Workbook.
Hypothesis Hwb : filled_in wb.

Lemma mirror_value (m r c src : nat) (v : value) :
  formula_at report_template (r, c) (mirror_expr src (r - 1)) = true ->
  eval_cell today wb m PD (r - 1, src) = Ok v ->
  eval_cell today wb (S m) LBR (r, c) = Ok (mirror_of v).
Proof.
  intros Hat Hv. rewrite (eval_report_formula today wb Hwb m (r, c) _ Hat).
  unfold mirror_expr, mirror_of.
  cbn [eval_expr entry_cell default from_option id ref_row ref_col]. rewrite Hv.
  cbn [mbind outcome_bind xl_compare].
  destruct v as [|x|s|b|e] eqn:Ev.
  - rewrite decide_True by (left; reflexivity). reflexivity.
  - rewrite decide_False by (intros [?|?]; discriminate). reflexivity.
  - rewrite xl_equal_empty by (intros [? ?]; discriminate).
    cbn [of_bool to_bool]. unfold bool_decide, decide.
    destruct (is_empty_dec (VText s)) as [He|Hne]; reflexivity.
  - rewrite decide_False by (intros [?|?]; discriminate). reflexivity.
  - rewrite decide_False by (intros [?|?]; discriminate). reflexivity.
Qed.

(** Every source cell of a row of the data model has a value. *)
Lemma source_value (n r src : nat) :
  well_typed wb = true -> 7 <= r <= 106 -> In src mirrored_fields.*2 ->
  exists v, eval_cell today wb (3 + n) PD (r, src) = Ok v /\ ~ is_error v /\
            (src = 8 -> v = totalBeds wb r) /\ (src = 9 -> v = leasedBeds wb r).
Proof.
  intros Hty Hr Hin. cbn in Hin.
  destruct Hin as [<-|[<-|[<-|[<-|[<-|[]]]]]].
  - exists (input wb PD (r, 2)). split; [|split; [|split; discriminate]].
    + apply eval_entry_input; [exact Hwb | apply entry_inputs_in; lia].
    + pose proof (typed_names wb r Hty Hr 2 (or_introl eq_refl)) as Ht.
      intros [e He]. rewrite He in Ht. discriminate.
  - exists (input wb PD (r, 3)). split; [|split; [|split; discriminate]].
    + apply eval_entry_input; [exact Hwb | apply entry_inputs_in; lia].
    + pose proof (typed_names wb r Hty Hr 3 (or_intror eq_refl)) as Ht.
      intros [e He]. rewrite He in Ht. discriminate.
  - exists (totalBeds wb r). split; [|split; [|split; [reflexivity | discriminate]]].
    + apply (total_typed_value today wb (1 + n) r); assumption.
    + apply number_or_empty_not_error, totalBeds_typed.
  - exists (effectivePercent wb r). split; [|split; [|split; discriminate]].
    + apply (effective_typed_value today wb (1 + n) r); assumption.
    + apply number_or_empty_not_error, effectivePercent_typed; assumption.
  - exists (leasedBeds wb r). split; [|split; [|split; [discriminate | reflexivity]]].
    + apply (leased_typed_value today wb n r); assumption.
    + apply number_or_empty_not_error, leasedBeds_typed.
Qed.
End Report.

(** C4. In every report row (8..107) of a filled-in workbook, each
    mirrored cell (property name, floorplan name, total beds, effective
    percentage, leased beds) holds a formula; it evaluates to the value
    of the entry-sheet cell of the row above when that value is not
    empty, and to the empty text when it is empty.  For rows of the data
    model every source has a value and no mirror shows an error. *)
Theorem report_mirror_cell (today : Z) (wb : Workbook) (r : nat) :
  filled_in wb -> 8 <= r <= 107 ->
  (forall c src, In (c, src) mirrored_fields ->
     formula_at report_template (r, c) (mirror_expr src (r - 1)) = true) /\
  (forall c src m v, In (c, src) mirrored_fields ->
     eval_cell today wb m PD (r - 1, src) = Ok v ->
     (~ is_empty v -> eval_cell today wb (S m) LBR (r, c) = Ok v) /\
     (is_empty v -> eval_cell today wb (S m) LBR (r, c) = Ok (VText EmptyString))) /\
  (well_typed wb = true ->
   forall n c src, In (c, src) mirrored_fields ->
     exists v, eval_cell today wb (3 + n) PD (r - 1, src) = Ok v /\
               eval_cell today wb (4 + n) LBR (r, c) = Ok (mirror_of v) /\
               ~ is_error (mirror_of v)).
Proof.
  intros Hwb Hr. split; [|split].
  - intros c src Hin. apply mirrored_formula; assumption.
  - intros c src m v Hin Hv.
    pose proof (mirror_value today wb Hwb m r c src v
                  (mirrored_formula r c src Hr Hin) Hv) as Hm.
    unfold mirror_of in Hm. split; intros He.
    + rewrite decide_False in Hm by exact He. exact Hm.
    + rewrite decide_True in Hm by exact He. exact Hm.
  - intros Hty n c src Hin.
    destruct (source_value today wb Hwb n (r - 1) src Hty) as (v & Hv & Hne & _).
    + lia.
    + apply list_elem_of_In, list_elem_of_fmap. exists (c, src).
      split; [reflexivity | apply list_elem_of_In; exact Hin].
    + exists v. split; [exact Hv|]. split.
      * apply (mirror_value today wb Hwb (3 + n) r c src v); [|exact Hv].
        apply mirrored_formula; assumption.
      * apply mirror_of_not_error, Hne.
Qed.

Lemma sample_well_typed : well_typed sample_workbook = true.
Proof. vm_compute. reflexivity. Qed.

Lemma report_mirror_cell_witness :
  filled_in sample_workbook /\ 8 <= 8 <= 107 /\
  (forall c src, In (c, src) mirrored_fields ->
     formula_at report_template (8, c) (mirror_expr src (8 - 1)) = true) /\
  (forall c src m v, In (c, src) mirrored_fields ->
     eval_cell 0 sample_workbook m PD (8 - 1, src) = Ok v ->
     (~ is_empty v -> eval_cell 0 sample_workbook (S m) LBR (8, c) = Ok v) /\
     (is_empty v ->
        eval_cell 0 sample_workbook (S m) LBR (8, c) = Ok (VText EmptyString))) /\
  (well_typed sample_workbook = true ->
   forall n c src, In (c, src) mirrored_fields ->
     exists v, eval_cell 0 sample_workbook (3 + n) PD (8 - 1, src) = Ok v /\
               eval_cell 0 sample_workbook (4 + n) LBR (8, c) = Ok (mirror_of v) /\
               ~ is_error (mirror_of v)).
Proof.
  split; [apply sample_filled_in|]. split; [lia|].
  apply (report_mirror_cell 0 sample_workbook 8); [apply sample_filled_in | lia].
Defined.

(** ** The totals of the report *)

Lemma sum_non_empty_cons_empty (vs : list value) :
  sum_non_empty (VText EmptyString :: vs) = sum_non_empty vs.
Proof.
  unfold sum_non_empty. rewrite filter_cons_False; [reflexivity|].
  intros H. apply H. right. reflexivity.
Qed.

Lemma sum_non_empty_cons_number (x : Qc) (vs : list value) :
  sum_non_empty (VNum x :: vs) = (x + sum_non_empty vs)%Qc.
Proof.
  unfold sum_non_empty. rewrite filter_cons_True; [reflexivity|].
  intros [?|?]; discriminate.
Qed.

(** The conditional sum of the report: its criterion selects every
    number of the range, and the empty texts add nothing. *)
Lemma sumif_fold (vs : list value) (acc : Qc) :
  Forall number_or_empty vs ->
  fold_left (sum_step (CrNe dq)) vs (inr acc) = inr (acc + sum_non_empty vs)%Qc.
Proof.
  intros Hall. revert acc. induction Hall as [|v vs Hv _ IH]; intros acc.
  - cbn. unfold sum_non_empty. cbn. rewrite Qcplus_0_r. reflexivity.
  - cbn [fold_left]. destruct Hv as [->|[x ->]].
    + cbn [sum_step criterion_meets dq]. change (text_eqb EmptyString _) with false.
      cbn [negb]. rewrite IH, sum_non_empty_cons_empty. reflexivity.
    + cbn [sum_step criterion_meets dq]. rewrite IH, sum_non_empty_cons_number.
      rewrite Qcplus_assoc. reflexivity.
Qed.

Lemma eval_all_map {A} (deref : nat * nat -> outcome value) (g : A -> nat * nat)
    (f : A -> value) (l : list A) :
  (forall x, In x l -> deref (g x) = Ok (f x)) ->
  eval_all deref (g <$> l) = Ok (f <$> l).
Proof.
  induction l as [|a l IH]; intros H; [reflexivity|].
  cbn [fmap list_fmap eval_all]. rewrite (H a) by (left; reflexivity).
  cbn [mbind outcome_bind]. change (list_fmap _ _ g l) with (g <$> l).
  rewrite IH by (intros x Hx; apply H; right; exact Hx). reflexivity.
Qed.

Lemma sum_range (c : nat) :
  range_cells (CellRef false c false 8) (CellRef false c false 107) =
  (fun r => (S r, c)) <$> seq 7 100.
Proof.
  unfold range_cells. cbn [ref_row ref_col].
  replace (S c - c) with 1 by lia. change (S 107 - 8) with 100.
  rewrite <- seq_shift. generalize (seq 7 100). intros l.
  induction l as [|a l IH]; [reflexivity|].
  cbn. f_equal. exact IH.
Qed.

Section Totals.
Variable today : Z.
Variable wb : Workbook.
Hypothesis Hwb : filled_in wb.

Lemma sumif_value (m c : nat) (f : nat -> value) :
  formula_at report_template (110, c) (sum_expr c) = true ->
  (forall r, 7 <= r <= 106 ->
     eval_cell today wb m LBR (S r, c) = Ok (f r) /\ number_or_empty (f r)) ->
  eval_cell today wb (S m) LBR (110, c) = Ok (VNum (sum_non_empty (f <$> seq 7 100))).
Proof.
  intros Hat Hrows. rewrite (eval_report_formula today wb Hwb m (110, c) _ Hat).
  unfold sum_expr. cbn [eval_expr mbind outcome_bind default].
  change (parse_criterion (VText sum_criterion)) with (Ok (CrNe dq)).
  cbn [mbind outcome_bind]. rewrite sum_range.
  rewrite (eval_all_map _ _ f).
  - cbn [mbind outcome_bind]. rewrite sumif_fold.
    + change (num 0) with 0%Qc. rewrite Qcplus_0_l. reflexivity.
    + apply Forall_forall. intros v Hv. apply list_elem_of_fmap in Hv.
      destruct Hv as (r & -> & Hr). apply list_elem_of_In, in_seq in Hr.
      apply Hrows. lia.
  - intros r Hr. apply in_seq in Hr. apply Hrows. lia.
Qed.

Hypothesis Hty : well_typed wb = true.

Lemma mirrored_total (n r : nat) :
  7 <= r <= 106 ->
  eval_cell today wb (3 + n) LBR (S r, 5) = Ok (totalBeds wb r) /\
  number_or_empty (totalBeds wb r).
Proof.
  intros Hr. split; [|apply totalBeds_typed].
  rewrite <- (mirror_of_number_or_empty (totalBeds wb r)) by apply totalBeds_typed.
  apply (mirror_value today wb Hwb (2 + n) (S r) 5 8).
  - apply mirrored_formula; [lia | cbn; tauto].
  - replace (S r - 1) with r by lia. apply total_typed_value; assumption.
Qed.

Lemma mirrored_leased (n r : nat) :
  7 <= r <= 106 ->
  eval_cell today wb (4 + n) LBR (S r, 7) = Ok (leasedBeds wb r) /\
  number_or_empty (leasedBeds wb r).
Proof.
  intros Hr. split; [|apply leasedBeds_typed].
  rewrite <- (mirror_of_number_or_empty (leasedBeds wb r)) by apply leasedBeds_typed.
  apply (mirror_value today wb Hwb (3 + n) (S r) 7 9).
  - apply mirrored_formula; [lia | cbn; tauto].
  - replace (S r - 1) with r by lia. apply leased_typed_value; assumption.
Qed.

Lemma sum_total_beds_value (n : nat) :
  eval_cell today wb (4 + n) LBR (110, 5) =
    Ok (VNum (sum_non_empty (totalBeds wb <$> seq 7 100))).
Proof.
  destruct totals_formulas as (H5 & _ & _).
  apply (sumif_value (3 + n) 5 (totalBeds wb) H5).
  intros r Hr. apply mirrored_total. exact Hr.
Qed.

Lemma sum_leased_beds_value (n : nat) :
  eval_cell today wb (5 + n) LBR (110, 7) =
    Ok (VNum (sum_non_empty (leasedBeds wb <$> seq 7 100))).
Proof.
  destruct totals_formulas as (_ & H7 & _).
  apply (sumif_value (4 + n) 7 (leasedBeds wb) H7).
  intros r Hr. apply mirrored_leased. exact Hr.
Qed.
End Totals.

Lemma Qc_eqb_zero (x : Qc) : Qc_eqb x (num 0) = bool_decide (x = 0%Qc).
Proof.
  unfold Qc_eqb. destruct (bool_decide_reflect (x = 0%Qc)) as [->|Hne].
  - reflexivity.
  - destruct (Qeq_bool x (num 0)) eqn:E; [|reflexivity].
    exfalso. apply Hne. apply Qc_canon_eq. exact E.
Qed.

(** C6. In a filled-in workbook whose rows follow the data model, the
    total-beds sum of the report evaluates to the sum of the per-row
    total-beds values that are not empty, the leased-beds sum to the sum
    of the per-row leased-beds values that are not empty (both over the
    100 mirrored rows), and the overall percentage to the leased sum
    divided by the beds sum, or to the empty text when the beds sum is
    zero. *)
Theorem report_totals (today : Z) (wb : Workbook) (n : nat) :
  filled_in wb -> well_typed wb = true ->
  let sumTotalBeds := sum_non_empty (totalBeds wb <$> seq 7 100) in
  let sumLeasedBeds := sum_non_empty (leasedBeds wb <$> seq 7 100) in
  (forall r, 7 <= r <= 106 ->
     eval_cell today wb (4 + n) LBR (S r, 5) = Ok (totalBeds wb r) /\
     eval_cell today wb (4 + n) LBR (S r, 7) = Ok (leasedBeds wb r)) /\
  eval_cell today wb (5 + n) LBR (110, 5) = Ok (VNum sumTotalBeds) /\
  eval_cell today wb (5 + n) LBR (110, 7) = Ok (VNum sumLeasedBeds) /\
  eval_cell today wb (6 + n) LBR (112, 3) =
    Ok (if decide (sumTotalBeds = 0%Qc) then VText EmptyString
        else VNum (sumLeasedBeds / sumTotalBeds)%Qc).
Proof.
  intros Hwb Hty sumTotalBeds sumLeasedBeds.
  assert (HE : eval_cell today wb (5 + n) LBR (110, 5) = Ok (VNum sumTotalBeds))
    by apply (sum_total_beds_value today wb Hwb Hty (1 + n)).
  assert (HG : eval_cell today wb (5 + n) LBR (110, 7) = Ok (VNum sumLeasedBeds))
    by apply (sum_leased_beds_value today wb Hwb Hty n).
  split; [|split; [exact HE | split; [exact HG|]]].
  - intros r Hr. split.
    + apply (mirrored_total today wb Hwb Hty (1 + n) r Hr).
    + apply (mirrored_leased today wb Hwb Hty n r Hr).
  - destruct totals_formulas as (_ & _ & HO).
    change (6 + n) with (S (5 + n)).
    rewrite (eval_report_formula today wb Hwb (5 + n) (112, 3) _ HO).
    unfold overall_expr. cbn [eval_expr here default ref_row ref_col].
    rewrite HE, HG. cbn [mbind outcome_bind xl_compare xl_equal of_bool to_bool].
    change (num (Z.of_nat 0)) with (num 0). rewrite Qc_eqb_zero.
    destruct (decide (sumTotalBeds = 0%Qc)) as [Hz|Hnz].
    + rewrite (bool_decide_eq_true_2 _ Hz). reflexivity.
    + rewrite (bool_decide_eq_false_2 _ Hnz).
      cbn [xl_arith to_number mbind outcome_bind]. rewrite Qc_eqb_zero.
      rewrite (bool_decide_eq_false_2 _ Hnz). reflexivity.
Qed.

Lemma report_totals_witness :
  filled_in sample_workbook /\ well_typed sample_workbook = true /\
  let sumTotalBeds := sum_non_empty (totalBeds sample_workbook <$> seq 7 100) in
  let sumLeasedBeds := sum_non_empty (leasedBeds sample_workbook <$> seq 7 100) in
  (forall r, 7 <= r <= 106 ->
     eval_cell 0 sample_workbook (4 + 0) LBR (S r, 5) = Ok (totalBeds sample_workbook r) /\
     eval_cell 0 sample_workbook (4 + 0) LBR (S r, 7) = Ok (leasedBeds sample_workbook r)) /\
  eval_cell 0 sample_workbook (5 + 0) LBR (110, 5) = Ok (VNum sumTotalBeds) /\
  eval_cell 0 sample_workbook (5 + 0) LBR (110, 7) = Ok (VNum sumLeasedBeds) /\
  eval_cell 0 sample_workbook (6 + 0) LBR (112, 3) =
    Ok (if decide (sumTotalBeds = 0%Qc) then VText EmptyString
        else VNum (sumLeasedBeds / sumTotalBeds)%Qc).
Proof.
  split; [apply sample_filled_in|]. split; [apply sample_well_typed|].
  apply (report_totals 0 sample_workbook 0 sample_filled_in sample_well_typed).
Defined.

(** The totals of the sample rows: 968 beds, 513 leased, and their
    quotient; and the empty overall percentage of the workbook without
    rows. *)
Example sample_totals :
  eval_cell 0 sample_workbook 5 LBR (110, 5) = Ok (VNum (num 968)) /\
  eval_cell 0 sample_workbook 5 LBR (110, 7) = Ok (VNum (num 513)) /\
  eval_cell 0 sample_workbook 6 LBR (112, 3) = Ok (VNum (Q2Qc (513 # 968))) /\
  eval_cell 0 blank_workbook 6 LBR (112, 3) = Ok (VText EmptyString).
Proof. vm_compute. auto. Qed.

(** ** The two beds-per-unit lookups *)

(** The lookups are the ones the two formulas embed. *)
Lemma embedded_lookups :
  parse_formula (beds_formula 7) =
    Some (EIf (EOr (ECmp OpEq (here 4 7) (EStr EmptyString))
                   (ECmp OpEq (here 5 7) (EStr EmptyString)))
              (EStr EmptyString)
              (EBin OpMul (entry_beds_lookup (here 4 7)) (here 5 7))) /\
  parse_formula (report_beds_formula 7) = Some (report_beds_lookup (entry_cell 4 7)).
Proof. vm_compute. auto. Qed.

(** C5, as stated, fails.  For the bedroom type 6 BR the lookup of the
    entry sheet gives 0 and the lookup of the report gives the empty
    text: the two lookups are not the same function of the bedroom
    type. *)
Lemma beds_lookups_differ :
  let deref := eval_cell 0 six_br_workbook 1 in
  deref PD (7, 4) = Ok (VText "6 BR") /\
  eval_expr 0 deref PD (entry_beds_lookup (here 4 7)) = Ok (VNum (num 0)) /\
  eval_expr 0 deref LBR (report_beds_lookup (entry_cell 4 7)) = Ok (VText EmptyString) /\
  eval_expr 0 deref PD (entry_beds_lookup (here 4 7)) <>
  eval_expr 0 deref LBR (report_beds_lookup (entry_cell 4 7)).
Proof.
  cbv zeta.
  assert (H1 : eval_expr 0 (eval_cell 0 six_br_workbook 1) PD
                 (entry_beds_lookup (here 4 7)) = Ok (VNum (num 0)))
    by (vm_compute; reflexivity).
  assert (H2 : eval_expr 0 (eval_cell 0 six_br_workbook 1) LBR
                 (report_beds_lookup (entry_cell 4 7)) = Ok (VText EmptyString))
    by (vm_compute; reflexivity).
  split; [vm_compute; reflexivity|]. split; [exact H1|]. split; [exact H2|].
  rewrite H1, H2. discriminate.
Qed.

Lemma empty_matches_no_name (v : value) (name : string) :
  is_empty v -> In name bedroom_names -> matches v name = false.
Proof.
  intros [->| ->] Hin; [reflexivity|].
  cbn in Hin. repeat destruct Hin as [<-|Hin]; try contradiction; reflexivity.
Qed.

(** C5 (amended). For a bedroom type that matches one of the six names
    the lookup of the report's Beds/Unit formula and the lookup of the
    entry sheet's total-beds formula evaluate to the same number,
    bedsPerUnit; for a bedroom type that matches none of the names (the
    empty one included) the entry sheet's lookup evaluates to 0 and the
    report's to the empty text. *)
Theorem beds_lookups_compared (today : Z) (deref : string -> nat * nat -> outcome value)
    (cur : string) (d : expr) (vd : value) :
  eval_expr today deref cur d = Ok vd -> ~ is_error vd ->
  ((exists name, In name bedroom_names /\ matches vd name = true) ->
     eval_expr today deref cur (entry_beds_lookup d) =
       Ok (VNum (num (Z.of_nat (bedsPerUnit vd)))) /\
     eval_expr today deref cur (report_beds_lookup d) =
       Ok (VNum (num (Z.of_nat (bedsPerUnit vd)))) /\
     1 <= bedsPerUnit vd <= 5) /\
  ((forall name, In name bedroom_names -> matches vd name = false) ->
     eval_expr today deref cur (entry_beds_lookup d) = Ok (VNum (num 0)) /\
     eval_expr today deref cur (report_beds_lookup d) = Ok (VText EmptyString)).
Proof.
  intros Hd Hne.
  rewrite (eval_entry_beds_lookup today deref cur d vd Hd Hne).
  rewrite (eval_report_beds_lookup today deref cur d vd Hd Hne).
  split.
  - intros (name & Hin & Hm).
    assert (Hnot : ~ is_empty vd).
    { intros He. rewrite (empty_matches_no_name vd name He Hin) in Hm. discriminate. }
    rewrite (bool_decide_eq_false_2 _ Hnot). unfold bedsPerUnit.
    assert (Hrow : exists beds, In (name, beds) beds_table /\ 1 <= beds <= 5).
    { cbn in Hin. repeat destruct Hin as [<-|Hin]; try contradiction;
        eexists; (split; [cbn; eauto 10 | cbn; lia]). }
    destruct Hrow as (beds & Hrow & Hbeds).
    rewrite (matches_find vd name beds beds_table beds_table_nodup Hrow Hm).
    cbn [snd]. auto.
  - intros Hnone. unfold bedsPerUnit.
    rewrite (no_match_find vd beds_table) by exact Hnone.
    split; [reflexivity|]. destruct (bool_decide (is_empty vd)); reflexivity.
Qed.

Lemma beds_lookups_compared_witness :
  let deref := eval_cell 0 sample_workbook 1 in
  let vd := VText "Studio" in
  eval_expr 0 deref PD (here 4 7) = Ok vd /\ ~ is_error vd /\
  ((exists name, In name bedroom_names /\ matches vd name = true) ->
     eval_expr 0 deref PD (entry_beds_lookup (here 4 7)) =
       Ok (VNum (num (Z.of_nat (bedsPerUnit vd)))) /\
     eval_expr 0 deref PD (report_beds_lookup (here 4 7)) =
       Ok (VNum (num (Z.of_nat (bedsPerUnit vd)))) /\
     1 <= bedsPerUnit vd <= 5) /\
  ((forall name, In name bedroom_names -> matches vd name = false) ->
     eval_expr 0 deref PD (entry_beds_lookup (here 4 7)) = Ok (VNum (num 0)) /\
     eval_expr 0 deref PD (report_beds_lookup (here 4 7)) = Ok (VText EmptyString)).
Proof.
  cbv zeta.
  assert (Hd : eval_expr 0 (eval_cell 0 sample_workbook 1) PD (here 4 7) =
               Ok (VText "Studio")) by (vm_compute; reflexivity).
  assert (Hne : ~ is_error (VText "Studio")) by (intros [e He]; discriminate He).
  split; [exact Hd|]. split; [exact Hne|].
  apply (beds_lookups_compared 0 (eval_cell 0 sample_workbook 1) PD (here 4 7)
           (VText "Studio") Hd Hne).
Defined.

(** ** The conditional highlight *)

Lemma entry_rule :
  conditional_formatting entry_template =
  [ {| rule_range := "B7:I106"; rule_formula := market_avg_rule_formula;
       rule_fill := "FFF2CC" |} ].
Proof. vm_compute. reflexivity. Qed.

Lemma entry_rule_parsed :
  parse_range "B7:I106" = Some (CellRef false 2 false 7, CellRef false 9 false 106) /\
  parse_body (chars market_avg_rule_formula) = Some (market_avg_rule_expr 7).
Proof. vm_compute. auto. Qed.

Section Highlight.
Variable today : Z.
Variable wb : Workbook.
Variable n r c : nat.
Hypothesis Hwb : filled_in wb.
Hypothesis Hr : 7 <= r <= 106.
Hypothesis Hc : 2 <= c <= 9.

Lemma highlight_value :
  ~ is_error (input wb PD (r, 4)) ->
  highlighted today wb (1 + n) PD (r, c) =
    Ok (match input wb PD (r, 6) with
        | VErr _ => false
        | F => bool_decide (is_empty F) && negb (bool_decide (is_empty (input wb PD (r, 4))))
        end).
Proof.
  intros HD. destruct (find_sheets wb Hwb) as (ma & pd & rp & _ & Hf & _ & _ & Hpd & _).
  destruct template_titles as (_ & Tpd & _). destruct entry_rule_parsed as (Prange & Pbody).
  unfold highlighted. rewrite Hf, (ed_formats _ _ _ Hpd), entry_rule.
  cbn [any_rule]. unfold rule_applies. cbn [rule_range rule_formula].
  rewrite Prange, Pbody, (ed_title _ _ _ Hpd), Tpd.
  assert (Hin : in_range (CellRef false 2 false 7) (CellRef false 9 false 106) (r, c) = true).
  { unfold in_range. cbn [ref_row ref_col fst snd].
    rewrite !andb_true_iff, !Nat.leb_le. lia. }
  rewrite Hin. cbn [ref_row ref_col fst snd].
  unfold market_avg_rule_expr.
  cbn [shift_expr eval_expr default]. unfold shift_ref.
  cbn [col_abs row_abs ref_row ref_col].
  replace (7 + (r - 7)) with r by lia.
  rewrite !(eval_entry_input today wb Hwb n) by (apply entry_inputs_in; lia).
  cbn [mbind outcome_bind xl_compare].
  rewrite (xl_equal_empty (input wb PD (r, 4)) HD). cbn [negate of_bool].
  destruct (input wb PD (r, 6)) as [|x|s|b|e] eqn:EF.
  - rewrite xl_equal_empty by (intros [? ?]; discriminate). cbn [of_bool xl_logic to_bool].
    destruct (bool_decide _ && negb _); reflexivity.
  - rewrite xl_equal_empty by (intros [? ?]; discriminate). cbn [of_bool xl_logic to_bool].
    destruct (bool_decide _ && negb _); reflexivity.
  - rewrite xl_equal_empty by (intros [? ?]; discriminate). cbn [of_bool xl_logic to_bool].
    destruct (bool_decide _ && negb _); reflexivity.
  - rewrite xl_equal_empty by (intros [? ?]; discriminate). cbn [of_bool xl_logic to_bool].
    destruct (bool_decide _ && negb _); reflexivity.
  - reflexivity.
Qed.
End Highlight.

(** C7. In every entry row of a filled-in workbook whose bedroom type
    holds no error value, the conditional highlight attached to B7:I106
    applies to the cells of the row if and only if the bedroom type is
    not empty and the prelease percentage is empty. *)
Theorem market_average_highlight (today : Z) (wb : Workbook) (n r c : nat) :
  filled_in wb -> 7 <= r <= 106 -> 2 <= c <= 9 ->
  ~ is_error (input wb PD (r, 4)) ->
  exists b, highlighted today wb (1 + n) PD (r, c) = Ok b /\
            (b = true <-> ~ is_empty (input wb PD (r, 4)) /\ is_empty (input wb PD (r, 6))).
Proof.
  intros Hwb Hr Hc HD. rewrite (highlight_value today wb n r c Hwb Hr Hc HD).
  eexists. split; [reflexivity|].
  destruct (input wb PD (r, 6)) as [|x|s|b|e] eqn:EF;
    rewrite ?andb_true_iff, ?negb_true_iff, ?bool_decide_eq_true, ?bool_decide_eq_false;
    try tauto.
  split; [discriminate|]. intros [_ [?|?]]; discriminate.
Qed.

Lemma market_average_highlight_witness :
  filled_in sample_workbook /\ 7 <= 12 <= 106 /\ 2 <= 2 <= 9 /\
  ~ is_error (input sample_workbook PD (12, 4)) /\
  exists b, highlighted 0 sample_workbook (1 + 0) PD (12, 2) = Ok b /\
            (b = true <-> ~ is_empty (input sample_workbook PD (12, 4)) /\
                          is_empty (input sample_workbook PD (12, 6))).
Proof.
  assert (HD : ~ is_error (input sample_workbook PD (12, 4)))
    by (vm_compute; intros [e He]; discriminate He).
  split; [apply sample_filled_in|]. split; [lia|]. split; [lia|]. split; [exact HD|].
  apply (market_average_highlight 0 sample_workbook 0 12 2 sample_filled_in);
    [lia | lia | exact HD].
Defined.

(** The first two rows of the sample data and the first row that falls
    back to the market average: The Heights / Studio Deluxe (24 units at
    0.52) has 24 beds of which 12 are leased; University Village /
    Efficiency (20 units, no percentage) takes the Studio average 0.45
    and has 20 beds of which 9 are leased. *)
Example sample_rows :
  eval_cell 0 sample_workbook 2 PD (7, 8) = Ok (VNum (num 24)) /\
  eval_cell 0 sample_workbook 3 PD (7, 9) = Ok (VNum (num 12)) /\
  eval_cell 0 sample_workbook 2 PD (12, 7) = Ok (VNum (pct 45)) /\
  eval_cell 0 sample_workbook 2 PD (12, 8) = Ok (VNum (num 20)) /\
  eval_cell 0 sample_workbook 3 PD (12, 9) = Ok (VNum (num 9)).
Proof. vm_compute. auto 10. Qed.

(** In the sample rows, row 12 (no prelease percentage) is highlighted
    and row 7 (0.52 entered) is not. *)
Example sample_highlights :
  highlighted 0 sample_workbook 1 PD (12, 2) = Ok true /\
  highlighted 0 sample_workbook 1 PD (7, 2) = Ok false.
Proof. vm_compute. auto. Qed.

(** ** The coordinates of the market averages *)

(** C8. The Market Averages builder returns exactly one coordinate for
    each of the six bedroom types and for nothing else, no two types
    share a coordinate, the cell at each coordinate holds that type's
    default (with the type's name to its left), and the defaults are
    Studio 0.45, 1 BR 0.50, 2 BR 0.55, 3 BR 0.60, 4 BR 0.55,
    5 BR 0.50. *)
Theorem market_averages_builder :
  let ws := (setup_market_averages_sheet (new_sheet MA)).1 in
  let refs := (setup_market_averages_sheet (new_sheet MA)).2 in
  (forall name, refs !! name <> None <->
     In name ["Studio"; "1 BR"; "2 BR"; "3 BR"; "4 BR"; "5 BR"]) /\
  (forall name1 name2 coord,
     refs !! name1 = Some coord -> refs !! name2 = Some coord -> name1 = name2) /\
  (forall name default, In (name, default) bedroom_types ->
     exists coord row col,
       refs !! name = Some coord /\
       coordinate_to_tuple coord = Some (row, col) /\
       cells ws !! (row, col) = Some (VNum default) /\
       cells ws !! (row, col - 1) = Some (VText name)) /\
  bedroom_types =
    [ ("Studio", Q2Qc 0.45); ("1 BR", Q2Qc 0.50); ("2 BR", Q2Qc 0.55);
      ("3 BR", Q2Qc 0.60); ("4 BR", Q2Qc 0.55); ("5 BR", Q2Qc 0.50) ].
Proof.
  cbv zeta. change (setup_market_averages_sheet (new_sheet MA)).2 with market_avg_refs.
  split; [|split; [|split]].
  - intros name. split.
    + destruct (market_avg_refs !! name) as [coord|] eqn:E; [intros _|congruence].
      apply market_avg_refs_lookup in E. cbn in E. cbn.
      repeat destruct E as [E|E]; try contradiction; injection E as <- _; tauto.
    + intros Hin. cbn in Hin.
      repeat destruct Hin as [<-|Hin]; try contradiction; vm_compute; discriminate.
  - intros name1 name2 coord H1 H2.
    apply market_avg_refs_lookup in H1, H2. cbn in H1, H2.
    repeat destruct H1 as [H1|H1]; try contradiction; injection H1 as <- <-;
      repeat destruct H2 as [H2|H2]; try contradiction; injection H2 as <-;
      try reflexivity; discriminate.
  - intros name default Hin. cbn in Hin.
    repeat destruct Hin as [Hin|Hin]; try contradiction; injection Hin as <- <-;
      eexists _, _, _;
      (split; [vm_compute; reflexivity|]); (split; [vm_compute; reflexivity|]);
      split; vm_compute; reflexivity.
  - reflexivity.
Qed.

(** ** Two runs of the generator *)

Lemma sample_same_on_days (today1 today2 : Z) :
  forallb (same_on_days today1 today2 sample_workbook) (sheets sample_workbook) = true.
Proof. vm_compute. reflexivity. Qed.

Lemma report_date_formula :
  sheets sample_workbook !! 2 = Some report_template /\
  title report_template = LBR /\
  cells report_template !! (3, 2) = Some (VText "=TODAY()") /\
  is_formula "=TODAY()" = true.
Proof.
  rewrite sample_sheets. repeat split; try reflexivity; vm_compute; reflexivity.
Qed.

Lemma report_date_value (today : Z) :
  eval_cell today sample_workbook 6 LBR (3, 2) = Ok (VNum (num today)).
Proof. vm_compute. reflexivity. Qed.

Lemma is_report_date_false (sheet : string) (rc : nat * nat) :
  (sheet, rc) <> (LBR, (3, 2)) -> is_report_date sheet rc = false.
Proof.
  intros Hne. destruct (is_report_date sheet rc) eqn:E; [|reflexivity].
  exfalso. apply Hne. unfold is_report_date in E. destruct rc as [r c].
  cbn [fst snd] in E. rewrite !andb_true_iff, String.eqb_eq, !Nat.eqb_eq in E.
  destruct E as [[-> ->] ->]. reflexivity.
Qed.

(** C9. Two runs of the generator with the sample-data flag on, whatever
    their output paths: every formula cell of one workbook holds the same
    formula string in the other.  The derived values are the same too,
    whatever the days [today1] and [today2] on which the two workbooks are
    evaluated, for every formula cell but one: the date cell B3 of the
    report holds [=TODAY()], and its value is the day of the
    evaluation. *)
Theorem generation_deterministic (path1 path2 : string) (today1 today2 : Z) :
  let wb1 := saved (generate_workbook path1 true) in
  let wb2 := saved (generate_workbook path2 true) in
  (forall i ws1 rc s,
     sheets wb1 !! i = Some ws1 -> cells ws1 !! rc = Some (VText s) ->
     is_formula s = true ->
     exists ws2, sheets wb2 !! i = Some ws2 /\ title ws2 = title ws1 /\
                 cells ws2 !! rc = Some (VText s) /\
                 ((title ws1, rc) <> (LBR, (3, 2)) ->
                  exists v, eval_cell today1 wb1 6 (title ws1) rc = Ok v /\
                            eval_cell today2 wb2 6 (title ws1) rc = Ok v)) /\
  (exists ws, sheets wb1 !! 2 = Some ws /\ title ws = LBR /\
              cells ws !! (3, 2) = Some (VText "=TODAY()")) /\
  eval_cell today1 wb1 6 LBR (3, 2) = Ok (VNum (num today1)) /\
  eval_cell today2 wb2 6 LBR (3, 2) = Ok (VNum (num today2)).
Proof.
  cbv zeta.
  change (saved (generate_workbook path1 true)) with sample_workbook.
  change (saved (generate_workbook path2 true)) with sample_workbook.
  destruct report_date_formula as (Hrp & Ht & Hc3 & _).
  split; [|split; [eauto|split; apply report_date_value]].
  intros i ws1 rc s Hi Hc Hf. exists ws1.
  split; [exact Hi|]. split; [reflexivity|]. split; [exact Hc|]. intros Hne.
  pose proof (sample_same_on_days today1 today2) as Hall.
  rewrite forallb_forall in Hall.
  assert (Hin : In ws1 (sheets sample_workbook))
    by (apply list_elem_of_In, list_elem_of_lookup; eauto).
  specialize (Hall ws1 Hin). unfold same_on_days in Hall.
  rewrite forallb_forall in Hall.
  assert (Hcell : In (rc, VText s) (map_to_list (cells ws1)))
    by (apply list_elem_of_In, elem_of_map_to_list; exact Hc).
  specialize (Hall _ Hcell). cbn [fst snd] in Hall.
  rewrite Hf, (is_report_date_false _ _ Hne) in Hall.
  destruct (eval_cell today1 sample_workbook 6 (title ws1) rc) as [v1| |];
    try discriminate Hall.
  destruct (eval_cell today2 sample_workbook 6 (title ws1) rc) as [v2| |];
    try discriminate Hall.
  apply bool_decide_eq_true in Hall. subst v2. exists v1. auto.
Qed.

(** Two runs whose workbooks are evaluated on two consecutive days (the
    serial numbers 46000 and 46001): the date cell of the report holds
    the same formula string in both, and two different values. *)
Lemma report_date_differs :
  let wb1 := saved (generate_workbook "run1.xlsx" true) in
  let wb2 := saved (generate_workbook "run2.xlsx" true) in
  exists i ws1 ws2 rc s,
    sheets wb1 !! i = Some ws1 /\ sheets wb2 !! i = Some ws2 /\
    title ws2 = title ws1 /\
    cells ws1 !! rc = Some (VText s) /\ cells ws2 !! rc = Some (VText s) /\
    is_formula s = true /\
    eval_cell 46000 wb1 6 (title ws1) rc <> eval_cell 46001 wb2 6 (title ws1) rc.
Proof.
  cbv zeta.
  change (saved (generate_workbook "run1.xlsx" true)) with sample_workbook.
  change (saved (generate_workbook "run2.xlsx" true)) with sample_workbook.
  destruct report_date_formula as (Hrp & Ht & Hc3 & Hf).
  exists 2, report_template, report_template, (3, 2), "=TODAY()".
  repeat (split; [assumption || reflexivity|]).
  rewrite Ht, !report_date_value. intros H. vm_compute in H. discriminate H.
Qed.

(** ** The bedroom-type validation *)

Lemma entry_validations : data_validations entry_template = [entry_dv].
Proof. vm_compute. reflexivity. Qed.

Lemma bedroom_items (dv : DataValidation) :
  dv_formula1 dv = bedroom_options ->
  dv_items dv = Some ["Studio"; "1 BR"; "2 BR"; "3 BR"; "4 BR"; "5 BR"].
Proof. unfold dv_items. intros ->. vm_compute. reflexivity. Qed.

Lemma existsb_eqb (entry : string) (items : list string) :
  existsb (String.eqb entry) items = true <-> In entry items.
Proof.
  rewrite existsb_exists. split.
  - intros (x & Hin & Heq). apply String.eqb_eq in Heq. subst. exact Hin.
  - intros Hin. exists entry. split; [exact Hin | apply String.eqb_refl].
Qed.

(** C10. In a filled-in workbook every bedroom cell D7..D106 carries
    exactly one validation, the list validation of the generator.  It
    allows blanks and carries the message "Please select a valid bedroom
    type", but the generator never gives it [showErrorMessage] (nor an
    error style), so whether an entry is ever turned down is decided by
    the library's constructor default [show_error_default]: the empty
    entry and the six names are accepted under either default; another
    entry is turned down, with the message, exactly when the default is
    on, and is accepted without any message when the default is off. *)
Theorem bedroom_validation (wb : Workbook) (r : nat) (show_error_default : bool) :
  filled_in wb -> 7 <= r <= 106 ->
  exists pd dv,
    find_sheet wb PD = Some pd /\
    validations_of pd (r, 4) = [dv] /\
    dv_allow_blank dv = true /\
    dv_showErrorMessage dv = None /\
    dv_errorStyle dv = None /\
    dv_error dv = "Please select a valid bedroom type" /\
    dv_check show_error_default dv EmptyString = Ok Accepted /\
    forall entry,
      (show_error_default = true /\ entry <> EmptyString /\
       ~ In entry ["Studio"; "1 BR"; "2 BR"; "3 BR"; "4 BR"; "5 BR"] <->
       exists alert, dv_check show_error_default dv entry =
                       Ok (Rejected alert "Please select a valid bedroom type")) /\
      (show_error_default = false \/ entry = EmptyString \/
       In entry ["Studio"; "1 BR"; "2 BR"; "3 BR"; "4 BR"; "5 BR"] <->
       dv_check show_error_default dv entry = Ok Accepted).
Proof.
  intros Hwb Hr.
  destruct (find_sheets wb Hwb) as (ma & pd & rp & _ & Hf & _ & _ & Hpd & _).
  exists pd, entry_dv. split; [exact Hf|]. unfold validations_of.
  rewrite (ed_validations _ _ _ Hpd), entry_validations.
  split; [|repeat (split; [reflexivity|])].
  - rewrite filter_cons_True; [reflexivity|]. cbn [dv_sqref].
    apply list_elem_of_fmap. exists r. split; [reflexivity|].
    apply list_elem_of_In, in_seq. lia.
  - intros entry. unfold dv_check, error_alert_on.
    rewrite (bedroom_items entry_dv eq_refl).
    cbn [entry_dv dv_type dv_allow_blank dv_errorTitle dv_error dv_showErrorMessage
         dv_errorStyle default from_option id].
    change (String.eqb "list" "list") with true. cbv iota.
    destruct entry as [|ch rest].
    + split; split.
      * intros (_ & Hne & _). contradiction Hne. reflexivity.
      * intros [alert Ha]. discriminate Ha.
      * reflexivity.
      * auto.
    + set (entry := String ch rest).
      destruct (existsb (String.eqb entry) _) eqn:E.
      * apply existsb_eqb in E. split; split.
        -- intros (_ & _ & Hn). contradiction.
        -- intros [alert Ha]. discriminate Ha.
        -- reflexivity.
        -- auto.
      * assert (Hn : ~ In entry ["Studio"; "1 BR"; "2 BR"; "3 BR"; "4 BR"; "5 BR"]).
        { intros Hin. apply existsb_eqb in Hin. rewrite Hin in E. discriminate E. }
        destruct show_error_default; split; split.
        -- intros _. eexists. reflexivity.
        -- intros _. split; [reflexivity|]. split; [discriminate | exact Hn].
        -- intros [Hd|[Hemp|Hin]]; [discriminate Hd | discriminate Hemp | contradiction].
        -- discriminate.
        -- intros (Hd & _). discriminate Hd.
        -- intros [alert Ha]. discriminate Ha.
        -- reflexivity.
        -- auto.
Qed.

Lemma bedroom_validation_witness :
  filled_in sample_workbook /\ 7 <= 7 <= 106 /\
  exists pd dv,
    find_sheet sample_workbook PD = Some pd /\
    validations_of pd (7, 4) = [dv] /\
    dv_allow_blank dv = true /\
    dv_showErrorMessage dv = None /\
    dv_errorStyle dv = None /\
    dv_error dv = "Please select a valid bedroom type" /\
    dv_check false dv EmptyString = Ok Accepted /\
    forall entry,
      (false = true /\ entry <> EmptyString /\
       ~ In entry ["Studio"; "1 BR"; "2 BR"; "3 BR"; "4 BR"; "5 BR"] <->
       exists alert, dv_check false dv entry =
                       Ok (Rejected alert "Please select a valid bedroom type")) /\
      (false = false \/ entry = EmptyString \/
       In entry ["Studio"; "1 BR"; "2 BR"; "3 BR"; "4 BR"; "5 BR"] <->
       dv_check false dv entry = Ok Accepted).
Proof.
  split; [apply sample_filled_in|]. split; [lia|].
  apply (bedroom_validation sample_workbook 7 false sample_filled_in). lia.
Defined.

(** The entry 6 BR typed into a bedroom cell of the generated workbook:
    accepted without a message when the library leaves the error alert
    off, turned down when it turns the alert on. *)
Example six_br_entry :
  data_validations entry_template = [entry_dv] /\
  dv_check false entry_dv "6 BR" = Ok Accepted /\
  dv_check true entry_dv "6 BR" =
    Ok (Rejected "Invalid Entry" "Please select a valid bedroom type").
Proof. vm_compute. auto. Qed.

(** ** Formulas read only the cells they name *)

Lemma eval_all_ext (d1 d2 : nat * nat -> outcome value) (rcs : list (nat * nat)) :
  (forall rc, In rc rcs -> d1 rc = d2 rc) -> eval_all d1 rcs = eval_all d2 rcs.
Proof.
  induction rcs as [|rc rcs IH]; intros H; [reflexivity|].
  cbn [eval_all]. rewrite (H rc) by (left; reflexivity).
  rewrite IH by (intros x Hx; apply H; right; exact Hx). reflexivity.
Qed.

(** Two assignments of values to cells that agree on the cells a formula
    reads give the formula the same value. *)
Lemma eval_expr_ext (today : Z) (d1 d2 : string -> nat * nat -> outcome value)
    (cur : string) (e : expr) :
  (forall sh rc, In (sh, rc) (refs_of cur e) -> d1 sh rc = d2 sh rc) ->
  eval_expr today d1 cur e = eval_expr today d2 cur e.
Proof.
  induction e as [n|s|sh r|sh r1 r2|op a IHa b IHb|op a IHa b IHb|c IHc a IHa b IHb
                 |a IHa b IHb|a IHa b IHb|a IHa b IHb|a IHa b IHb|];
    intros H; cbn [eval_expr refs_of] in *; try reflexivity.
  - apply H. left. reflexivity.
  - rewrite IHa, IHb; [reflexivity | |]; intros sh rc Hin; apply H, in_or_app; auto.
  - rewrite IHa, IHb; [reflexivity | |]; intros sh rc Hin; apply H, in_or_app; auto.
  - rewrite IHc, IHa, IHb; [reflexivity | | |]; intros sh rc Hin; apply H;
      repeat (apply in_or_app; auto; right); auto.
  - rewrite IHa, IHb; [reflexivity | |]; intros sh rc Hin; apply H, in_or_app; auto.
  - rewrite IHa, IHb; [reflexivity | |]; intros sh rc Hin; apply H, in_or_app; auto.
  - rewrite IHa, IHb; [reflexivity | |]; intros sh rc Hin; apply H, in_or_app; auto.
  - destruct a as [| | |sh r1 r2| | | | | | | |]; try reflexivity.
    rewrite IHb by (intros sh' rc Hin; apply H, in_or_app; auto).
    rewrite (eval_all_ext (d1 (default cur sh)) (d2 (default cur sh))); [reflexivity|].
    intros rc Hin. apply H, in_or_app. left. cbn [refs_of].
    apply list_elem_of_In, list_elem_of_fmap. exists rc. split; [reflexivity|].
    apply list_elem_of_In. exact Hin.
Qed.

(** ** Typing into a filled-in workbook *)

Lemma find_three (wb : Workbook) (ma pd rp : Worksheet) :
  sheets wb = [ma; pd; rp] -> title ma = MA -> title pd = PD -> title rp = LBR ->
  find_sheet wb MA = Some ma /\ find_sheet wb PD = Some pd /\ find_sheet wb LBR = Some rp.
Proof.
  intros Hs Tma Tpd Trp. unfold find_sheet. rewrite Hs. cbn [List.find].
  rewrite Tma, Tpd, Trp. repeat split; reflexivity.
Qed.

Lemma filled_in_titles (wb : Workbook) (ma pd rp : Worksheet) :
  edited market_inputs market_template ma ->
  edited entry_inputs entry_template pd ->
  edited no_inputs report_template rp ->
  title ma = MA /\ title pd = PD /\ title rp = LBR.
Proof.
  intros Hma Hpd Hrp. destruct template_titles as (Tma & Tpd & Trp).
  rewrite (ed_title _ _ _ Hma), (ed_title _ _ _ Hpd), (ed_title _ _ _ Hrp). auto.
Qed.

Section Typing.
Variable wb : Workbook.
Hypothesis Hwb : filled_in wb.
Variable r c : nat.
Variable v : value.

Lemma input_type_entry (rc : nat * nat) :
  input (type_entry r c v wb) PD rc =
    if decide (rc = (r, c)) then typed v else input wb PD rc.
Proof.
  destruct Hwb as (ma & pd & rp & Hs & Hma & Hpd & Hrp).
  destruct (filled_in_titles wb ma pd rp Hma Hpd Hrp) as (Tma & Tpd & Trp).
  unfold input, find_sheet, type_entry, on_sheet. cbn [sheets]. rewrite Hs.
  cbn [alter list_alter List.find]. change (title (ws_cell r c v pd)) with (title pd).
  rewrite Tma, Tpd. change (text_eqb MA PD) with false. change (text_eqb PD PD) with true.
  cbv iota. apply cell_content_ws_cell.
Qed.

Lemma input_type_entry_market (rc : nat * nat) :
  input (type_entry r c v wb) MA rc = input wb MA rc.
Proof.
  destruct Hwb as (ma & pd & rp & Hs & Hma & Hpd & Hrp).
  destruct (filled_in_titles wb ma pd rp Hma Hpd Hrp) as (Tma & Tpd & Trp).
  unfold input, find_sheet, type_entry, on_sheet. cbn [sheets]. rewrite Hs.
  cbn [alter list_alter List.find]. rewrite Tma. reflexivity.
Qed.

Lemma input_type_market (rc : nat * nat) :
  input (type_market r v wb) MA rc =
    if decide (rc = (r, 3)) then typed v else input wb MA rc.
Proof.
  destruct Hwb as (ma & pd & rp & Hs & Hma & Hpd & Hrp).
  destruct (filled_in_titles wb ma pd rp Hma Hpd Hrp) as (Tma & Tpd & Trp).
  unfold input, find_sheet, type_market, on_sheet. cbn [sheets]. rewrite Hs.
  cbn [alter list_alter List.find]. change (title (ws_cell r 3 v ma)) with (title ma).
  rewrite Tma. change (text_eqb MA MA) with true. cbv iota. apply cell_content_ws_cell.
Qed.

Lemma input_type_market_entry (rc : nat * nat) :
  input (type_market r v wb) PD rc = input wb PD rc.
Proof.
  destruct Hwb as (ma & pd & rp & Hs & Hma & Hpd & Hrp).
  destruct (filled_in_titles wb ma pd rp Hma Hpd Hrp) as (Tma & Tpd & Trp).
  unfold input, find_sheet, type_market, on_sheet. cbn [sheets]. rewrite Hs.
  cbn [alter list_alter List.find]. change (title (ws_cell r 3 v ma)) with (title ma).
  rewrite Tma, Tpd. reflexivity.
Qed.
End Typing.

Lemma type_entry_filled_in (wb : Workbook) (r c : nat) (v : value) :
  entry_inputs (r, c) = true -> is_constant v = true ->
  filled_in wb -> filled_in (type_entry r c v wb).
Proof. apply filled_in_entry. Qed.

Lemma type_market_filled_in (wb : Workbook) (r : nat) (v : value) :
  market_inputs (r, 3) = true -> is_constant v = true ->
  filled_in wb -> filled_in (type_market r v wb).
Proof. apply filled_in_market. Qed.

(** ** What a row's derived cells depend on *)

Section TwoWorkbooks.
Variable today : Z.
Variable wb1 wb2 : Workbook.
Hypothesis Hwb1 : filled_in wb1.
Hypothesis Hwb2 : filled_in wb2.
Variable n r : nat.
Hypothesis Hr : 7 <= r <= 106.

Lemma entry_deref_agree (c : nat) :
  2 <= c <= 6 -> input wb1 PD (r, c) = input wb2 PD (r, c) ->
  eval_cell today wb1 (S n) PD (r, c) = eval_cell today wb2 (S n) PD (r, c).
Proof.
  intros Hc Heq. rewrite !eval_entry_input by (assumption || (apply entry_inputs_in; lia)).
  rewrite Heq. reflexivity.
Qed.

Lemma market_deref_agree (row : nat) :
  7 <= row <= 12 -> input wb1 MA (row, 3) = input wb2 MA (row, 3) ->
  eval_cell today wb1 (S n) MA (row, 3) = eval_cell today wb2 (S n) MA (row, 3).
Proof.
  intros Hrow Heq.
  rewrite !eval_market_input by (assumption || (apply market_inputs_in; lia)).
  rewrite Heq. reflexivity.
Qed.

Hypothesis HD : input wb1 PD (r, 4) = input wb2 PD (r, 4).
Hypothesis HE : input wb1 PD (r, 5) = input wb2 PD (r, 5).

(** The total beds of a row depend on its bedroom type and units only. *)
Lemma total_beds_agree :
  eval_cell today wb1 (2 + n) PD (r, 8) = eval_cell today wb2 (2 + n) PD (r, 8).
Proof.
  destruct (entry_formulas r Hr) as (_ & HH & _).
  change (2 + n) with (S (S n)).
  rewrite (eval_entry_formula today wb1 Hwb1 (S n) (r, 8) (beds_expr r))
    by (assumption || (apply entry_inputs_out; lia)).
  rewrite (eval_entry_formula today wb2 Hwb2 (S n) (r, 8) (beds_expr r))
    by (assumption || (apply entry_inputs_out; lia)).
  rewrite (eval_expr_ext today (eval_cell today wb1 (S n)) (eval_cell today wb2 (S n)));
    [reflexivity|].
  intros sh rc Hin. cbn in Hin.
  repeat destruct Hin as [Hin|Hin]; try contradiction; injection Hin as <- <-;
    apply entry_deref_agree; (lia || assumption).
Qed.

Hypothesis HF : input wb1 PD (r, 6) = input wb2 PD (r, 6).

Lemma leased_agree :
  eval_cell today wb1 (2 + n) PD (r, 7) = eval_cell today wb2 (2 + n) PD (r, 7) ->
  eval_cell today wb1 (3 + n) PD (r, 9) = eval_cell today wb2 (3 + n) PD (r, 9).
Proof.
  intros HG. destruct (entry_formulas r Hr) as (_ & _ & HI).
  change (3 + n) with (S (2 + n)).
  rewrite (eval_entry_formula today wb1 Hwb1 (2 + n) (r, 9) (leased_expr r))
    by (assumption || (apply entry_inputs_out; lia)).
  rewrite (eval_entry_formula today wb2 Hwb2 (2 + n) (r, 9) (leased_expr r))
    by (assumption || (apply entry_inputs_out; lia)).
  rewrite (eval_expr_ext today (eval_cell today wb1 (2 + n)) (eval_cell today wb2 (2 + n)));
    [reflexivity|].
  intros sh rc Hin. cbn in Hin.
  repeat destruct Hin as [Hin|Hin]; try contradiction; injection Hin as <- <-;
    (exact HG || apply total_beds_agree).
Qed.

Lemma effective_agree :
  (forall row, 7 <= row <= 12 -> input wb1 MA (row, 3) = input wb2 MA (row, 3)) ->
  eval_cell today wb1 (2 + n) PD (r, 7) = eval_cell today wb2 (2 + n) PD (r, 7).
Proof.
  intros HM. destruct (entry_formulas r Hr) as (HG & _ & _).
  change (2 + n) with (S (S n)).
  rewrite (eval_entry_formula today wb1 Hwb1 (S n) (r, 7) (effective_expr r))
    by (assumption || (apply entry_inputs_out; lia)).
  rewrite (eval_entry_formula today wb2 Hwb2 (S n) (r, 7) (effective_expr r))
    by (assumption || (apply entry_inputs_out; lia)).
  rewrite (eval_expr_ext today (eval_cell today wb1 (S n)) (eval_cell today wb2 (S n)));
    [reflexivity|].
  intros sh rc Hin. cbn in Hin.
  repeat destruct Hin as [Hin|Hin]; try contradiction; injection Hin as <- <-;
    first [ apply entry_deref_agree; (lia || assumption)
          | apply market_deref_agree; [lia | apply HM; lia] ].
Qed.

Lemma effective_agree_explicit :
  ~ is_empty (input wb1 PD (r, 6)) ->
  eval_cell today wb1 (2 + n) PD (r, 7) = eval_cell today wb2 (2 + n) PD (r, 7).
Proof.
  intros Hne. rewrite (effective_explicit today wb1 n r Hwb1 Hr Hne).
  rewrite HF in Hne. rewrite (effective_explicit today wb2 n r Hwb2 Hr Hne).
  rewrite HF. reflexivity.
Qed.
End TwoWorkbooks.







(** ** Rows that are not filled in, or filled in wrongly *)

Lemma is_empty_not_error (v : value) : is_empty v -> ~ is_error v.
Proof. intros [-> | ->] [e He]; discriminate He. Qed.

Lemma empty_no_market_row (v : value) :
  is_empty v -> List.find (fun p => matches v p.1) market_rows = None.
Proof.
  intros He. apply no_match_find. intros name Hin.
  apply (empty_matches_no_name v name He). exact Hin.
Qed.

Lemma mirror_of_empty (v : value) : is_empty v -> mirror_of v = VText EmptyString.
Proof. intros He. unfold mirror_of. rewrite decide_True by exact He. reflexivity. Qed.

Section ReportBeds.
Variable today : Z.
Variable wb : Workbook.
Hypothesis Hwb : filled_in wb.
Variable n r : nat.
Hypothesis Hr : 8 <= r <= 107.

Lemma report_beds_value :
  ~ is_error (input wb PD (r - 1, 4)) ->
  eval_cell today wb (2 + n) LBR (r, 4) =
    Ok (if bool_decide (is_empty (input wb PD (r - 1, 4))) then VText EmptyString
        else match List.find (fun p => matches (input wb PD (r - 1, 4)) p.1) beds_table with
             | Some p => VNum (num (Z.of_nat p.2))
             | None => VText EmptyString
             end).
Proof.
  intros HD. destruct (report_formulas r Hr) as (_ & _ & H4 & _).
  change (2 + n) with (S (S n)).
  rewrite (eval_report_formula today wb Hwb (S n) (r, 4) _ H4).
  unfold report_beds_expr.
  rewrite (eval_report_beds_lookup today _ LBR (entry_cell 4 (r - 1))
             (input wb PD (r - 1, 4))).
  - cbn [mbind outcome_bind].
    destruct (bool_decide _); [reflexivity|].
    destruct (List.find _ beds_table); reflexivity.
  - cbn [eval_expr entry_cell default from_option id ref_row ref_col].
    apply eval_entry_input; [exact Hwb | apply entry_inputs_in; lia].
  - exact HD.
Qed.

Lemma report_beds_error (e : xl_error) :
  input wb PD (r - 1, 4) = VErr e ->
  eval_cell today wb (2 + n) LBR (r, 4) = Ok (VErr e).
Proof.
  intros HD. destruct (report_formulas r Hr) as (_ & _ & H4 & _).
  change (2 + n) with (S (S n)).
  rewrite (eval_report_formula today wb Hwb (S n) (r, 4) _ H4).
  unfold report_beds_expr, report_beds_lookup.
  cbn [eval_expr entry_cell default from_option id ref_row ref_col].
  rewrite (eval_entry_input today wb Hwb n) by (apply entry_inputs_in; lia).
  rewrite HD. reflexivity.
Qed.
End ReportBeds.



Section BlankRow.
Variable today : Z.
Variable wb : Workbook.
Hypothesis Hwb : filled_in wb.
Variable n r : nat.
Hypothesis Hr : 7 <= r <= 106.
Hypothesis HD : is_empty (input wb PD (r, 4)).

Lemma empty_bedroom_total :
  ~ is_error (input wb PD (r, 5)) ->
  eval_cell today wb (2 + n) PD (r, 8) = Ok (VText EmptyString).
Proof.
  intros HE. apply total_beds_empty; try assumption.
  - apply is_empty_not_error, HD.
  - left. exact HD.
Qed.

Lemma empty_bedroom_effective :
  is_empty (input wb PD (r, 6)) ->
  eval_cell today wb (2 + n) PD (r, 7) = Ok (VText EmptyString).
Proof.
  intros HF. rewrite effective_fallback; try assumption.
  - rewrite (empty_no_market_row _ HD). reflexivity.
  - apply is_empty_not_error, HD.
Qed.

Lemma empty_bedroom_leased (g : value) :
  ~ is_error (input wb PD (r, 5)) ->
  eval_cell today wb (2 + n) PD (r, 7) = Ok g -> ~ is_error g ->
  eval_cell today wb (3 + n) PD (r, 9) = Ok (VText EmptyString).
Proof.
  intros HE HG Hg.
  apply (leased_empty today wb n r Hwb Hr (VText EmptyString) g);
    [apply empty_bedroom_total; exact HE | exact HG | | exact Hg | ].
  - intros [e He]. discriminate He.
  - left. right. reflexivity.
Qed.

Lemma empty_bedroom_highlight (c : nat) :
  2 <= c <= 9 -> highlighted today wb (1 + n) PD (r, c) = Ok false.
Proof.
  intros Hc. rewrite highlight_value; try assumption; [|apply is_empty_not_error, HD].
  rewrite (bool_decide_eq_true_2 _ HD). cbn [negb].
  destruct (input wb PD (r, 6)); rewrite ?andb_false_r; reflexivity.
Qed.
End BlankRow.




(** A workbook with a percentage in a row that has no bedroom type. *)
Lemma percent_only_filled_in : filled_in (type_entry 7 6 (VNum (pct 50)) blank_workbook).
Proof.
  apply type_entry_filled_in; [reflexivity | reflexivity | apply blank_filled_in].
Qed.


Lemma to_number_no_digit (s : string) :
  no_digit s = true -> to_number (VText s) = Ok (inl VALUE).
Proof.
  unfold no_digit, to_number. destruct (chars s) as [|ch cs] eqn:E; [discriminate|].
  intros H. apply negb_true_iff in H.
  assert (Hall : forallb is_digit (ch :: cs) = false).
  { cbn [forallb existsb] in *. apply orb_false_iff in H. destruct H as [-> _]. reflexivity. }
  rewrite Hall, H. reflexivity.
Qed.

Lemma no_digit_not_empty (s : string) : no_digit s = true -> ~ is_empty (VText s).
Proof.
  intros H [He|He]; [discriminate He|]. injection He as ->. discriminate H.
Qed.

Section TextUnits.
Variable today : Z.
Variable wb : Workbook.
Hypothesis Hwb : filled_in wb.
Variable n r : nat.
Hypothesis Hr : 7 <= r <= 106.

Lemma total_beds_text_units (s : string) :
  ~ is_error (input wb PD (r, 4)) -> ~ is_empty (input wb PD (r, 4)) ->
  input wb PD (r, 5) = VText s -> no_digit s = true ->
  eval_cell today wb (2 + n) PD (r, 8) = Ok (VErr VALUE).
Proof.
  intros HD HDe HE Hs.
  rewrite (total_beds_guard today wb n r Hwb Hr HD)
    by (rewrite HE; intros [e He]; discriminate He).
  rewrite (bool_decide_eq_false_2 _ HDe), HE.
  rewrite (bool_decide_eq_false_2 _ (no_digit_not_empty s Hs)).
  cbn [orb]. unfold xl_arith. rewrite (to_number_no_digit s Hs). reflexivity.
Qed.

(** An error in the total beds is the value of the leased beds. *)
Lemma leased_total_error (e : xl_error) (g : value) :
  eval_cell today wb (2 + n) PD (r, 8) = Ok (VErr e) ->
  eval_cell today wb (2 + n) PD (r, 7) = Ok g ->
  eval_cell today wb (3 + n) PD (r, 9) = Ok (VErr e).
Proof.
  intros HH HG. destruct (entry_formulas r Hr) as (_ & _ & HI).
  change (3 + n) with (S (2 + n)).
  rewrite (eval_entry_formula today wb Hwb (2 + n) (r, 9) (leased_expr r))
    by (exact HI || (apply entry_inputs_out; lia)).
  unfold leased_expr. cbn [eval_expr here default ref_row ref_col].
  rewrite HH, HG. cbn [mbind outcome_bind xl_compare xl_equal of_bool xl_logic to_bool].
  reflexivity.
Qed.

(** The effective percentage has a value whenever the bedroom cell holds
    no error value. *)
Lemma effective_has_value :
  ~ is_error (input wb PD (r, 4)) ->
  exists g, eval_cell today wb (2 + n) PD (r, 7) = Ok g.
Proof.
  intros HD. destruct (decide (is_empty (input wb PD (r, 6)))) as [HF|HF].
  - rewrite effective_fallback by assumption. eauto.
  - rewrite effective_explicit by assumption. eauto.
Qed.
End TextUnits.


Lemma text_units_filled_in : filled_in text_units_workbook.
Proof.
  unfold text_units_workbook.
  repeat (apply type_entry_filled_in; [reflexivity | reflexivity |]).
  apply blank_filled_in.
Qed.


(** ** Bounds *)

Lemma Qc_mult_this (x y : Qc) : (this (x * y)%Qc == this x * this y)%Q.
Proof. unfold Qcmult. cbn [this Q2Qc]. apply Qred_correct. Qed.

Lemma num_this (z : Z) : (this (num z) == inject_Z z)%Q.
Proof. unfold num. cbn [this Q2Qc]. apply Qred_correct. Qed.

(** Rounding a share of a whole number of beds stays within it. *)
Lemma round_share_bound (t : Z) (y : Qc) :
  (0 <= t)%Z -> (0 <= y)%Qc -> (y <= 1)%Qc ->
  (0 <= round_half_away (num t * y)%Qc <= t)%Z.
Proof.
  intros Ht Hy0 Hy1. unfold Qcle in Hy0, Hy1. cbn [this Q2Qc] in Hy0, Hy1.
  change (this (Q2Qc 0)) with 0%Q in Hy0. change (this 1%Qc) with 1%Q in Hy1.
  set (x := (num t * y)%Qc).
  assert (Hx : (this x == inject_Z t * this y)%Q)
    by (unfold x; rewrite Qc_mult_this, num_this; reflexivity).
  assert (Ht' : (0 <= inject_Z t)%Q)
    by (change 0%Q with (inject_Z 0); rewrite <- Zle_Qle; exact Ht).
  assert (Hx0 : (0 <= this x)%Q) by (rewrite Hx; apply Qmult_le_0_compat; assumption).
  assert (Hx1 : (this x <= inject_Z t)%Q).
  { rewrite Hx. rewrite <- (Qmult_1_r (inject_Z t)) at 2.
    rewrite (Qmult_comm (inject_Z t) (this y)), (Qmult_comm (inject_Z t) 1).
    apply Qmult_le_compat_r; assumption. }
  unfold round_half_away, Qc_nonneg.
  assert (Hb : Qle_bool 0 (this x) = true) by (apply Qle_bool_iff; exact Hx0).
  rewrite Hb. split.
  - rewrite <- (Qfloor_Z 0). apply Qfloor_resp_le. change (inject_Z 0) with 0%Q. lra.
  - pose proof (Qfloor_le (this x + (1 # 2))) as Hlo.
    assert (Hlt : (inject_Z (Qfloor (this x + (1 # 2))) < inject_Z (t + 1))%Q).
    { rewrite inject_Z_plus. change (inject_Z 1) with 1%Q. lra. }
    rewrite <- Zlt_Qlt in Hlt. lia.
Qed.



(** ** Where the validation and the highlight apply *)

Lemma other_formats :
  conditional_formatting market_template = [] /\
  conditional_formatting report_template = [] /\
  data_validations market_template = [] /\
  data_validations report_template = [].
Proof. vm_compute. auto. Qed.





(** ** The sample rows *)

Lemma for_each_invariant {A} (P : Worksheet -> Prop) (xs : list A)
    (body : A -> Worksheet -> Worksheet) :
  Forall (fun x => forall ws, P ws -> P (body x ws)) xs ->
  forall ws, P ws -> P (for_each xs body ws).
Proof.
  unfold for_each. induction 1 as [|x xs Hx _ IH]; intros ws Hws; [exact Hws|].
  cbn [fold_left]. apply IH, Hx, Hws.
Qed.

Lemma sample_frame_refl (ws : Worksheet) : sample_frame ws ws.
Proof. split; auto. Qed.

Lemma sample_frame_ws_cell (ws0 ws : Worksheet) (r c : nat) (v : value) :
  7 <= r <= 21 -> 2 <= c <= 6 -> (c = 6 -> ~ 12 <= r <= 17) -> is_constant v = true ->
  sample_frame ws0 ws -> sample_frame ws0 (ws_cell r c v ws).
Proof.
  intros Hr Hc Hp Hv [Ht Hd Hf Ho Hn Hk]. split; cbn [ws_cell title data_validations
    conditional_formatting cells]; try assumption.
  - intros rc Hout. rewrite lookup_insert_ne; [apply Ho, Hout|].
    intros <-. apply Hout. cbn [fst snd]. lia.
  - intros i Hi. rewrite lookup_insert_ne; [apply Hn, Hi|].
    intros [= -> ->]. apply Hp; [reflexivity | exact Hi].
  - intros rc w Hw. destruct (decide ((r, c) = rc)) as [<-|Hne].
    + rewrite lookup_insert_eq in Hw. injection Hw as <-. right. exact Hv.
    + rewrite lookup_insert_ne in Hw by exact Hne. apply Hk, Hw.
Qed.

Lemma add_sample_data_sample_frame (ws : Worksheet) :
  sample_frame ws (add_sample_data ws).
Proof.
  unfold add_sample_data. apply (for_each_invariant (sample_frame ws)).
  - unfold sample_data. cbn [enumerate].
    repeat (apply Forall_cons; split;
            [intros w Hw; cbn [decide];
             repeat match goal with
                    | |- context [decide ?P] => destruct (decide P) as [Heq|Hneq];
                                                 [try discriminate Heq|try (exfalso; apply Hneq; reflexivity)]
                    end;
             repeat (apply sample_frame_ws_cell;
                     [lia | lia | (intros Hc; try discriminate Hc; lia) | reflexivity |]);
             exact Hw|]).
    apply Forall_nil. exact I.
  - apply sample_frame_refl.
Qed.


(** ** No circular references *)

Lemma bind_fuel {A B} (m : outcome A) (k : A -> outcome B) :
  m <> OutOfFuel -> (forall a, k a <> OutOfFuel) -> (m ≫= k) <> OutOfFuel.
Proof. destruct m; cbn; auto; discriminate. Qed.

Lemma to_number_fuel (v : value) : to_number v <> OutOfFuel.
Proof.
  destruct v as [|x|s|b|e]; try discriminate. cbn [to_number].
  destruct (chars s); [discriminate|].
  destruct (forallb is_digit (a :: l)); [discriminate|].
  destruct (existsb is_digit (a :: l)); discriminate.
Qed.

Lemma xl_arith_fuel (op : binop) (a b : value) : xl_arith op a b <> OutOfFuel.
Proof.
  unfold xl_arith. apply bind_fuel; [apply to_number_fuel|]. intros na.
  apply bind_fuel; [apply to_number_fuel|]. intros nb.
  destruct na, nb, op; try discriminate; destruct (Qc_eqb _ _); discriminate.
Qed.

Lemma parse_criterion_fuel (v : value) : parse_criterion v <> OutOfFuel.
Proof.
  destruct v as [|x|s|b|e]; try discriminate. cbn [parse_criterion].
  repeat match goal with
         | |- context [match ?x with _ => _ end] => destruct x
         end; discriminate.
Qed.

Lemma eval_all_fuel (d : nat * nat -> outcome value) (rcs : list (nat * nat)) :
  (forall rc, In rc rcs -> d rc <> OutOfFuel) -> eval_all d rcs <> OutOfFuel.
Proof.
  induction rcs as [|rc rcs IH]; intros H; [discriminate|].
  cbn [eval_all]. apply bind_fuel; [apply H; left; reflexivity|]. intros v.
  apply bind_fuel; [apply IH; intros x Hx; apply H; right; exact Hx|]. discriminate.
Qed.

(** A formula has a value, or leaves the modelled fragment, as soon as
    the cells it names do. *)
Lemma eval_expr_fuel (today : Z) (d : string -> nat * nat -> outcome value)
    (cur : string) (e : expr) :
  (forall sh rc, In (sh, rc) (refs_of cur e) -> d sh rc <> OutOfFuel) ->
  eval_expr today d cur e <> OutOfFuel.
Proof.
  induction e as [n|s|sh r|sh r1 r2|op a IHa b IHb|op a IHa b IHb|c IHc a IHa b IHb
                 |a IHa b IHb|a IHa b IHb|a IHa b IHb|a IHa b IHb|];
    intros H; cbn [eval_expr refs_of] in *; try discriminate.
  - apply H. left. reflexivity.
  - apply bind_fuel; [apply IHa; intros; apply H, in_or_app; auto|]. intros va.
    apply bind_fuel; [apply IHb; intros; apply H, in_or_app; auto|]. discriminate.
  - apply bind_fuel; [apply IHa; intros; apply H, in_or_app; auto|]. intros va.
    apply bind_fuel; [apply IHb; intros; apply H, in_or_app; auto|]. intros vb.
    apply xl_arith_fuel.
  - apply bind_fuel; [apply IHc; intros; apply H, in_or_app; auto|]. intros vc.
    destruct (to_bool vc) as [err|[|]]; [discriminate | |].
    + apply IHa; intros; apply H, in_or_app; right; apply in_or_app; auto.
    + apply IHb; intros; apply H, in_or_app; right; apply in_or_app; auto.
  - apply bind_fuel; [apply IHa; intros; apply H, in_or_app; auto|]. intros va.
    apply bind_fuel; [apply IHb; intros; apply H, in_or_app; auto|]. discriminate.
  - apply bind_fuel; [apply IHa; intros; apply H, in_or_app; auto|]. intros va.
    apply bind_fuel; [apply IHb; intros; apply H, in_or_app; auto|]. discriminate.
  - apply bind_fuel; [apply IHa; intros; apply H, in_or_app; auto|]. intros va.
    apply bind_fuel; [apply IHb; intros; apply H, in_or_app; auto|]. intros vb.
    apply bind_fuel; [apply to_number_fuel|]. intros na.
    apply bind_fuel; [apply to_number_fuel|]. intros nb.
    destruct na, nb; discriminate.
  - destruct a as [| | |sh r1 r2| | | | | | | |]; try discriminate.
    apply bind_fuel; [apply IHb; intros; apply H, in_or_app; auto|]. intros vc.
    assert (Hsum : (cr ← parse_criterion vc;
                    vs ← eval_all (d (default cur sh)) (range_cells r1 r2);
                    Ok (sum_result (fold_left (sum_step cr) vs (inr (num 0)))))
                   <> OutOfFuel).
    { apply bind_fuel; [apply parse_criterion_fuel|]. intros cr.
      apply bind_fuel; [|discriminate].
      apply eval_all_fuel. intros rc Hin. apply H, in_or_app. left. cbn [refs_of].
      apply list_elem_of_In, list_elem_of_fmap. exists rc. split; [reflexivity|].
      apply list_elem_of_In. exact Hin. }
    destruct vc; try exact Hsum. discriminate.
Qed.

Lemma eval_cell_S (today : Z) (wb : Workbook) (fuel : nat) (sheet : string)
    (rc : nat * nat) :
  eval_cell today wb (S fuel) sheet rc =
  match find_sheet wb sheet with
  | None => Ok (VErr REF)
  | Some ws =>
      match cell_content ws rc with
      | VText s =>
          if is_formula s then
            match parse_formula s with
            | None => Unmodelled
            | Some e =>
                v ← eval_expr today (eval_cell today wb fuel) (title ws) e;
                Ok (formula_result v)
            end
          else Ok (VText s)
      | v => Ok v
      end
  end.
Proof. reflexivity. Qed.

Lemma depth_pos (sheet : string) (rc : nat * nat) : 1 <= depth sheet rc.
Proof.
  unfold depth. destruct (String.eqb sheet PD).
  - destruct rc.2 as [|[|[|[|[|[|[|[|[|[|c]]]]]]]]]]; lia.
  - destruct (String.eqb sheet LBR); [|lia].
    destruct (Nat.eqb rc.1 112); [lia|]. destruct (Nat.eqb rc.1 110); [lia|].
    destruct rc.2 as [|[|[|[|[|[|[|[|c]]]]]]]]; lia.
Qed.

Lemma templates_refs_shorter :
  refs_shorter market_template = true /\ refs_shorter entry_template = true /\
  refs_shorter report_template = true.
Proof. vm_compute. auto. Qed.

Lemma cell_content_text (ws : Worksheet) (rc : nat * nat) (s : string) :
  cell_content ws rc = VText s -> cells ws !! rc = Some (VText s).
Proof.
  unfold cell_content. destruct (cells ws !! rc) as [[| |[|? ?]| |]|]; try discriminate;
    intros [= <-]; reflexivity.
Qed.

Lemma known_sheet_cases (sheet : string) :
  known_sheet sheet = true -> sheet = MA \/ sheet = PD \/ sheet = LBR.
Proof.
  unfold known_sheet. cbn [existsb]. rewrite !orb_true_iff, !String.eqb_eq.
  intros [H|[H|[H|H]]]; auto. discriminate H.
Qed.

Section Chains.
Variable today : Z.
Variable wb : Workbook.
Hypothesis Hwb : filled_in wb.

(** A sheet found by name is one of the three generated sheets, edited. *)
Lemma found_sheet (sheet : string) (ws : Worksheet) :
  find_sheet wb sheet = Some ws ->
  exists inputs ws0, edited inputs ws0 ws /\ refs_shorter ws0 = true.
Proof.
  intros Hf. destruct Hwb as (ma & pd & rp & Hs & Hma & Hpd & Hrp).
  destruct templates_refs_shorter as (Sma & Spd & Srp).
  unfold find_sheet in Hf. apply find_some in Hf. destruct Hf as [Hin _].
  rewrite Hs in Hin. cbn [In] in Hin.
  destruct Hin as [<-|[<-|[<-|[]]]]; eauto.
Qed.

(** The formulas of a filled-in workbook are in the modelled fragment;
    the cells they name lie on the three sheets and are nearer to the
    constants. *)
Lemma formula_refs (sheet : string) (ws : Worksheet) (rc : nat * nat) (s : string) :
  find_sheet wb sheet = Some ws -> cell_content ws rc = VText s -> is_formula s = true ->
  exists e, parse_formula s = Some e /\
    forall sh rc', In (sh, rc') (refs_of (title ws) e) ->
      exists ws', find_sheet wb sh = Some ws' /\ title ws' = sh /\
                  depth sh rc' < depth (title ws) rc.
Proof.
  intros Hf Hc Hs. destruct (found_sheet sheet ws Hf) as (inputs & ws0 & Hed & Hsh).
  pose proof (ed_cells _ _ _ Hed rc) as Hrc.
  destruct (inputs rc).
  { rewrite Hc in Hrc. cbn [is_constant] in Hrc. rewrite Hs in Hrc. discriminate. }
  apply cell_content_text in Hc. rewrite Hrc in Hc.
  unfold refs_shorter in Hsh. rewrite forallb_forall in Hsh.
  assert (Hcell : In (rc, VText s) (map_to_list (cells ws0)))
    by (apply list_elem_of_In, elem_of_map_to_list; exact Hc).
  specialize (Hsh _ Hcell). cbn [fst snd] in Hsh. rewrite Hs in Hsh.
  destruct (parse_formula s) as [e|]; [|discriminate].
  exists e. split; [reflexivity|]. intros sh rc' Hin.
  rewrite forallb_forall in Hsh. rewrite (ed_title _ _ _ Hed) in Hin |- *.
  specialize (Hsh _ Hin). cbn [fst snd] in Hsh.
  apply andb_true_iff in Hsh. destruct Hsh as [Hk Hd].
  apply Nat.ltb_lt in Hd.
  destruct (find_sheets wb Hwb) as (ma & pd & rp & Fma & Fpd & Frp & Ema & Epd & Erp).
  destruct (filled_in_titles wb ma pd rp Ema Epd Erp) as (Tma & Tpd & Trp).
  destruct (known_sheet_cases sh Hk) as [-> | [-> | ->]]; eauto.
Qed.

Lemma chain_bound (k : nat) :
  forall sheet ws rc, find_sheet wb sheet = Some ws -> depth (title ws) rc <= k ->
  forall n, eval_cell today wb (k + n) sheet rc = eval_cell today wb k sheet rc /\
            eval_cell today wb k sheet rc <> OutOfFuel.
Proof.
  induction k as [|k IH]; intros sheet ws rc Hf Hd n.
  { pose proof (depth_pos (title ws) rc). lia. }
  change (S k + n) with (S (k + n)). rewrite !eval_cell_S, Hf.
  destruct (cell_content ws rc) as [|x|s|b|err] eqn:Hc;
    try (split; [reflexivity | discriminate]).
  destruct (is_formula s) eqn:Hs; [|split; [reflexivity | discriminate]].
  destruct (formula_refs sheet ws rc s Hf Hc Hs) as (e & -> & Hrefs).
  assert (Hsame : eval_expr today (eval_cell today wb (k + n)) (title ws) e =
                  eval_expr today (eval_cell today wb k) (title ws) e).
  { apply eval_expr_ext. intros sh rc' Hin.
    destruct (Hrefs sh rc' Hin) as (ws' & Hf' & Ht' & Hlt).
    apply (IH sh ws' rc' Hf'). rewrite Ht'. lia. }
  rewrite Hsame. split; [reflexivity|].
  apply bind_fuel; [|discriminate].
  apply eval_expr_fuel. intros sh rc' Hin.
  destruct (Hrefs sh rc' Hin) as (ws' & Hf' & Ht' & Hlt).
  apply (IH sh ws' rc' Hf' ltac:(rewrite Ht'; lia) 0).
Qed.

Lemma depth_le_6 (sheet : string) (rc : nat * nat) : depth sheet rc <= 6.
Proof.
  unfold depth. destruct (String.eqb sheet PD).
  - destruct rc.2 as [|[|[|[|[|[|[|[|[|[|c]]]]]]]]]]; lia.
  - destruct (String.eqb sheet LBR); [|lia].
    destruct (Nat.eqb rc.1 112); [lia|]. destruct (Nat.eqb rc.1 110); [lia|].
    destruct rc.2 as [|[|[|[|[|[|[|[|c]]]]]]]]; lia.
Qed.
End Chains.



(** ** The overall percentage is a share *)

Lemma num_plus (a b : Z) : (num a + num b)%Qc = num (a + b).
Proof.
  apply Qc_is_canon. unfold Qcplus. cbn [this Q2Qc]. rewrite !Qred_correct.
  rewrite !num_this. rewrite inject_Z_plus. reflexivity.
Qed.

Lemma num_mult (a b : Z) : (num a * num b)%Qc = num (a * b).
Proof.
  apply Qc_is_canon. rewrite Qc_mult_this, !num_this, inject_Z_mult. reflexivity.
Qed.

Lemma count_number (u : Qc) :
  Pos.eqb (Qden u) 1 && Z.leb 0 (Qnum u) = true -> exists z, u = num z /\ (0 <= z)%Z.
Proof.
  rewrite andb_true_iff, Pos.eqb_eq, Z.leb_le. intros [Hd Hn].
  exists (Qnum u). split; [|exact Hn].
  apply Qc_is_canon. rewrite num_this. destruct u as [[p q] Hc].
  cbn [this Qnum Qden] in *. subst q. reflexivity.
Qed.

Lemma share_number (y : Qc) :
  Qle_bool 0 y && Qle_bool y 1 = true -> (0 <= y)%Qc /\ (y <= 1)%Qc.
Proof.
  rewrite andb_true_iff, !Qle_bool_iff. intros [H0 H1]. split; assumption.
Qed.

Lemma sum_non_empty_all (vs : list value) :
  sum_non_empty vs = foldr Qcplus 0%Qc (number_of <$> vs).
Proof.
  unfold sum_non_empty. induction vs as [|v vs IH]; [reflexivity|].
  rewrite filter_cons. destruct (decide (~ is_empty v)) as [Hne|He].
  - cbn [fmap list_fmap foldr] in *. rewrite IH. reflexivity.
  - rewrite IH. cbn [fmap list_fmap foldr].
    assert (Hz : number_of v = 0%Qc).
    { destruct (decide (is_empty v)) as [[->| ->]|Hn]; [reflexivity | reflexivity|].
      exfalso. apply He. exact Hn. }
    rewrite Hz, Qcplus_0_l. reflexivity.
Qed.

(** Sums of whole numbers in which every leased count stays within its
    total. *)
Lemma sums_ordered (total leased : nat -> value) (rows : list nat) :
  (forall r, In r rows ->
     exists t l : Z, number_of (total r) = num t /\ number_of (leased r) = num l /\
                     (0 <= l <= t)%Z) ->
  exists T L : Z,
    sum_non_empty (total <$> rows) = num T /\ sum_non_empty (leased <$> rows) = num L /\
    (0 <= L <= T)%Z.
Proof.
  rewrite !sum_non_empty_all. induction rows as [|r rows IH]; intros H.
  - exists 0%Z, 0%Z. repeat split; reflexivity || lia.
  - destruct IH as (T & L & HT & HL & Hb); [intros x Hx; apply H; right; exact Hx|].
    destruct (H r ltac:(left; reflexivity)) as (t & l & Ht & Hl & Hr).
    exists (t + T)%Z, (l + L)%Z. cbn [fmap list_fmap foldr] in *.
    rewrite HT, HL, Ht, Hl, !num_plus. repeat split; lia.
Qed.

Lemma quotient_share (L T : Z) :
  (0 <= L <= T)%Z -> T <> 0%Z -> (0 <= num L / num T)%Qc /\ (num L / num T <= 1)%Qc.
Proof.
  intros HL HT.
  assert (Hq : (this (num L / num T)%Qc == inject_Z L / inject_Z T)%Q).
  { unfold Qcdiv, Qcinv. rewrite Qc_mult_this. cbn [this Q2Qc].
    rewrite Qred_correct, !num_this. reflexivity. }
  assert (HT' : (0 < inject_Z T)%Q)
    by (change 0%Q with (inject_Z 0); rewrite <- Zlt_Qlt; lia).
  assert (HL0 : (0 <= inject_Z L)%Q)
    by (change 0%Q with (inject_Z 0); rewrite <- Zle_Qle; lia).
  assert (HLT : (inject_Z L <= inject_Z T)%Q) by (rewrite <- Zle_Qle; lia).
  unfold Qcle. change (this 0%Qc) with 0%Q. change (this 1%Qc) with 1%Q.
  rewrite Hq. split.
  - apply Qle_shift_div_l; [exact HT'|]. rewrite Qmult_0_l. exact HL0.
  - apply Qle_shift_div_r; [exact HT'|]. rewrite Qmult_1_l. exact HLT.
Qed.

Lemma num_inj (a b : Z) : num a = num b -> a = b.
Proof.
  intros H. assert (Hq : (inject_Z a == inject_Z b)%Q)
    by (rewrite <- !num_this, H; reflexivity).
  unfold Qeq in Hq. cbn [inject_Z Qnum Qden] in Hq. lia.
Qed.

Section Plausible.
Variable today : Z.
Variable wb : Workbook.
Hypothesis Hwb : filled_in wb.
Hypothesis Hty : well_typed wb = true.
Hypothesis Hpl : plausible wb = true.

Lemma plausible_row (r : nat) :
  7 <= r <= 106 ->
  count_or_blank (input wb PD (r, 5)) = true /\ share_or_blank (input wb PD (r, 6)) = true.
Proof.
  intros Hr. unfold plausible in Hpl. apply andb_true_iff in Hpl.
  destruct Hpl as [Hrows _]. apply (forallb_seq _ 7 100 r) in Hrows; [|lia].
  apply andb_true_iff in Hrows. exact Hrows.
Qed.

Lemma plausible_market (row : nat) :
  7 <= row <= 12 -> share_or_blank (input wb MA (row, 3)) = true.
Proof.
  intros Hr. unfold plausible in Hpl. apply andb_true_iff in Hpl.
  destruct Hpl as [_ Hma]. apply (forallb_seq _ 7 6 row) in Hma; [|lia]. exact Hma.
Qed.

Lemma effective_share (r : nat) (y : Qc) :
  7 <= r <= 106 -> effectivePercent wb r = VNum y -> (0 <= y)%Qc /\ (y <= 1)%Qc.
Proof.
  intros Hr. destruct (plausible_row r Hr) as [_ HF]. unfold effectivePercent.
  destruct (decide (is_empty (input wb PD (r, 6)))) as [He|Hne].
  - destruct (List.find _ market_rows) as [p|] eqn:Efind; [|discriminate].
    apply market_rows_range in Efind. pose proof (plausible_market p.2 Efind) as Hm.
    destruct (input wb MA (p.2, 3)) as [|x| | |]; try discriminate Hm.
    + intros [= <-]. split; vm_compute; discriminate.
    + intros [= <-]. apply share_number, Hm.
  - intros E. rewrite E in HF. apply share_number, HF.
Qed.

Lemma row_ordered (r : nat) :
  7 <= r <= 106 ->
  exists t l : Z, number_of (totalBeds wb r) = num t /\
                  number_of (leasedBeds wb r) = num l /\ (0 <= l <= t)%Z.
Proof.
  intros Hr. destruct (plausible_row r Hr) as [HE _].
  pose proof (effective_share r) as Hshare.
  unfold leasedBeds. unfold totalBeds at 1 2.
  destruct (input wb PD (r, 5)) as [|u| | |]; try discriminate HE;
    try (exists 0%Z, 0%Z; repeat split; reflexivity || lia).
  destruct (decide (is_empty (input wb PD (r, 4))));
    [exists 0%Z, 0%Z; repeat split; reflexivity || lia|].
  destruct (count_number u HE) as (z & -> & Hz).
  rewrite num_mult. set (t := (Z.of_nat (bedsPerUnit (input wb PD (r, 4%nat))) * z)%Z).
  assert (Ht : (0 <= t)%Z) by (unfold t; lia).
  destruct (effectivePercent wb r) as [|y| | |];
    try (exists t, 0%Z; repeat split; reflexivity || lia).
  destruct (Hshare y Hr eq_refl) as [Hy0 Hy1].
  exists t, (round_half_away (num t * y)%Qc). split; [reflexivity|]. split; [reflexivity|].
  apply round_share_bound; assumption.
Qed.

Lemma overall_value (n : nat) (T L : Qc) :
  eval_cell today wb (5 + n) LBR (110, 5) = Ok (VNum T) ->
  eval_cell today wb (5 + n) LBR (110, 7) = Ok (VNum L) ->
  eval_cell today wb (6 + n) LBR (112, 3) =
    Ok (if decide (T = 0%Qc) then VText EmptyString else VNum (L / T)%Qc).
Proof.
  intros HE HG. destruct totals_formulas as (_ & _ & HO).
  change (6 + n) with (S (5 + n)).
  rewrite (eval_report_formula today wb Hwb (5 + n) (112, 3) _ HO).
  unfold overall_expr. cbn [eval_expr here default ref_row ref_col].
  rewrite HE, HG. cbn [mbind outcome_bind xl_compare xl_equal of_bool to_bool].
  change (num (Z.of_nat 0)) with (num 0). rewrite Qc_eqb_zero.
  destruct (decide (T = 0%Qc)) as [Hz|Hnz].
  - rewrite (bool_decide_eq_true_2 _ Hz). reflexivity.
  - rewrite (bool_decide_eq_false_2 _ Hnz).
    cbn [xl_arith to_number mbind outcome_bind]. rewrite Qc_eqb_zero.
    rewrite (bool_decide_eq_false_2 _ Hnz). reflexivity.
Qed.
End Plausible.


Lemma sample_plausible : plausible sample_workbook = true.
Proof. vm_compute. reflexivity. Qed.


(** ** The workbook of a run *)

Lemma stdout_lines (path : string) (flag : bool) :
  stdout (generate_workbook path flag) =
  [ "Creating Market Survey Analysis Tool...";
    "  Setting up Market Averages sheet...";
    "  Setting up Property Data sheet...";
    "  Setting up Leased Beds Report sheet..." ] ++
  (if flag then ["  Adding sample data..."] else []) ++
  [ "  Saving to " +:+ path +:+ "...";
    nl +:+ "Success! Created " +:+ path;
    nl +:+ "How to use:";
    "  1. Open 'Market Averages' sheet to set your market default prelease %";
    "  2. Enter property/floorplan data in 'Property Data' sheet";
    "  3. View calculated results in 'Leased Beds Report' sheet";
    nl +:+ "Tip: Rows highlighted in yellow are using market averages " +:+
      "(no property-specific % entered)" ].
Proof. destruct flag; reflexivity. Qed.

Lemma run_sheets (path : string) (flag : bool) :
  sheets (saved (generate_workbook path flag)) =
  [ market_template;
    if flag then add_sample_data entry_template else entry_template;
    report_template ].
Proof. destruct flag; reflexivity. Qed.

Lemma set_active_title (i : nat) (wb : Workbook) :
  active (set_active i wb) = title <$> (sheets (set_active i wb) !! i).
Proof. reflexivity. Qed.

Lemma run_active (path : string) (flag : bool) :
  active (saved (generate_workbook path flag)) =
  title <$> (sheets (saved (generate_workbook path flag)) !! 1).
Proof.
  unfold generate_workbook. destruct flag; cbv beta iota zeta; cbn [saved];
    apply set_active_title.
Qed.

Lemma run_filled_in (path : string) (flag : bool) :
  filled_in (saved (generate_workbook path flag)).
Proof.
  destruct flag.
  - change (saved (generate_workbook path true)) with sample_workbook.
    apply sample_filled_in.
  - change (saved (generate_workbook path false)) with blank_workbook.
    apply blank_filled_in.
Qed.

